(** * A model of dashboard.py: account store, page router, dashboard pipeline

    The development embeds the Python module [dashboard.py] function by
    function.  Python [str] values are modelled by [string], one [ascii]
    per code point, so the model covers the strings whose code points are
    below 256; on those the class [\d] of the [re] module is exactly
    [0-9].  What the module delegates to another system is either a
    field of the class [Externals] (the comparison of the MySQL server,
    bcrypt, chardet, pandas, the admin credentials of the environment)
    or part of the [World] the code runs in (the table, the session
    state, the outcome of the coming connections and statements, the
    salts).  A run leaves a trace of its Streamlit and database calls.

    Outline: regular expressions and the validators; data; the monad of
    the script; the account store; widgets; the pages and the router;
    vocabulary and samples; then the properties, claim by claim. *)

From Stdlib Require Import List String Ascii Bool Arith Lia.
Import ListNotations.
Local Open Scope string_scope.
Local Open Scope list_scope.

(** ** Regular expressions, as far as the two validators use them *)

Module Re.

Inductive re : Type :=
| Void                          (* matches no string *)
| Eps                           (* matches the empty string *)
| Class (p : ascii -> bool)     (* one character of a class *)
| Cat (r s : re)
| Alt (r s : re)
| Star (r : re).

Definition Plus (r : re) : re := Cat r (Star r).          (* r+ *)
Definition Opt (r : re) : re := Alt r Eps.                (* r? *)

Fixpoint Repeat (n : nat) (r : re) : re :=                (* r{n} *)
  match n with
  | O => Eps
  | S k => Cat r (Repeat k r)
  end.

Definition AtLeast (n : nat) (r : re) : re :=             (* r{n,} *)
  Cat (Repeat n r) (Star r).

Fixpoint nullable (r : re) : bool :=
  match r with
  | Void => false
  | Eps => true
  | Class _ => false
  | Cat r s => nullable r && nullable s
  | Alt r s => nullable r || nullable s
  | Star _ => true
  end.

Fixpoint deriv (c : ascii) (r : re) : re :=
  match r with
  | Void => Void
  | Eps => Void
  | Class p => if p c then Eps else Void
  | Cat r s =>
      if nullable r
      then Alt (Cat (deriv c r) s) (deriv c s)
      else Cat (deriv c r) s
  | Alt r s => Alt (deriv c r) (deriv c s)
  | Star r => Cat (deriv c r) (Star r)
  end.

Fixpoint fullmatch (r : re) (s : string) : bool :=
  match s with
  | EmptyString => nullable r
  | String c s' => fullmatch (deriv c r) s'
  end.

(** The words of a regular expression, to say what [fullmatch] decides. *)
Inductive lang : re -> string -> Prop :=
| LEps : lang Eps ""
| LClass p c : p c = true -> lang (Class p) (String c "")
| LCat r s u v : lang r u -> lang s v -> lang (Cat r s) (u ++ v)
| LAltL r s u : lang r u -> lang (Alt r s) u
| LAltR r s u : lang s u -> lang (Alt r s) u
| LStarNil r : lang (Star r) ""
| LStarCons r c u v :
    lang r (String c u) -> lang (Star r) v -> lang (Star r) (String c u ++ v).

(** Character classes. *)
Definition between (lo hi c : ascii) : bool :=
  Nat.leb (nat_of_ascii lo) (nat_of_ascii c) && Nat.leb (nat_of_ascii c) (nat_of_ascii hi).

Definition one_of (cs : string) (c : ascii) : bool :=
  existsb (Ascii.eqb c) (list_ascii_of_string cs).

Definition lower := between "a"%char "z"%char.
Definition upper := between "A"%char "Z"%char.
Definition digit := between "0"%char "9"%char.            (* \d *)
Definition newline : ascii := ascii_of_nat 10.

(** [re.compile(p).match(s)] for a pattern [^ r $]: [^] anchors at the
    start, and [$] matches at the end of the string or just before a
    newline that ends it. *)
Definition match_anchored (r : re) (s : string) : bool :=
  fullmatch (Cat r (Opt (Class (Ascii.eqb newline)))) s.

End Re.

(** ** Validators *)

(** [^[a-zA-Z0-9._%+-]+@[a-zA-Z0-9.-]+\.[a-zA-Z]{2,}$] *)
Definition email_regex : Re.re :=
  let local := fun c => Re.lower c || Re.upper c || Re.digit c || Re.one_of "._%+-" c in
  let host := fun c => Re.lower c || Re.upper c || Re.digit c || Re.one_of ".-" c in
  let alpha := fun c => Re.lower c || Re.upper c in
  Re.Cat (Re.Plus (Re.Class local))
   (Re.Cat (Re.Class (Ascii.eqb "@"%char))
     (Re.Cat (Re.Plus (Re.Class host))
       (Re.Cat (Re.Class (Ascii.eqb "."%char))
         (Re.AtLeast 2 (Re.Class alpha))))).

Definition is_valid_email (email : string) : bool :=
  Re.match_anchored email_regex email.

(** [^\+?[1-9]\d{9}$] *)
Definition phone_regex : Re.re :=
  Re.Cat (Re.Opt (Re.Class (Ascii.eqb "+"%char)))
   (Re.Cat (Re.Class (Re.between "1"%char "9"%char))
     (Re.Repeat 9 (Re.Class Re.digit))).

Definition is_valid_phone (phone : string) : bool :=
  Re.match_anchored phone_regex phone.


(** ** Data *)

(** One row of the [users] table. *)
Record Row : Type := mkRow {
  col_username : string;
  col_first_name : string;
  col_last_name : string;
  col_email : string;
  col_phone_number : string;
  col_password : string            (* the stored bcrypt hash *)
}.

(** The statements the module sends to the server. *)
Inductive sql : Type :=
| SelectUsersWhereAny (u e p : string)
    (* SELECT * FROM users WHERE username = %s OR email = %s OR phone_number = %s *)
| SelectUsersWhereUsername (u : option string)
    (* SELECT * FROM users WHERE username = %s; None is sent as NULL *)
| SelectUsers
    (* SELECT * FROM users *)
| InsertUser (r : Row)
    (* INSERT INTO users (username, ..., password) VALUES (%s, ..., %s) *)
| UpdateUser (fn ln em ph u : string)
    (* UPDATE users SET first_name, last_name, email, phone_number WHERE username = %s *)
| UpdateUserAndPassword (fn ln em ph hashed u : string)
    (* UPDATE users SET first_name, ..., password = %s WHERE username = %s *)
| DeleteUser (u : string).
    (* DELETE FROM users WHERE username = %s *)

(** Exceptions, with the text [str(e)] gives. *)
Inductive exn : Type :=
| MySQLError (msg : string)        (* pymysql.MySQLError *)
| ParserError (msg : string)       (* pd.errors.ParserError *)
| PyException (msg : string)       (* any other subclass of Exception *)
| RerunException.                  (* raised by st.experimental_rerun; not an Exception *)

Inductive result (A : Type) : Type :=
| Ok (a : A)
| Raise (e : exn).
Arguments Ok {A} a.
Arguments Raise {A} e.

(** pandas dtypes of the columns [read_csv] and [read_excel] infer. *)
Inductive dtype : Type :=
| object | bool_ | int64 | uint64 | float64 | datetime64.

(** A DataFrame, as far as the module looks into it: its columns with
    their dtypes, and its number of rows.  The cells only travel on to
    pandas and plotly. *)
Record DataFrame : Type := mkDataFrame {
  columns : list (string * dtype);
  nrows : nat
}.

(** An uploaded file. *)
Record UploadedFile : Type := mkFile {
  file_name : string;              (* file.name *)
  file_type : string;              (* file.type, the MIME type *)
  file_bytes : string
}.

Inductive Page : Type :=
| register | login | admin_login | main | edit_profile | admin_panel.

(** [st.session_state]. [None] in [confirm_delete] and [theme] stands for
    a key that is not set. *)
Record Session : Type := mkSession {
  authenticated : bool;
  session_username : option string;
  admin_authenticated : bool;
  page : Page;
  uploaded_file : option UploadedFile;
  confirm_delete : option bool;
  theme : option string
}.

Inductive plot_type : Type :=
| Bar_Chart | Line_Chart | Scatter_Plot | Pie_Chart.

(** What [st.write] and the charting calls are given. *)
Inductive content : Type :=
| Text (s : string)
| Head (df : DataFrame)                        (* df.head() *)
| Shape (rows cols : nat)                      (* df.shape *)
| FieldDescription (col : string) (d : dtype)  (* - **col**: dtype *)
| Describe (df : DataFrame)                    (* df.describe() *)
| ValueCounts (col : string)                   (* df[col].value_counts() *)
| Heatmap (numeric_columns : list string)      (* px.imshow(df[numeric_columns].corr()) *)
| Chart (kind : plot_type) (x y : string)      (* px.bar / line / scatter / pie *)
| UserTable (rows : list Row).                 (* pd.DataFrame(users) *)

(** What one run of the script does that can be seen from outside, in
    order: calls into Streamlit, and calls on the database connection. *)
Inductive event : Type :=
| st_header_ev (s : string)
| st_title_ev (s : string)
| st_subheader_ev (s : string)
| st_markdown_ev (s : string)
| st_write_ev (c : content)
| st_error_ev (s : string)
| st_warning_ev (s : string)
| st_success_ev (s : string)
| st_text_input_ev (label : string)
| st_button_ev (label : string)
| st_checkbox_ev (label : string)
| st_selectbox_ev (label : string)
| st_file_uploader_ev (label : string)
| st_columns_ev
| st_plotly_chart_ev (fig : content)
| st_dataframe_ev (c : content)
| traceback_print_exc_ev
| db_connect_ev
| db_execute_ev (q : sql)
| db_commit_ev
| db_close_ev.

(** The world the script runs in.  [conn_plan] and [sql_plan] say how the
    coming connection attempts and statements fare: [Some msg] is a
    [pymysql.MySQLError] with that text, [None] and an exhausted plan are
    a healthy server.  A statement and its commit are one entry: both
    fail into the same handler, and a change that is not committed is
    dropped when the connection closes.  [gensalt_source] is the
    randomness of [bcrypt.gensalt]. *)
Record World : Type := mkWorld {
  users : list Row;
  session : Session;
  trace : list event;
  conn_plan : list (option string);
  sql_plan : list (option string);
  gensalt_source : nat -> string;
  salts_drawn : nat
}.

(** What bcrypt gives: a value, or a [ValueError] (a stored hash that is
    no bcrypt hash, a password the library refuses). *)
Inductive bcrypt_result (A : Type) : Type :=
| Value (a : A)
| ValueError (msg : string).
Arguments Value {A} a.
Arguments ValueError {A} msg.

Definition of_bcrypt {A} (r : bcrypt_result A) : result A :=
  match r with
  | Value a => Ok a
  | ValueError msg => Raise (PyException msg)
  end.

(** What a pandas reader gives: the frame, a [ParserError], or another
    exception (an empty file, a wrong encoding, a workbook openpyxl
    cannot open). *)
Inductive read_result : Type :=
| Frame (df : DataFrame)
| ParserFails (msg : string)
| ReaderFails (msg : string).

Definition of_pandas (r : read_result) : result DataFrame :=
  match r with
  | Frame df => Ok df
  | ParserFails msg => Raise (ParserError msg)
  | ReaderFails msg => Raise (PyException msg)
  end.

(** What the module calls but does not define. *)
Class Externals : Type := {
  (* the comparison [column = %s] of the server, under the collation of
     the column *)
  sql_eq : string -> string -> bool;
  (* bcrypt.hashpw(password.encode(), salt).decode() *)
  bcrypt_hashpw : string -> string -> bcrypt_result string;
  (* bcrypt.checkpw(password.encode(), stored_hash.encode()) *)
  bcrypt_checkpw : string -> string -> bcrypt_result bool;
  (* os.getenv('ADMIN_USERNAME', 'RBI') and the admin hash computed at start *)
  ADMIN_USERNAME : string;
  ADMIN_PASSWORD_HASH : string;
  (* chardet.detect(raw_data)['encoding'] *)
  chardet_detect : string -> option string;
  (* pd.read_csv(file, encoding=encoding) and pd.read_excel(file, engine='openpyxl') *)
  pd_read_csv : UploadedFile -> option string -> read_result;
  pd_read_excel : UploadedFile -> read_result
}.

(** ** Running the script: state, exceptions, trace *)

Definition set_users (t : list Row) (w : World) : World :=
  mkWorld t (session w) (trace w) (conn_plan w) (sql_plan w)
          (gensalt_source w) (salts_drawn w).

Definition set_session (s : Session) (w : World) : World :=
  mkWorld (users w) s (trace w) (conn_plan w) (sql_plan w)
          (gensalt_source w) (salts_drawn w).

Definition set_trace (t : list event) (w : World) : World :=
  mkWorld (users w) (session w) t (conn_plan w) (sql_plan w)
          (gensalt_source w) (salts_drawn w).

Definition set_conn_plan (p : list (option string)) (w : World) : World :=
  mkWorld (users w) (session w) (trace w) p (sql_plan w)
          (gensalt_source w) (salts_drawn w).

Definition set_sql_plan (p : list (option string)) (w : World) : World :=
  mkWorld (users w) (session w) (trace w) (conn_plan w) p
          (gensalt_source w) (salts_drawn w).

Definition set_salts_drawn (n : nat) (w : World) : World :=
  mkWorld (users w) (session w) (trace w) (conn_plan w) (sql_plan w)
          (gensalt_source w) n.

(** A computation: from a world to a value or an exception, and the
    world it leaves. *)
Definition M (A : Type) : Type := World -> result A * World.

Definition ret {A} (a : A) : M A := fun w => (Ok a, w).

Definition bind {A B} (m : M A) (k : A -> M B) : M B := fun w =>
  match m w with
  | (Ok a, w') => k a w'
  | (Raise e, w') => (Raise e, w')
  end.

Definition lift {A} (r : result A) : M A := fun w => (r, w).

Declare Scope script_scope.
Delimit Scope script_scope with script.
Notation "x <- m ;; k" := (bind m (fun x => k))
  (at level 61, m at next level, right associativity) : script_scope.
Notation "m ;; k" := (bind m (fun _ => k))
  (at level 61, right associativity) : script_scope.
Local Open Scope script_scope.

(** [try: body / except pymysql.MySQLError as e: handler] *)
Definition try_except_MySQLError {A} (body : M A) (handler : string -> M A) : M A :=
  fun w =>
    match body w with
    | (Raise (MySQLError msg), w') => handler msg w'
    | other => other
    end.

(** [try: body / finally: final] *)
Definition try_finally {A} (body : M A) (final : M unit) : M A := fun w =>
  let (r, w') := body w in
  match final w' with
  | (Ok _, w'') => (r, w'')
  | (Raise e, w'') => (Raise e, w'')
  end.

Definition emit (e : event) : M unit := fun w =>
  (Ok tt, set_trace (trace w ++ [e]) w).

Definition st_error (msg : string) : M unit := emit (st_error_ev msg).
Definition st_warning (msg : string) : M unit := emit (st_warning_ev msg).
Definition st_success (msg : string) : M unit := emit (st_success_ev msg).
Definition st_header (s : string) : M unit := emit (st_header_ev s).
Definition st_write (c : content) : M unit := emit (st_write_ev c).

(** *** Session state *)

(** Reading one entry of the session state. *)
Definition gets {A} (field : Session -> A) : M A := fun w => (Ok (field (session w)), w).

Definition modify_session (f : Session -> Session) : M unit := fun w =>
  (Ok tt, set_session (f (session w)) w).

Definition set_page (p : Page) (s : Session) : Session :=
  mkSession (authenticated s) (session_username s) (admin_authenticated s) p
            (uploaded_file s) (confirm_delete s) (theme s).

Definition set_authenticated (b : bool) (s : Session) : Session :=
  mkSession b (session_username s) (admin_authenticated s) (page s)
            (uploaded_file s) (confirm_delete s) (theme s).

Definition set_session_username (u : option string) (s : Session) : Session :=
  mkSession (authenticated s) u (admin_authenticated s) (page s)
            (uploaded_file s) (confirm_delete s) (theme s).

Definition set_admin_authenticated (b : bool) (s : Session) : Session :=
  mkSession (authenticated s) (session_username s) b (page s)
            (uploaded_file s) (confirm_delete s) (theme s).

Definition set_uploaded_file (f : option UploadedFile) (s : Session) : Session :=
  mkSession (authenticated s) (session_username s) (admin_authenticated s) (page s)
            f (confirm_delete s) (theme s).

Definition set_confirm_delete (b : option bool) (s : Session) : Session :=
  mkSession (authenticated s) (session_username s) (admin_authenticated s) (page s)
            (uploaded_file s) b (theme s).

Definition go_to_register : M unit := modify_session (set_page register).
Definition go_to_login : M unit := modify_session (set_page login).
Definition go_to_main : M unit := modify_session (set_page main).
Definition go_to_edit_profile : M unit := modify_session (set_page edit_profile).
Definition go_to_admin_panel : M unit := modify_session (set_page admin_panel).
Definition go_to_admin_login : M unit := modify_session (set_page admin_login).

Definition logout : M unit :=
  modify_session (set_authenticated false) ;;
  modify_session (set_session_username None) ;;
  modify_session (set_admin_authenticated false) ;;
  modify_session (set_uploaded_file None) ;;
  go_to_login.

(** *** The connection *)

Inductive Connection : Type := pymysql_connection.

(** [create_connection()]: the connection, or [None] after showing the
    error. *)
Definition create_connection : M (option Connection) := fun w =>
  match conn_plan w with
  | Some msg :: rest =>
      (st_error ("Database connection error: " ++ msg) ;; ret None)
        (set_conn_plan rest w)
  | None :: rest =>
      (emit db_connect_ev ;; ret (Some pymysql_connection)) (set_conn_plan rest w)
  | [] =>
      (emit db_connect_ev ;; ret (Some pymysql_connection)) w
  end.

Definition connection_commit (c : Connection) : M unit := emit db_commit_ev.
Definition connection_close (c : Connection) : M unit := emit db_close_ev.

Definition fetchone (rows : list Row) : option Row := hd_error rows.

(** [gensalt()] *)
Definition bcrypt_gensalt : M string := fun w =>
  (Ok (gensalt_source w (salts_drawn w)), set_salts_drawn (S (salts_drawn w)) w).

(** Python's truth value of an optional string: [None] and [''] are
    false. *)
Definition truthy (s : option string) : bool :=
  match s with
  | Some EmptyString => false
  | Some _ => true
  | None => false
  end.

(** ** The account store *)

Section Code.
Context {ext : Externals}.

Definition username_is (u : string) (r : Row) : bool := sql_eq (col_username r) u.

Definition any_is (u e p : string) (r : Row) : bool :=
  sql_eq (col_username r) u || sql_eq (col_email r) e || sql_eq (col_phone_number r) p.

(** What a statement does to the table, and the rows it returns. *)
Definition run_sql (q : sql) (t : list Row) : list Row * list Row :=
  match q with
  | SelectUsersWhereAny u e p => (t, filter (any_is u e p) t)
  | SelectUsersWhereUsername (Some u) => (t, filter (username_is u) t)
  | SelectUsersWhereUsername None => (t, [])        (* nothing equals NULL *)
  | SelectUsers => (t, t)
  | InsertUser r => (t ++ [r], [])
  | UpdateUser fn ln em ph u =>
      (map (fun r => if username_is u r
                     then mkRow (col_username r) fn ln em ph (col_password r)
                     else r) t, [])
  | UpdateUserAndPassword fn ln em ph hashed u =>
      (map (fun r => if username_is u r
                     then mkRow (col_username r) fn ln em ph hashed
                     else r) t, [])
  | DeleteUser u => (filter (fun r => negb (username_is u r)) t, [])
  end.

(** [cursor.execute(sql, values)], and the rows to fetch. *)
Definition cursor_execute (c : Connection) (q : sql) : M (list Row) := fun w =>
  match sql_plan w with
  | Some msg :: rest => (Raise (MySQLError msg), set_sql_plan rest w)
  | plan =>
      let (t, rows) := run_sql q (users w) in
      (emit (db_execute_ev q) ;; ret rows) (set_users t (set_sql_plan (tl plan) w))
  end.

Definition hash_password (password : string) : M string :=
  salt <- bcrypt_gensalt ;;
  lift (of_bcrypt (bcrypt_hashpw password salt)).

Definition verify_password (stored_hash password : string) : M bool :=
  lift (of_bcrypt (bcrypt_checkpw password stored_hash)).

Definition check_existing_user (username email phone : string) : M bool :=
  connection <- create_connection ;;
  match connection with
  | None => ret true
  | Some connection =>
      try_finally
        (try_except_MySQLError
           (result <- cursor_execute connection
                        (SelectUsersWhereAny username email phone) ;;
            ret (Nat.ltb 0 (List.length result)))
           (fun e => st_error ("Database Error: " ++ e) ;; ret true))
        (connection_close connection)
  end.

Definition register_user
    (username first_name last_name email phone_number password : string) : M unit :=
  if negb (is_valid_email email) then st_error "Invalid email format!"
  else if negb (is_valid_phone phone_number) then st_error "Invalid phone number format!"
  else
    existing <- check_existing_user username email phone_number ;;
    if existing : bool then st_error "Username, email, or phone number already in use!"
    else
      connection <- create_connection ;;
      match connection with
      | None => st_error "Unable to connect to the database."
      | Some connection =>
          try_finally
            (try_except_MySQLError
               (hashed <- hash_password password ;;
                cursor_execute connection
                  (InsertUser (mkRow username first_name last_name email
                                     phone_number hashed)) ;;
                connection_commit connection ;;
                st_success "Registration successful!" ;;
                go_to_login)
               (fun e => st_error ("Database Error: " ++ e)))
            (connection_close connection)
      end.

Definition authenticate_user (username password : string) : M bool :=
  connection <- create_connection ;;
  match connection with
  | None => ret false
  | Some connection =>
      try_finally
        (try_except_MySQLError
           (rows <- cursor_execute connection
                     (SelectUsersWhereUsername (Some username)) ;;
            match fetchone rows with
            | Some user =>
                ok <- verify_password (col_password user) password ;;
                if ok : bool then ret true else ret false
            | None => ret false
            end)
           (fun e => st_error ("Database Error: " ++ e) ;; ret false))
        (connection_close connection)
  end.

Definition is_admin (username password : string) : M bool :=
  if String.eqb username ADMIN_USERNAME
  then verify_password ADMIN_PASSWORD_HASH password
  else ret false.

Definition get_all_users : M (list Row) :=
  connection <- create_connection ;;
  match connection with
  | None => ret []
  | Some connection =>
      try_finally
        (try_except_MySQLError
           (cursor_execute connection SelectUsers)
           (fun e => st_error ("Database Error: " ++ e) ;; ret []))
        (connection_close connection)
  end.

Definition update_user
    (username first_name last_name email phone_number : string)
    (password : option string) : M unit :=
  connection <- create_connection ;;
  match connection with
  | None => st_error "Unable to connect to the database."
  | Some connection =>
      try_finally
        (try_except_MySQLError
           (q <- match password with
                 | Some (String c s) =>
                     hashed_password <- hash_password (String c s) ;;
                     ret (UpdateUserAndPassword first_name last_name email
                            phone_number hashed_password username)
                 | _ =>
                     ret (UpdateUser first_name last_name email phone_number
                            username)
                 end ;;
            cursor_execute connection q ;;
            connection_commit connection ;;
            st_success "User updated successfully!")
           (fun e => st_error ("Database Error: " ++ e)))
        (connection_close connection)
  end.

Definition delete_user (username : string) : M unit :=
  connection <- create_connection ;;
  match connection with
  | None => st_error "Unable to connect to the database."
  | Some connection =>
      try_finally
        (try_except_MySQLError
           (cursor_execute connection (DeleteUser username) ;;
            connection_commit connection ;;
            st_success "User deleted successfully!")
           (fun e => st_error ("Database Error: " ++ e)))
        (connection_close connection)
  end.

End Code.

(** ** Streamlit widgets *)

(** What the user did to the widgets before this run of the script.
    Widgets are named by their [key], or by their label when the call
    gives no key. *)
Record Inputs : Type := mkInputs {
  text_typed : string -> option string;      (* None: the field still shows its initial value *)
  button_clicked : string -> bool;
  checkbox_checked : string -> bool;
  selectbox_index : string -> nat;           (* position of the chosen option *)
  plot_type_chosen : plot_type;
  file_chosen : option UploadedFile
}.

(** [str.lower()] on code points below 256. *)
Definition lower_char (c : ascii) : ascii :=
  let n := nat_of_ascii c in
  if (Nat.leb 65 n && Nat.leb n 90)
     || (Nat.leb 192 n && Nat.leb n 222 && negb (Nat.eqb n 215))
  then ascii_of_nat (n + 32)
  else c.

Fixpoint lower (s : string) : string :=
  match s with
  | EmptyString => EmptyString
  | String c s' => String (lower_char c) (lower s')
  end.

(** [s.rfind(c)], counting from [i] at the head of [s]. *)
Fixpoint rfind_from (c : ascii) (s : string) (i : nat) : option nat :=
  match s with
  | EmptyString => None
  | String a s' =>
      match rfind_from c s' (S i) with
      | Some j => Some j
      | None => if Ascii.eqb a c then Some i else None
      end
  end.

Definition rfind (c : ascii) (s : string) : option nat := rfind_from c s 0.

(** [os.path.splitext(p)[1]] (posixpath): the extension starts at the
    last dot, when that dot comes after the last slash and after a
    character of the file name that is not a dot. *)
Definition splitext_ext (p : string) : string :=
  match rfind "."%char p with
  | None => ""
  | Some dotIndex =>
      let filenameIndex :=
        match rfind "/"%char p with
        | Some sepIndex => S sepIndex
        | None => 0
        end in
      if Nat.leb filenameIndex dotIndex
         && existsb (fun c => negb (Ascii.eqb c "."%char))
              (list_ascii_of_string
                 (substring filenameIndex (dotIndex - filenameIndex) p))
      then substring dotIndex (String.length p - dotIndex) p
      else ""
  end.

Definition endswith (s suffix : string) : bool :=
  let n := String.length s in
  let k := String.length suffix in
  Nat.leb k n && String.eqb (substring (n - k) k s) suffix.

(** The [type=[...]] argument of [st.file_uploader]: the widget takes a
    file only when its name, in lower case, ends in a dot and one of the
    listed extensions. *)
Definition extension_allowed (types : list string) (f : UploadedFile) : bool :=
  existsb (fun t => endswith (lower (file_name f)) ("." ++ lower t)) types.

Section Widgets.
Variable inp : Inputs.

Definition st_text_input (label key value : string) : M string :=
  emit (st_text_input_ev label) ;;
  ret (match text_typed inp key with Some s => s | None => value end).

Definition st_button (label key : string) : M bool :=
  emit (st_button_ev label) ;;
  ret (button_clicked inp key).

(** A button with [on_click=callback]: Streamlit runs the callback when
    the click arrives, before the script runs again; in the script the
    call only draws the button. *)
Definition st_button_on_click (label key : string) : M unit :=
  emit (st_button_ev label).

Definition st_checkbox (label key : string) : M bool :=
  emit (st_checkbox_ev label) ;;
  ret (checkbox_checked inp key).

(** [st.selectbox(label, options)] over a list that is not empty. *)
Definition st_selectbox {A} (label : string) (first : A) (others : list A) : M A :=
  emit (st_selectbox_ev label) ;;
  ret (nth (selectbox_index inp label) (first :: others) first).

Definition st_selectbox_plot_type (label : string) : M plot_type :=
  emit (st_selectbox_ev label) ;;
  ret (plot_type_chosen inp).

Definition st_file_uploader (label : string) (types : list string)
  : M (option UploadedFile) :=
  emit (st_file_uploader_ev label) ;;
  ret (match file_chosen inp with
       | Some f => if extension_allowed types f then Some f else None
       | None => None
       end).

End Widgets.

Definition st_plotly_chart (fig : content) : M unit := emit (st_plotly_chart_ev fig).

(** [st.experimental_rerun()] stops the run. *)
Definition st_experimental_rerun {A} : M A := fun w => (Raise RerunException, w).

(** [str(e)] *)
Definition str (e : exn) : string :=
  match e with
  | MySQLError msg | ParserError msg | PyException msg => msg
  | RerunException => ""
  end.

(** [try: body / except Exception as e: handler]: every exception of the
    model but the one that reruns the script. *)
Definition try_except_Exception {A} (body : M A) (handler : exn -> M A) : M A :=
  fun w =>
    match body w with
    | (Raise RerunException, w') => (Raise RerunException, w')
    | (Raise e, w') => handler e w'
    | other => other
    end.

Fixpoint for_each {A} (l : list A) (body : A -> M unit) : M unit :=
  match l with
  | [] => ret tt
  | x :: l' => body x ;; for_each l' body
  end.

Definition when (b : bool) (m : M unit) : M unit := if b then m else ret tt.

(** ** The dashboard *)

Definition is_number (d : dtype) : bool :=
  match d with
  | int64 | uint64 | float64 => true
  | object | bool_ | datetime64 => false
  end.

(** [df.empty] *)
Definition empty (df : DataFrame) : bool :=
  Nat.eqb (nrows df) 0 || Nat.eqb (List.length (columns df)) 0.

(** [df.select_dtypes(include=['number']).columns.tolist()] *)
Definition numeric_columns_of (df : DataFrame) : list string :=
  map fst (filter (fun c => is_number (snd c)) (columns df)).

(** [df[col].dtype] *)
Definition column_dtype (df : DataFrame) (col : string) : result dtype :=
  match find (fun c => String.eqb (fst c) col) (columns df) with
  | Some c => Ok (snd c)
  | None => Raise (PyException "KeyError")
  end.

Section Pages.
Context {ext : Externals}.
Variable inp : Inputs.

(** [detect_encoding(file)]: chardet on the first 10,000 bytes; the file
    is then rewound. *)
Definition detect_encoding (file : UploadedFile) : M (option string) :=
  ret (chardet_detect (substring 0 (100 * 100) (file_bytes file))).

(** The [read_file] of the module level (lines 197-213).  The main page
    defines [read_file] again before its only call, so this one never
    runs. *)
Definition read_file_by_type (file : UploadedFile) : M (option DataFrame) :=
  try_except_Exception
    (if String.eqb (file_type file) "text/csv" then
       encoding <- detect_encoding file ;;
       df <- lift (of_pandas (pd_read_csv file encoding)) ;;
       ret (Some df)
     else if String.eqb (file_type file)
               "application/vnd.openxmlformats-officedocument.spreadsheetml.sheet" then
       df <- lift (of_pandas (pd_read_excel file)) ;;
       ret (Some df)
     else
       st_error "Unsupported file type." ;;
       ret None)
    (fun e =>
       match e with
       | ParserError _ =>
           st_error "Error parsing the file. Please check the file format." ;;
           ret None
       | _ =>
           st_error ("Error reading file: " ++ str e) ;;
           ret None
       end).

(** The [read_file] of the main page (lines 369-393). *)
Definition read_file (file : UploadedFile) : M (option DataFrame) :=
  try_except_Exception
    (let file_extension := lower (splitext_ext (file_name file)) in
     st_write (Text ("Uploaded file extension: " ++ file_extension)) ;;
     if String.eqb file_extension ".csv" then
       encoding <- detect_encoding file ;;
       df <- lift (of_pandas (pd_read_csv file encoding)) ;;
       ret (Some df)
     else if existsb (String.eqb file_extension) [".xls"; ".xlsx"] then
       df <- lift (of_pandas (pd_read_excel file)) ;;
       ret (Some df)
     else
       st_error "Unsupported file type. Please upload a CSV or Excel file." ;;
       ret None)
    (fun e =>
       match e with
       | ParserError _ =>
           st_error "Error parsing the file. Please check the file format." ;;
           ret None
       | _ =>
           st_error ("Error reading file: " ++ str e) ;;
           ret None
       end).

(** Lines 404-416. *)
Definition heatmap_step (df : DataFrame) : M unit :=
  let numeric_columns := numeric_columns_of df in
  if Nat.ltb 0 (List.length numeric_columns)
  then st_plotly_chart (Heatmap numeric_columns)
  else st_error "No numeric columns found in the dataset to generate a heatmap.".

(** Lines 453-467: the figure for the chosen plot type, and its display. *)
Definition chart_step (df : DataFrame) (plot : plot_type) (x_col y_col : string)
  : M unit :=
  fig <- match plot with
         | Bar_Chart => ret (Some (Chart Bar_Chart x_col y_col))
         | Line_Chart => ret (Some (Chart Line_Chart x_col y_col))
         | Scatter_Plot => ret (Some (Chart Scatter_Plot x_col y_col))
         | Pie_Chart =>
             dx <- lift (column_dtype df x_col) ;;
             match dx with
             | object =>
                 dy <- lift (column_dtype df y_col) ;;
                 match dy with
                 | int64 | float64 => ret (Some (Chart Pie_Chart x_col y_col))
                 | _ =>
                     st_error "Pie chart requires categorical. data for 'names' and numerical data for 'values'." ;;
                     ret None
                 end
             | _ =>
                 st_error "Pie chart requires categorical. data for 'names' and numerical data for 'values'." ;;
                 ret None
             end
         end ;;
  match fig with
  | Some fig => st_plotly_chart fig
  | None => ret tt
  end.

(** Lines 418-447: the sidebar options and the views they switch on;
    the plot type chosen in the sidebar is handed on. *)
Definition options (df : DataFrame) : M plot_type :=
  emit (st_subheader_ev "Options") ;;
  show_data_dimensions <- st_checkbox inp "Show Data Dimensions" "show_data_dimensions" ;;
  show_field_descriptions <- st_checkbox inp "Show Field Descriptions" "show_field_descriptions" ;;
  show_summary_statistics <- st_checkbox inp "Show Summary Statistics" "show_summary_statistics" ;;
  show_value_counts <- st_checkbox inp "Show Value Counts of Fields" "show_value_counts" ;;
  plot <- st_selectbox_plot_type inp "Select plot type" ;;
  when show_data_dimensions
    (st_write (Shape (nrows df) (List.length (columns df)))) ;;
  when show_field_descriptions
    (st_write (Text "Field Descriptions:") ;;
     for_each (columns df) (fun c => st_write (FieldDescription (fst c) (snd c)))) ;;
  when show_summary_statistics
    (st_write (Text "Summary Statistics:") ;;
     st_write (Describe df)) ;;
  when show_value_counts
    (st_write (Text "Value Counts of Fields:") ;;
     for_each (map fst (columns df)) (fun col =>
       st_write (Text ("**" ++ col ++ "**:")) ;;
       st_write (ValueCounts col))) ;;
  ret plot.

(** Lines 449-469: the axis selectors and the chart. *)
Definition chart_selection (df : DataFrame) (plot : plot_type) : M unit :=
  match map fst (columns df) with
  | first :: others =>
      x_col <- st_selectbox inp "Select X-axis column" first others ;;
      y_col <- st_selectbox inp "Select Y-axis column" first others ;;
      chart_step df plot x_col y_col
  | [] => st_error "No columns found in the dataset."
  end.

(** Lines 401-469: what the main page does with a DataFrame that is not
    empty. *)
Definition analysis (df : DataFrame) : M unit :=
  st_write (Text "### Data Preview") ;;
  st_write (Head df) ;;
  heatmap_step df ;;
  plot <- options df ;;
  chart_selection df plot.

(** Lines 364-398: the uploader and the read step. *)
Definition upload_step : M (option DataFrame) :=
  uploaded <- st_file_uploader inp "Upload a CSV or Excel file" ["csv"; "xlsx"] ;;
  match uploaded with
  | Some file =>
      modify_session (set_uploaded_file (Some file)) ;;
      read_file file
  | None => ret None
  end.

(** Lines 341-359: theme, title, and the two buttons of the main page. *)
Definition main_banner : M unit :=
  theme <- gets theme ;;
  let dark := match theme with Some t => String.eqb t "dark" | None => false end in
  st_write (Text ("<style>body {background-color: "
                  ++ (if dark then "#333" else "#fff") ++ "; color: "
                  ++ (if dark then "#eee" else "#000") ++ ";}</style>")) ;;
  emit st_columns_ev ;;
  emit (st_markdown_ev ":bar_chart: Dynamic Data Analysis Dashboard") ;;
  username <- gets session_username ;;
  emit (st_title_ev ("Welcome, "
                     ++ match username with Some u => u | None => "None" end
                     ++ "!")) ;;
  st_write (Text "<div style='text-align: right;'>") ;;
  clicked <- st_button inp "Edit Profile" "edit_profile_button" ;;
  when clicked go_to_edit_profile ;;
  st_write (Text "</div>") ;;
  st_write (Text "<div style='text-align: right;'>") ;;
  clicked <- st_button inp "Logout" "logout_button" ;;
  when clicked logout ;;
  st_write (Text "</div>").

(** Lines 341-473: the main page after its guard. *)
Definition main_rest : M unit :=
  main_banner ;;
  df <- upload_step ;;
  match df with
  | Some df =>
      if negb (empty df) then analysis df
      else st_write (Text "Upload a file to start the analysis.")
  | None => st_write (Text "Upload a file to start the analysis.")
  end.

(** Lines 335-473. *)
Definition main_page : M unit :=
  authenticated <- gets authenticated ;;
  when (negb authenticated)
    (st_warning "You need to be logged in to access this page." ;;
     go_to_login) ;;
  main_rest.

(** Lines 259-289. *)
Definition register_page : M unit :=
  st_header "Register" ;;
  new_username <- st_text_input inp "New Username" "new_username" "" ;;
  new_name <- st_text_input inp "First Name" "new_name" "" ;;
  new_last_name <- st_text_input inp "Last Name" "new_last_name" "" ;;
  new_email <- st_text_input inp "Email" "new_email" "" ;;
  new_phone <- st_text_input inp "Phone" "new_phone" "" ;;
  new_password <- st_text_input inp "New Password" "new_password" "" ;;
  confirm_password <- st_text_input inp "Confirm Password" "confirm_password" "" ;;
  clicked <- st_button inp "Register" "register_button" ;;
  when clicked
    (if negb (forallb (fun s => truthy (Some s))
                [new_username; new_name; new_last_name; new_email; new_phone;
                 new_password; confirm_password])
     then st_error "All fields are required."
     else if negb (String.eqb new_password confirm_password)
     then st_error "Passwords do not match."
     else if negb (is_valid_email new_email)
     then st_error "Invalid email address."
     else if negb (is_valid_phone new_phone)
     then st_error "Invalid phone number."
     else
       existing <- check_existing_user new_username new_email new_phone ;;
       if existing : bool
       then st_error "Username, email, or phone number already in use."
       else register_user new_username new_name new_last_name new_email
                          new_phone new_password) ;;
  st_button_on_click "Already have an account? Login here" "login_redirect" ;;
  clicked <- st_button inp "Admin Login" "admin_login_redirect" ;;
  when clicked go_to_admin_login.

(** Lines 291-313. *)
Definition login_page : M unit :=
  st_header "Login" ;;
  username <- st_text_input inp "Username" "login_username" "" ;;
  password <- st_text_input inp "Password" "login_password" "" ;;
  clicked <- st_button inp "Login" "login_button" ;;
  when clicked
    (if negb (truthy (Some username) && truthy (Some password))
     then st_error "Username and password are required."
     else
       ok <- authenticate_user username password ;;
       if ok : bool then
         modify_session (set_authenticated true) ;;
         modify_session (set_session_username (Some username)) ;;
         st_success ("Welcome, " ++ username ++ "!") ;;
         go_to_main
       else st_error "Invalid username or password") ;;
  st_button_on_click "Don't have an account? Register here" "register_redirect" ;;
  clicked <- st_button inp "Admin Login" "admin_login_redirect" ;;
  when clicked go_to_admin_login.

(** Lines 315-331. *)
Definition admin_login_page : M unit :=
  st_header "Admin Login" ;;
  admin_username <- st_text_input inp "Admin Username" "admin_username" "" ;;
  admin_password <- st_text_input inp "Admin Password" "admin_password" "" ;;
  clicked <- st_button inp "Login as Admin" "admin_login_button" ;;
  when clicked
    (if negb (truthy (Some admin_username) && truthy (Some admin_password))
     then st_error "Username and password are required."
     else
       ok <- is_admin admin_username admin_password ;;
       if ok : bool then
         modify_session (set_admin_authenticated true) ;;
         go_to_admin_panel
       else st_error "Invalid admin username or password") ;;
  st_button_on_click "Back to Login" "back_to_login".

(** Lines 480-512: the profile page after its guard. *)
Definition edit_profile_rest : M unit :=
  st_header "Edit Profile" ;;
  current_user <- gets session_username ;;
  connection <- create_connection ;;
  match connection with
  | Some connection =>
      try_finally
        (try_except_MySQLError
           (rows <- cursor_execute connection (SelectUsersWhereUsername current_user) ;;
            match fetchone rows, current_user with
            | Some user, Some current_user =>      (* a row implies a username *)
                first_name <- st_text_input inp "First Name" "edit_first_name" (col_first_name user) ;;
                last_name <- st_text_input inp "Last Name" "edit_last_name" (col_last_name user) ;;
                email <- st_text_input inp "Email" "edit_email" (col_email user) ;;
                phone <- st_text_input inp "Phone" "edit_phone" (col_phone_number user) ;;
                password <- st_text_input inp "New Password" "edit_password" "" ;;
                confirm_password <- st_text_input inp "Confirm Password" "edit_confirm_password" "" ;;
                clicked <- st_button inp "Save Changes" "save_changes_button" ;;
                when clicked
                  (if truthy (Some password) && negb (String.eqb password confirm_password)
                   then st_error "Passwords do not match."
                   else update_user current_user first_name last_name email phone
                                    (Some password))
            | _, _ => st_error "USer not found."
            end)
           (fun e => st_error ("Database Error: " ++ e)))
        (connection_close connection)
  | None => ret tt
  end ;;
  st_button_on_click "Back to Dashboard" "back_to_dashboard".

(** Lines 475-512. *)
Definition edit_profile_page : M unit :=
  authenticated <- gets authenticated ;;
  when (negb authenticated)
    (st_warning "You need to be logged in to access this page." ;;
     go_to_login) ;;
  edit_profile_rest.

(** Lines 519-562: the admin panel after its guard. *)
Definition admin_panel_rest : M unit :=
  st_header "Admin Panel" ;;
  users <- get_all_users ;;
  match users with
  | first :: others =>
      st_write (Text "### User List") ;;
      emit (st_dataframe_ev (UserTable users)) ;;
      selected_username <-
        st_selectbox inp "Select a user to edit"
          (col_username first) (map col_username others) ;;
      selected_user <-
        match find (fun r => String.eqb (col_username r) selected_username) users with
        | Some r => ret r
        | None => lift (Raise (PyException "IndexError"))
        end ;;
      first_name <- st_text_input inp "First Name" "First Name" (col_first_name selected_user) ;;
      last_name <- st_text_input inp "Last Name" "Last Name" (col_last_name selected_user) ;;
      email <- st_text_input inp "Email" "Email" (col_email selected_user) ;;
      phone <- st_text_input inp "Phone" "Phone" (col_phone_number selected_user) ;;
      new_password <- st_text_input inp "New Password (leave blank to keep current)"
                        "New Password (leave blank to keep current)" "" ;;
      confirm_password <- st_text_input inp "Confirm New Password" "Confirm New Password" "" ;;
      clicked <- st_button inp "Update User" "Update User" ;;
      when clicked
        (if truthy (Some new_password) && negb (String.eqb new_password confirm_password)
         then st_error "Passwords do not match."
         else update_user selected_username first_name last_name email phone
                          (Some new_password)) ;;
      clicked <- st_button inp "Delete User" "Delete User" ;;
      when clicked (modify_session (set_confirm_delete (Some true))) ;;
      confirm_delete <- gets confirm_delete ;;
      when (match confirm_delete with Some b => b | None => false end)
        (st_warning ("Are you sure you want to delete the user '" ++ selected_username
                     ++ "'? This action cannot be undone.") ;;
         clicked <- st_button inp "Yes, delete user" "Yes, delete user" ;;
         when clicked
           (delete_user selected_username ;;
            modify_session (set_confirm_delete (Some false)) ;;
            st_experimental_rerun) ;;
         clicked <- st_button inp "No, cancel" "No, cancel" ;;
         when clicked (modify_session (set_confirm_delete (Some false)))) ;;
      clicked <- st_button inp "Logout" "admin_logout_button" ;;
      when clicked logout
  | [] => ret tt
  end.

(** Lines 514-562. *)
Definition admin_panel_page : M unit :=
  admin_authenticated <- gets admin_authenticated ;;
  when (negb admin_authenticated)
    (st_warning "You need to be logged in as an admin to access this page." ;;
     go_to_admin_login) ;;
  admin_panel_rest.

(** Lines 258 and 567-569: the [try] around the pages. *)
Definition top_level (body : M unit) : M unit :=
  try_except_Exception body
    (fun e =>
       st_error ("An error occurred: " ++ str e) ;;
       emit traceback_print_exc_ev).

(** Lines 258-569: one run of the script. *)
Definition page_routing : M unit :=
  top_level
    (page <- gets page ;;
     match page with
     | register => register_page
     | login => login_page
     | admin_login => admin_login_page
     | main => main_page
     | edit_profile => edit_profile_page
     | admin_panel => admin_panel_page
     end).

(** The part of a guarded page that follows its guard. *)
Definition page_rest (p : Page) : M unit :=
  match p with
  | main => main_rest
  | edit_profile => edit_profile_rest
  | admin_panel => admin_panel_rest
  | register => register_page
  | login => login_page
  | admin_login => admin_login_page
  end.

End Pages.

(** ** Vocabulary of the statements *)

(** The next connection attempt succeeds, and the next statement runs. *)
Definition connects (w : World) : Prop := hd None (conn_plan w) = None.
Definition executes (w : World) : Prop := hd None (sql_plan w) = None.

(** The world after the next connection attempt has been used up. *)
Definition connected (w : World) : World := set_conn_plan (tl (conn_plan w)) w.

(** No two accounts share a username, an email or a phone number. *)
Definition distinct_accounts (t : list Row) : Prop :=
  NoDup (map col_username t) /\ NoDup (map col_email t)
  /\ NoDup (map col_phone_number t).

(** The stored hashes of the rows a username selects. *)
Definition stored_hashes `{Externals} (u : string) (t : list Row) : list string :=
  map col_password (filter (username_is u) t).

(** The row the query of [authenticate_user] fetches for [u] exists, and
    bcrypt accepts [p] against its stored hash. *)
Definition row_accepts `{Externals} (u p : string) (t : list Row) : Prop :=
  exists user,
    fetchone (filter (username_is u) t) = Some user
    /\ bcrypt_checkpw p (col_password user) = Value true.

(** The claim on [authenticate_user], as a predicate of one call. *)
Definition authenticates_iff_row_accepts `{Externals} (u p : string) (w : World) : Prop :=
  fst (authenticate_user u p w) = Ok true <-> row_accepts u p (users w).

(** Some row already holds the username, the email or the phone number. *)
Definition taken (u em ph : string) (t : list Row) : Prop :=
  exists r, In r t /\ (col_username r = u \/ col_email r = em \/ col_phone_number r = ph).

Definition is_db_event (e : event) : bool :=
  match e with
  | db_connect_ev | db_execute_ev _ | db_commit_ev | db_close_ev => true
  | _ => false
  end.

(** [UPDATE users SET ... WHERE username = u], on one row. *)
Definition with_profile `{Externals} (u fn ln em ph : string) (r : Row) : Row :=
  if username_is u r then mkRow (col_username r) fn ln em ph (col_password r) else r.

Definition with_profile_and_hash `{Externals} (u fn ln em ph h : string) (r : Row) : Row :=
  if username_is u r then mkRow (col_username r) fn ln em ph h else r.

(** *** Guards *)

(** The session is on a guarded page without the flag the page asks for. *)
Definition guard_fails (s : Session) : Prop :=
  ((page s = main \/ page s = edit_profile) /\ authenticated s = false)
  \/ (page s = admin_panel /\ admin_authenticated s = false).

Definition guard_warning (p : Page) : string :=
  match p with
  | admin_panel => "You need to be logged in as an admin to access this page."
  | _ => "You need to be logged in to access this page."
  end.

Definition guard_target (p : Page) : Page :=
  match p with
  | admin_panel => admin_login
  | _ => login
  end.

(** The world after a guard has shown its warning and set the page. *)
Definition turned_back (w : World) : World :=
  set_session (set_page (guard_target (page (session w))) (session w))
    (set_trace (trace w ++ [st_warning_ev (guard_warning (page (session w)))]) w).

(** The same world with both flags set: the world of a user the guard
    lets through. *)
Definition granted (w : World) : World :=
  set_session (set_authenticated true (set_admin_authenticated true (session w))) w.

(** Two worlds that agree on everything but the two flags and the page
    of the session, and on what was shown after [t1] in the one and
    after [t2] in the other. *)
Definition same_but_access (t1 t2 : list event) (w1 w2 : World) : Prop :=
  users w1 = users w2
  /\ conn_plan w1 = conn_plan w2
  /\ sql_plan w1 = sql_plan w2
  /\ gensalt_source w1 = gensalt_source w2
  /\ salts_drawn w1 = salts_drawn w2
  /\ session_username (session w1) = session_username (session w2)
  /\ uploaded_file (session w1) = uploaded_file (session w2)
  /\ confirm_delete (session w1) = confirm_delete (session w2)
  /\ theme (session w1) = theme (session w2)
  /\ exists shown, trace w1 = t1 ++ shown /\ trace w2 = t2 ++ shown.

(** A computation that does the same from two such worlds. *)
Definition access_blind {A} (m : M A) : Prop :=
  forall t1 t2 w1 w2,
    same_but_access t1 t2 w1 w2 ->
    fst (m w1) = fst (m w2)
    /\ same_but_access t1 t2 (snd (m w1)) (snd (m w2)).

(** *** The dashboard *)

(** [m] returns, with a value that satisfies [Q], and every event it
    adds to the trace satisfies [P]. *)
Definition runs {A} (P : event -> Prop) (m : M A) (Q : A -> Prop) : Prop :=
  forall w,
    exists a shown,
      fst (m w) = Ok a /\ Q a
      /\ trace (snd (m w)) = trace w ++ shown /\ Forall P shown.

(** [m] returns, shows [e] on the way, and every event it adds to the
    trace satisfies [P]. *)
Definition shows {A} (P : event -> Prop) (e : event) (m : M A) : Prop :=
  forall w,
    exists a shown,
      fst (m w) = Ok a
      /\ trace (snd (m w)) = trace w ++ shown
      /\ In e shown /\ Forall P shown.

Definition is_plot (e : event) : bool :=
  match e with
  | st_plotly_chart_ev _ => true
  | _ => false
  end.

(** The uploader hands [file] to the script. *)
Definition uploads (inp : Inputs) (file : UploadedFile) : Prop :=
  file_chosen inp = Some file
  /\ extension_allowed ["csv"; "xlsx"] file = true.

(** The read step turns [file] into [df]. *)
Definition reads_as `{Externals} (file : UploadedFile) (df : DataFrame) : Prop :=
  forall w, fst (read_file file w) = Ok (Some df).

Definition plots_heatmap (e : event) : bool :=
  match e with
  | st_plotly_chart_ev (Heatmap _) => true
  | _ => false
  end.

Definition plots_chart (e : event) : bool :=
  match e with
  | st_plotly_chart_ev (Chart _ _ _) => true
  | _ => false
  end.

(** The columns the two axis selectors give. *)
Definition x_axis (inp : Inputs) (df : DataFrame) : string :=
  nth (selectbox_index inp "Select X-axis column") (map fst (columns df))
      (hd "" (map fst (columns df))).

Definition y_axis (inp : Inputs) (df : DataFrame) : string :=
  nth (selectbox_index inp "Select Y-axis column") (map fst (columns df))
      (hd "" (map fst (columns df))).

Definition heatmap_error : event :=
  st_error_ev "No numeric columns found in the dataset to generate a heatmap.".

Definition pie_error : event :=
  st_error_ev "Pie chart requires categorical. data for 'names' and numerical data for 'values'.".

(** ** Sample externals and worlds, to run the model *)

(** A toy stand-in for bcrypt: the hash spells out salt and password. *)
Definition sample_hashpw (password salt : string) : bcrypt_result string :=
  Value ("$2b$" ++ salt ++ "$" ++ password)%string.

Definition sample_checkpw (password stored_hash : string) : bcrypt_result bool :=
  Value (endswith stored_hash ("$" ++ password)%string).

(** A toy stand-in for pandas: two text columns, and one row for every
    line after the header. *)
Definition sample_frame (f : UploadedFile) : DataFrame :=
  mkDataFrame [("name", object); ("city", object)]
    (List.length (filter (Ascii.eqb Re.newline)
                    (list_ascii_of_string (file_bytes f))) - 1).

(** A toy stand-in for [pd.read_excel] with the openpyxl engine: a
    workbook in the xlsx format is a zip archive, and content that is
    not one is refused. *)
Definition sample_read_excel (f : UploadedFile) : read_result :=
  if String.prefix "PK" (file_bytes f)
  then Frame (sample_frame f)
  else ReaderFails "File is not a zip file".

Definition sample : Externals := {|
  sql_eq := String.eqb;
  bcrypt_hashpw := sample_hashpw;
  bcrypt_checkpw := sample_checkpw;
  ADMIN_USERNAME := "RBI";
  ADMIN_PASSWORD_HASH := "$2b$s0$RBI123";
  chardet_detect := fun _ => Some "utf-8";
  pd_read_csv := fun f _ => Frame (sample_frame f);
  pd_read_excel := sample_read_excel
|}.

Definition alice : Row :=
  mkRow "alice" "Alice" "Liddell" "alice@example.org" "+4412345678" "$2b$s1$wonder".

Definition bob : Row :=
  mkRow "bob" "Bob" "Stone" "bob@example.org" "9198765432" "$2b$s2$builder".

(** The session state the script sets up on its first run (lines
    215-227). *)
Definition new_session : Session :=
  mkSession false None false register None None None.

(** A world with the given table and plans, nothing shown yet. *)
Definition world (t : list Row) (s : Session) (conn sqlp : list (option string)) : World :=
  mkWorld t s [] conn sqlp (fun _ => "s9") 0.

(** A user who touches no widget but the uploader. *)
Definition only_uploads (f : option UploadedFile) : Inputs :=
  mkInputs (fun _ => None) (fun _ => false) (fun _ => false) (fun _ => 0)
           Bar_Chart f.

(** A user who uploads a file and picks the pie chart. *)
Definition picks_pie (f : UploadedFile) : Inputs :=
  mkInputs (fun _ => None) (fun _ => false) (fun _ => false) (fun _ => 0)
           Pie_Chart (Some f).

Definition logged_in (u : string) : Session :=
  mkSession true (Some u) false main None None None.

(** A CSV file that holds a header and no data row. *)
Definition header_only_csv : UploadedFile :=
  mkFile "people.csv" "text/csv" (String.append "name,city" (String Re.newline "")).

Definition people_csv : UploadedFile :=
  mkFile "people.csv" "text/csv"
    (String.append "name,city" (String Re.newline
       (String.append "Ann,Oslo" (String Re.newline "")))).

(** A workbook in the old Excel format. *)
Definition ledger_xls : UploadedFile :=
  mkFile "ledger.xls" "application/vnd.ms-excel" "workbook".

Definition notes_txt : UploadedFile :=
  mkFile "notes.txt" "text/plain" "hello".

(** *** Further vocabulary *)

(** The second connection attempt from here succeeds, and the second
    statement runs. *)
Definition then_connects (w : World) : Prop := hd None (tl (conn_plan w)) = None.
Definition then_executes (w : World) : Prop := hd None (tl (sql_plan w)) = None.

(** What a text input gives: what was typed, or its initial value. *)
Definition typed (inp : Inputs) (key value : string) : string :=
  match text_typed inp key with
  | Some s => s
  | None => value
  end.

(** Every character of [s] is in the class [p]. *)
Definition all_chars (p : ascii -> bool) (s : string) : bool :=
  forallb p (list_ascii_of_string s).

Definition email_local_char (c : ascii) : bool :=
  Re.lower c || Re.upper c || Re.digit c || Re.one_of "._%+-" c.

Definition email_host_char (c : ascii) : bool :=
  Re.lower c || Re.upper c || Re.digit c || Re.one_of ".-" c.

Definition letter (c : ascii) : bool := Re.lower c || Re.upper c.

(** Nothing, or one newline. *)
Definition newline_or_nothing (s : string) : Prop :=
  s = "" \/ s = String Re.newline "".

(** An optional plus sign, a digit from 1 to 9, nine digits, and an
    optional newline. *)
Definition phone_shape (s : string) : Prop :=
  exists plus d ds nl,
    s = (plus ++ String d ds ++ nl)%string
    /\ (plus = "" \/ plus = "+")
    /\ Re.between "1"%char "9"%char d = true
    /\ String.length ds = 9
    /\ all_chars Re.digit ds = true
    /\ newline_or_nothing nl.

(** local@host.tld, and an optional newline. *)
Definition email_shape (s : string) : Prop :=
  exists local host tld nl,
    s = (local ++ "@" ++ host ++ "." ++ tld ++ nl)%string
    /\ local <> "" /\ all_chars email_local_char local = true
    /\ host <> "" /\ all_chars email_host_char host = true
    /\ 2 <= String.length tld /\ all_chars letter tld = true
    /\ newline_or_nothing nl.

(** Connections opened and closed, counted on a piece of trace. *)
Definition is_connect (e : event) : bool :=
  match e with db_connect_ev => true | _ => false end.

Definition is_close (e : event) : bool :=
  match e with db_close_ev => true | _ => false end.

Definition count_events (f : event -> bool) (l : list event) : nat :=
  List.length (filter f l).

(** What [m] adds to the trace closes [k] connections more than it
    opens. *)
Definition net (k : nat) {A} (m : M A) : Prop :=
  forall w,
    exists shown,
      trace (snd (m w)) = trace w ++ shown
      /\ count_events is_close shown = count_events is_connect shown + k.

(** [m] returns, and only talks to Streamlit and the session: no
    connection attempt, no statement, no salt, the table as it was. *)
Definition ui_only {A} (m : M A) : Prop :=
  forall w,
    exists a shown,
      fst (m w) = Ok a
      /\ trace (snd (m w)) = trace w ++ shown
      /\ Forall (fun e => is_db_event e = false) shown
      /\ users (snd (m w)) = users w
      /\ conn_plan (snd (m w)) = conn_plan w
      /\ sql_plan (snd (m w)) = sql_plan w
      /\ salts_drawn (snd (m w)) = salts_drawn w.

(** [m] never raises the exception that reruns the script. *)
Definition never_reruns {A} (m : M A) : Prop :=
  forall w, fst (m w) <> Raise RerunException.

(** A stand-in for bcrypt that, like the library, raises on a stored
    value that does not look like a hash. *)
Definition strict_checkpw (password stored_hash : string) : bcrypt_result bool :=
  if String.prefix "$2b$" stored_hash
  then sample_checkpw password stored_hash
  else ValueError "Invalid salt".

Definition strict : Externals := {|
  sql_eq := String.eqb;
  bcrypt_hashpw := sample_hashpw;
  bcrypt_checkpw := strict_checkpw;
  ADMIN_USERNAME := "RBI";
  ADMIN_PASSWORD_HASH := "$2b$s0$RBI123";
  chardet_detect := fun _ => Some "utf-8";
  pd_read_csv := fun f _ => Frame (sample_frame f);
  pd_read_excel := sample_read_excel
|}.

(** A row whose password column holds the password itself. *)
Definition mallory : Row :=
  mkRow "mallory" "Mal" "Lory" "mal@example.org" "5550001111" "letmein".

(** bcrypt hashes the new password, when one is given: the only step
    of [update_user] between the connection and its UPDATE. *)
Definition hashes `{Externals} (pw : option string) (w : World) : Prop :=
  match pw with
  | Some (String c s) =>
      exists h, bcrypt_hashpw (String c s) (gensalt_source w (salts_drawn w)) = Value h
  | _ => True
  end.

(** The last character of a string that is not empty. *)
Fixpoint last_char (s : string) : ascii :=
  match s with
  | EmptyString => Ascii.zero
  | String c s' =>
      match s' with
      | EmptyString => c
      | _ => last_char s'
      end
  end.

(** A visitor who fills the registration form, with the same password
    twice, and clicks "Register". *)
Definition fills_register_form (em ph : string) : Inputs :=
  mkInputs (fun key => if String.eqb key "new_username" then Some "carol"
                       else if String.eqb key "new_name" then Some "Carol"
                       else if String.eqb key "new_last_name" then Some "Chan"
                       else if String.eqb key "new_email" then Some em
                       else if String.eqb key "new_phone" then Some ph
                       else if String.eqb key "new_password" then Some "secret"
                       else if String.eqb key "confirm_password" then Some "secret"
                       else None)
           (fun key => String.eqb key "register_button") (fun _ => false) (fun _ => 0)
           Bar_Chart None.

(** A visitor on the login page who types a name and a password and
    clicks "Login". *)
Definition logs_in (u p : string) : Inputs :=
  mkInputs (fun key => if String.eqb key "login_username" then Some u
                       else if String.eqb key "login_password" then Some p
                       else None)
           (fun key => String.eqb key "login_button") (fun _ => false) (fun _ => 0)
           Bar_Chart None.

Definition at_login : Session :=
  mkSession false None false login None None None.

(** * Properties *)

(** ** The matcher decides the words of an expression *)

Module ReFacts.
Import Re.

Lemma append_empty (u v : string) : (u ++ v)%string = "" -> u = "" /\ v = "".
Proof. destruct u; simpl; [auto | discriminate]. Qed.

Lemma nullable_lang (r : re) : nullable r = true <-> lang r "".
Proof.
  split.
  - induction r; simpl; intros H; try discriminate.
    + constructor.
    + apply andb_true_iff in H. destruct H as [H1 H2].
      change "" with ("" ++ "")%string. constructor; auto.
    + apply orb_true_iff in H. destruct H as [H | H];
        [apply LAltL | apply LAltR]; auto.
    + constructor.
  - intros H. remember "" as s eqn:Es. induction H; simpl; try reflexivity;
      try discriminate.
    + apply append_empty in Es. destruct Es as [-> ->].
      rewrite IHlang1, IHlang2; reflexivity.
    + rewrite IHlang by assumption. reflexivity.
    + rewrite IHlang by assumption. apply orb_true_r.
Qed.

Lemma deriv_sound (c : ascii) (r : re) :
  forall s, lang (deriv c r) s -> lang r (String c s).
Proof.
  induction r; simpl; intros s H.
  - inversion H.
  - inversion H.
  - destruct (p c) eqn:E; inversion H; subst. now constructor.
  - destruct (nullable r1) eqn:N.
    + inversion H as [| | | ? ? ? H1 | ? ? ? H1 | |]; subst.
      * inversion H1; subst.
        change (String c (u ++ v)) with (String c u ++ v)%string.
        constructor; auto.
      * change (String c s) with ("" ++ String c s)%string.
        constructor; [now apply nullable_lang | auto].
    + inversion H; subst.
      change (String c (u ++ v)) with (String c u ++ v)%string.
      constructor; auto.
  - inversion H; subst; [apply LAltL | apply LAltR]; auto.
  - inversion H; subst.
    change (String c (u ++ v)) with (String c u ++ v)%string.
    constructor; auto.
Qed.

Lemma deriv_complete (r : re) (t : string) :
  lang r t -> forall c s, t = String c s -> lang (deriv c r) s.
Proof.
  induction 1; intros c0 s0 E; simpl; try discriminate.
  - injection E as -> <-. rewrite H. constructor.
  - destruct u as [|a u].
    + simpl in E. subst v.
      rewrite (proj2 (nullable_lang r) H). apply LAltR. now apply IHlang2.
    + simpl in E. injection E as -> <-.
      assert (Hc : lang (Cat (deriv c0 r) s) (u ++ v)%string)
        by (constructor; [now apply IHlang1 | assumption]).
      destruct (nullable r); [now apply LAltL | exact Hc].
  - apply LAltL. now apply IHlang.
  - apply LAltR. now apply IHlang.
  - simpl in E. injection E as -> <-.
    constructor; [now apply IHlang1 | assumption].
Qed.

Theorem fullmatch_lang (r : re) (s : string) : fullmatch r s = true <-> lang r s.
Proof.
  revert r. induction s as [|c s IH]; intros r; simpl.
  - apply nullable_lang.
  - rewrite IH. split; [apply deriv_sound|].
    intros H. now apply (deriv_complete r (String c s) H).
Qed.

End ReFacts.

(** ** The validators on examples *)

Example email_ok : is_valid_email "ann.lee+x@mail.example.org" = true.
Proof. vm_compute. reflexivity. Qed.
Example email_trailing_newline : is_valid_email (String.append "a@b.io" (String Re.newline "")) = true.
Proof. vm_compute. reflexivity. Qed.
Example email_no_tld : is_valid_email "ann@mail" = false.
Proof. vm_compute. reflexivity. Qed.
Example email_short_tld : is_valid_email "ann@mail.x" = false.
Proof. vm_compute. reflexivity. Qed.
Example phone_ok : is_valid_phone "+9198765432" = true.
Proof. vm_compute. reflexivity. Qed.
Example phone_short : is_valid_phone "98765432" = false.
Proof. vm_compute. reflexivity. Qed.
Example phone_leading_zero : is_valid_phone "0198765432" = false.
Proof. vm_compute. reflexivity. Qed.

Example splitext_examples :
  splitext_ext "data.CSV" = ".CSV" /\ splitext_ext "archive.tar.gz" = ".gz"
  /\ splitext_ext ".bashrc" = "" /\ splitext_ext "dir.d/readme" = ""
  /\ lower (splitext_ext "Book.XLSX") = ".xlsx".
Proof. repeat split. Qed.

(** ** Running a computation by hand *)

Ltac run :=
  repeat (cbv beta iota zeta delta
            [bind ret lift emit st_error st_warning st_success st_header st_write
             st_plotly_chart try_finally try_except_MySQLError try_except_Exception
             connection_commit connection_close gets modify_session when
             go_to_login go_to_register go_to_main go_to_edit_profile
             go_to_admin_panel go_to_admin_login hash_password verify_password
             bcrypt_gensalt]; cbn [fst snd]).

Lemma hd_error_filter {A} (f : A -> bool) (l : list A) :
  hd_error (filter f l) = find f l.
Proof.
  induction l as [|a l IH]; simpl; [reflexivity|].
  destruct (f a); [reflexivity | exact IH].
Qed.

Lemma filter_none {A} (f : A -> bool) (l : list A) :
  (forall x, In x l -> f x = false) -> filter f l = [].
Proof.
  induction l as [|a l IH]; simpl; intros H; [reflexivity|].
  rewrite (H a (or_introl eq_refl)). apply IH. intros x Hx. apply H. now right.
Qed.

Section AccountProperties.
Context {ext : Externals}.

(** What [create_connection] does, by the head of the plan. *)
Lemma create_connection_up (w : World) :
  connects w ->
  create_connection w
  = (Ok (Some pymysql_connection),
     set_trace (trace w ++ [db_connect_ev]) (connected w)).
Proof.
  unfold connects, create_connection, connected.
  destruct w as [t s tr cp sp g n]; simpl.
  destruct cp as [|[msg|] rest]; simpl; intros H; try discriminate; reflexivity.
Qed.

Lemma create_connection_down (w : World) (msg : string) :
  hd None (conn_plan w) = Some msg ->
  create_connection w
  = (Ok None,
     set_trace (trace w ++ [st_error_ev ("Database connection error: " ++ msg)])
               (connected w)).
Proof.
  unfold create_connection, connected.
  destruct w as [t s tr cp sp g n]; simpl.
  destruct cp as [|[m|] rest]; simpl; intros H; try discriminate.
  injection H as ->. reflexivity.
Qed.

(** What [cursor.execute] does, by the head of the plan. *)
Lemma cursor_execute_ok (c : Connection) (q : sql) (w : World) :
  executes w ->
  cursor_execute c q w
  = (Ok (snd (run_sql q (users w))),
     set_trace (trace w ++ [db_execute_ev q])
       (set_users (fst (run_sql q (users w))) (set_sql_plan (tl (sql_plan w)) w))).
Proof.
  unfold executes, cursor_execute.
  destruct w as [t s tr cp sp g n]; simpl.
  destruct sp as [|[m|] rest]; simpl; intros H; try discriminate;
    destruct (run_sql q t); reflexivity.
Qed.

Lemma cursor_execute_raises (c : Connection) (q : sql) (w : World) (msg : string) :
  hd None (sql_plan w) = Some msg ->
  cursor_execute c q w = (Raise (MySQLError msg), set_sql_plan (tl (sql_plan w)) w).
Proof.
  unfold cursor_execute.
  destruct w as [t s tr cp sp g n]; simpl.
  destruct sp as [|[m|] rest]; simpl; intros H; try discriminate.
  injection H as ->. reflexivity.
Qed.

Lemma plan_cases (plan : list (option string)) :
  hd None plan = None \/ exists msg, hd None plan = Some msg.
Proof.
  destruct plan as [|[m|] rest]; simpl; eauto.
Qed.

(** [authenticate_user], case by case. *)
Lemma authenticate_user_down (u p : string) (w : World) :
  ~ connects w -> fst (authenticate_user u p w) = Ok false.
Proof.
  intros H. destruct (plan_cases (conn_plan w)) as [Hc | [msg Hc]]; [contradiction|].
  unfold authenticate_user. run. rewrite (create_connection_down _ _ Hc). reflexivity.
Qed.

Lemma authenticate_user_sql_error (u p : string) (w : World) :
  connects w -> ~ executes w -> fst (authenticate_user u p w) = Ok false.
Proof.
  intros Hc H.
  destruct (plan_cases (sql_plan w)) as [Hs | [msg Hs]]; [contradiction|].
  unfold authenticate_user. run. rewrite (create_connection_up _ Hc).
  erewrite cursor_execute_raises by exact Hs. reflexivity.
Qed.

Lemma authenticate_user_up (u p : string) (w : World) :
  connects w -> executes w ->
  fst (authenticate_user u p w)
  = match find (username_is u) (users w) with
    | Some user =>
        match bcrypt_checkpw p (col_password user) with
        | Value ok => Ok ok
        | ValueError msg => Raise (PyException msg)
        end
    | None => Ok false
    end.
Proof.
  intros Hc Hs. unfold authenticate_user. run. rewrite (create_connection_up _ Hc).
  rewrite cursor_execute_ok by exact Hs. cbn [run_sql fst snd].
  unfold fetchone. rewrite hd_error_filter. cbn [users connected set_conn_plan set_trace].
  destruct (find (username_is u) (users w)) as [user|]; [|reflexivity].
  destruct (bcrypt_checkpw p (col_password user)) as [[|]|e]; reflexivity.
Qed.

Lemma authenticate_user_no_row (u p : string) (w : World) :
  (forall r, In r (users w) -> username_is u r = false) ->
  fst (authenticate_user u p w) = Ok false.
Proof.
  intros Hnone.
  destruct (plan_cases (conn_plan w)) as [Hc | [msg Hc]].
  - destruct (plan_cases (sql_plan w)) as [Hs | [msg Hs]].
    + rewrite (authenticate_user_up u p w Hc Hs).
      destruct (find (username_is u) (users w)) as [user|] eqn:E; [|reflexivity].
      apply find_some in E. destruct E as [Hin Hu].
      rewrite (Hnone user Hin) in Hu. discriminate.
    + apply authenticate_user_sql_error; [exact Hc|]. unfold executes. congruence.
  - apply authenticate_user_down. unfold connects. congruence.
Qed.

(** In a table where at most one row answers to [u], the row fetched
    is any row of [u]. *)
Lemma row_accepts_unique (u p : string) (t : list Row) :
  (forall r1 r2, In r1 t -> In r2 t ->
                 username_is u r1 = true -> username_is u r2 = true -> r1 = r2) ->
  row_accepts u p t
  <-> exists user, In user t /\ username_is u user = true
                   /\ bcrypt_checkpw p (col_password user) = Value true.
Proof.
  intros Huniq. unfold row_accepts, fetchone. rewrite hd_error_filter. split.
  - intros (user & Hf & Hp). apply find_some in Hf. destruct Hf as [Hin Hu].
    now exists user.
  - intros (user & Hin & Hu & Hp).
    destruct (find (username_is u) t) as [first|] eqn:Hf.
    + apply find_some in Hf. destruct Hf as [Hin' Hu'].
      exists first. split; [reflexivity|].
      now rewrite (Huniq first user Hin' Hin Hu' Hu).
    + pose proof (find_none _ _ Hf user Hin) as Hn. congruence.
Qed.

(** C1 (amended). When the connection is created and the SELECT raises
    no SQL error, [authenticate_user u p] returns true exactly when the
    row fetched for [u] exists and bcrypt accepts [p] against its stored
    hash; when the connection cannot be created or the SELECT raises a
    SQL error it returns false; and it returns false whenever no row for
    [u] exists. *)
Theorem authenticate_user_spec (u p : string) (w : World) :
  (connects w -> executes w -> authenticates_iff_row_accepts u p w)
  /\ (~ (connects w /\ executes w) ->
      fst (authenticate_user u p w) = Ok false)
  /\ ((forall r, In r (users w) -> username_is u r = false) ->
      fst (authenticate_user u p w) = Ok false).
Proof.
  split; [|split].
  - intros Hc Hs. unfold authenticates_iff_row_accepts, row_accepts, fetchone.
    rewrite (authenticate_user_up u p w Hc Hs), hd_error_filter.
    destruct (find (username_is u) (users w)) as [user|].
    + destruct (bcrypt_checkpw p (col_password user)) as [[|]|msg] eqn:E; split;
        try discriminate; try reflexivity.
      * intros _. exists user. split; [reflexivity | exact E].
      * intros (user' & Hu & Hp). injection Hu as <-. congruence.
      * intros (user' & Hu & Hp). injection Hu as <-. congruence.
    + split; [discriminate|]. intros (user' & Hu & _). discriminate.
  - intros H. destruct (plan_cases (conn_plan w)) as [Hc | [msg Hc]].
    + apply authenticate_user_sql_error; [exact Hc|]. intros Hs. apply H. now split.
    + apply authenticate_user_down. unfold connects. congruence.
  - apply authenticate_user_no_row.
Qed.

End AccountProperties.

(** The amended C1 at work: alice logs in on a healthy server. *)
Lemma authenticate_user_spec_witness :
  connects (world [alice] new_session [] [])
  /\ executes (world [alice] new_session [] [])
  /\ @authenticates_iff_row_accepts sample "alice" "wonder"
       (world [alice] new_session [] []).
Proof.
  split; [reflexivity|]. split; [reflexivity|].
  apply (proj1 (@authenticate_user_spec sample "alice" "wonder"
                  (world [alice] new_session [] []))); reflexivity.
Defined.

(** C1 as stated fails: with the server unreachable, alice's row exists
    and bcrypt accepts her password, yet [authenticate_user] returns
    false. *)
Lemma authenticate_user_unreachable_server :
  ~ @authenticates_iff_row_accepts sample "alice" "wonder"
      (world [alice] new_session [Some "Can't connect to MySQL server"] []).
Proof.
  unfold authenticates_iff_row_accepts. intros [_ H].
  assert (E : fst (@authenticate_user sample "alice" "wonder"
                     (world [alice] new_session
                        [Some "Can't connect to MySQL server"] [])) = Ok true).
  { apply H. exists alice. split; reflexivity. }
  vm_compute in E. discriminate.
Qed.

(** ** Deleting, then logging in *)

Section DeleteThenAuthenticate.
Context {ext : Externals}.

Lemma find_after_delete (u : string) (t : list Row) :
  find (username_is u) (filter (fun r => negb (username_is u r)) t) = None.
Proof.
  induction t as [|r t IH]; simpl; [reflexivity|].
  destruct (username_is u r) eqn:E; simpl; [exact IH|].
  rewrite E. exact IH.
Qed.

Lemma delete_user_up (u : string) (w : World) :
  connects w -> executes w ->
  fst (delete_user u w) = Ok tt
  /\ users (snd (delete_user u w))
     = filter (fun r => negb (username_is u r)) (users w).
Proof.
  intros Hc Hs. unfold delete_user. run. rewrite (create_connection_up _ Hc).
  rewrite cursor_execute_ok by exact Hs. split; reflexivity.
Qed.

(** C5 (amended). When [delete_user u] gets its connection and its
    DELETE raises no SQL error, it returns, and on the world it leaves
    [authenticate_user u p] returns false for every password [p]. *)
Theorem delete_then_authenticate (u : string) (w : World) :
  connects w -> executes w ->
  fst (delete_user u w) = Ok tt
  /\ forall p, fst (authenticate_user u p (snd (delete_user u w))) = Ok false.
Proof.
  intros Hc Hs. destruct (delete_user_up u w Hc Hs) as [Hret Husers].
  split; [exact Hret|]. intros p.
  apply authenticate_user_no_row.
  intros r Hin. rewrite Husers in Hin. apply filter_In in Hin.
  destruct Hin as [_ Hr]. now apply negb_true_iff in Hr.
Qed.

End DeleteThenAuthenticate.

(** The amended C5 at work: alice is deleted on a healthy server. *)
Lemma delete_then_authenticate_witness :
  connects (world [alice; bob] new_session [] [])
  /\ executes (world [alice; bob] new_session [] [])
  /\ fst (@authenticate_user sample "alice" "wonder"
            (snd (@delete_user sample "alice" (world [alice; bob] new_session [] []))))
     = Ok false.
Proof.
  split; [reflexivity|]. split; [reflexivity|].
  apply (proj2 (@delete_then_authenticate sample "alice"
                  (world [alice; bob] new_session [] []) eq_refl eq_refl)).
Defined.

(** C5 as stated fails: when [delete_user] cannot connect, alice's row
    stays, and the login that follows succeeds. *)
Lemma delete_user_unreachable_server :
  fst (@authenticate_user sample "alice" "wonder"
         (snd (@delete_user sample "alice"
                 (world [alice; bob] new_session
                    [Some "Can't connect to MySQL server"] []))))
  = Ok true.
Proof. vm_compute. reflexivity. Qed.

(** ** Updating a user *)

Section UpdateUser.
Context {ext : Externals}.

Lemma with_profile_password (u fn ln em ph : string) (t : list Row) :
  map col_password (map (with_profile u fn ln em ph) t) = map col_password t.
Proof.
  rewrite map_map. apply map_ext. intros r. unfold with_profile.
  destruct (username_is u r); reflexivity.
Qed.

Lemma with_profile_and_hash_selected (u fn ln em ph h : string) (t : list Row) :
  filter (username_is u) (map (with_profile_and_hash u fn ln em ph h) t)
  = map (fun r => mkRow (col_username r) fn ln em ph h) (filter (username_is u) t).
Proof.
  induction t as [|r t IH]; [reflexivity|].
  cbn [map filter]. rewrite IH. unfold with_profile_and_hash, username_is.
  destruct (sql_eq (col_username r) u) eqn:E; cbn [col_username map];
    rewrite E; reflexivity.
Qed.

Lemma with_profile_and_hash_others (u fn ln em ph h : string) (t : list Row) :
  filter (fun r => negb (username_is u r)) (map (with_profile_and_hash u fn ln em ph h) t)
  = filter (fun r => negb (username_is u r)) t.
Proof.
  induction t as [|r t IH]; [reflexivity|].
  cbn [map filter]. rewrite IH. unfold with_profile_and_hash, username_is.
  destruct (sql_eq (col_username r) u) eqn:E; cbn [col_username negb];
    rewrite E; reflexivity.
Qed.

(** Without a password, or with the empty one. *)
Lemma update_user_keeps_hash_up (u fn ln em ph : string) (pw : option string) (w : World) :
  truthy pw = false -> connects w -> executes w ->
  update_user u fn ln em ph pw w
  = (Ok tt,
     set_trace (trace w ++ [db_connect_ev;
                            db_execute_ev (UpdateUser fn ln em ph u);
                            db_commit_ev;
                            st_success_ev "User updated successfully!";
                            db_close_ev])
       (set_users (map (with_profile u fn ln em ph) (users w))
          (set_sql_plan (tl (sql_plan w)) (connected w)))).
Proof.
  intros Hpw Hc Hs.
  destruct pw as [[|c s]|]; try discriminate;
    unfold update_user; run; rewrite (create_connection_up _ Hc);
    (rewrite cursor_execute_ok by exact Hs);
    destruct w as [t ss tr cp sp g n]; cbn; rewrite <- ?app_assoc; reflexivity.
Qed.

Lemma update_user_keeps_hash (u fn ln em ph : string) (pw : option string) (w : World) :
  truthy pw = false ->
  map col_password (users (snd (update_user u fn ln em ph pw w)))
  = map col_password (users w)
  /\ salts_drawn (snd (update_user u fn ln em ph pw w)) = salts_drawn w.
Proof.
  intros Hpw.
  destruct (plan_cases (conn_plan w)) as [Hc | [msg Hc]].
  - destruct (plan_cases (sql_plan w)) as [Hs | [msg Hs]].
    + rewrite (update_user_keeps_hash_up u fn ln em ph pw w Hpw Hc Hs).
      cbn [snd users set_trace set_users salts_drawn set_sql_plan connected set_conn_plan].
      split; [apply with_profile_password | reflexivity].
    + destruct pw as [[|c s]|]; try discriminate;
        unfold update_user; run; rewrite (create_connection_up _ Hc);
        (erewrite cursor_execute_raises by exact Hs); split; reflexivity.
  - unfold update_user. run. rewrite (create_connection_down _ _ Hc).
    split; reflexivity.
Qed.

(** With a password that is not empty. *)
Lemma update_user_rehashes_up (u fn ln em ph p h : string) (w : World) :
  p <> "" -> connects w -> executes w ->
  bcrypt_hashpw p (gensalt_source w (salts_drawn w)) = Value h ->
  update_user u fn ln em ph (Some p) w
  = (Ok tt,
     set_trace (trace w ++ [db_connect_ev;
                            db_execute_ev (UpdateUserAndPassword fn ln em ph h u);
                            db_commit_ev;
                            st_success_ev "User updated successfully!";
                            db_close_ev])
       (set_users (map (with_profile_and_hash u fn ln em ph h) (users w))
          (set_salts_drawn (S (salts_drawn w))
             (set_sql_plan (tl (sql_plan w)) (connected w))))).
Proof.
  intros Hp Hc Hs Hh. destruct p as [|c s]; [congruence|].
  unfold update_user. run. rewrite (create_connection_up _ Hc).
  cbn [gensalt_source salts_drawn set_trace connected set_conn_plan].
  rewrite Hh. cbn [of_bcrypt].
  rewrite cursor_execute_ok by exact Hs.
  destruct w as [t ss tr cp sp g n]; cbn; rewrite <- ?app_assoc; reflexivity.
Qed.

(** C2 (amended). When [update_user] gets its connection and its UPDATE
    raises no SQL error: called with no password it leaves every stored
    hash as it was and gives the rows of the username the new first
    name, last name, email and phone number; called with a password
    that is not empty, which bcrypt hashes to [h] under the salt drawn
    for this call, it stores [h] in every row of the username, with the
    new fields, and leaves the other rows alone.  What is written is the
    output of bcrypt on the new password and the fresh salt, whatever
    the hash stored before. *)
Theorem update_user_password_spec (u fn ln em ph : string) (w : World) :
  connects w -> executes w ->
  (let w' := snd (update_user u fn ln em ph None w) in
   users w' = map (with_profile u fn ln em ph) (users w)
   /\ map col_password (users w') = map col_password (users w))
  /\ (forall p h,
        p <> "" ->
        bcrypt_hashpw p (gensalt_source w (salts_drawn w)) = Value h ->
        let w' := snd (update_user u fn ln em ph (Some p) w) in
        users w' = map (with_profile_and_hash u fn ln em ph h) (users w)
        /\ filter (username_is u) (users w')
           = map (fun r => mkRow (col_username r) fn ln em ph h)
                 (filter (username_is u) (users w))
        /\ filter (fun r => negb (username_is u r)) (users w')
           = filter (fun r => negb (username_is u r)) (users w)
        /\ salts_drawn w' = S (salts_drawn w)).
Proof.
  intros Hc Hs. split.
  - rewrite (update_user_keeps_hash_up u fn ln em ph None w eq_refl Hc Hs).
    cbn [snd users set_trace set_users]. split; [reflexivity|].
    apply with_profile_password.
  - intros p h Hp Hh.
    rewrite (update_user_rehashes_up u fn ln em ph p h w Hp Hc Hs Hh).
    cbn [snd users set_trace set_users salts_drawn set_salts_drawn].
    split; [reflexivity|]. split; [apply with_profile_and_hash_selected|].
    split; [apply with_profile_and_hash_others | reflexivity].
Qed.

(** C10. [update_user] with the empty string for a password is
    [update_user] with no password: the two calls give the same result
    and leave the same world; every stored hash stays as it was, and no
    salt is drawn, so nothing is hashed. *)
Theorem update_user_blank_password (u fn ln em ph : string) (w : World) :
  update_user u fn ln em ph (Some "") w = update_user u fn ln em ph None w
  /\ map col_password (users (snd (update_user u fn ln em ph (Some "") w)))
     = map col_password (users w)
  /\ salts_drawn (snd (update_user u fn ln em ph (Some "") w)) = salts_drawn w.
Proof.
  split; [reflexivity|].
  apply (update_user_keeps_hash u fn ln em ph (Some "") w eq_refl).
Qed.

End UpdateUser.

(** The amended C2 at work: alice gets a new phone number, then a new
    password. *)
Lemma update_user_password_spec_witness :
  connects (world [alice; bob] new_session [] [])
  /\ executes (world [alice; bob] new_session [] [])
  /\ users (snd (@update_user sample "alice" "Alice" "Liddell" "alice@example.org"
                   "+4412345678" (Some "rabbit")
                   (world [alice; bob] new_session [] [])))
     = [mkRow "alice" "Alice" "Liddell" "alice@example.org" "+4412345678"
              "$2b$s9$rabbit"; bob].
Proof.
  split; [reflexivity|]. split; [reflexivity|].
  refine (proj1 (proj2 (@update_user_password_spec sample "alice" "Alice" "Liddell"
                   "alice@example.org" "+4412345678"
                   (world [alice; bob] new_session [] []) eq_refl eq_refl)
                 "rabbit" "$2b$s9$rabbit" _ eq_refl)).
  discriminate.
Defined.

(** C2 as stated fails: when [update_user] cannot connect, a call with a
    new password leaves the old hash in alice's row. *)
Lemma update_user_unreachable_server :
  @stored_hashes sample "alice"
    (users (snd (@update_user sample "alice" "Alice" "Liddell" "alice@example.org"
                   "+4412345678" (Some "rabbit")
                   (world [alice; bob] new_session
                      [Some "Can't connect to MySQL server"] []))))
  = [col_password alice]
  /\ @bcrypt_hashpw sample "rabbit" "s9" <> Value (col_password alice).
Proof. split; [vm_compute; reflexivity | discriminate]. Qed.

(** ** Registration *)

Section Registration.
Context {ext : Externals}.

(** [check_existing_user] always returns; it leaves the table alone and
    only adds to the trace; and it says false only after a query that
    ran and found no row. *)
Lemma check_existing_user_spec (u em ph : string) (w : World) :
  exists b w1,
    check_existing_user u em ph w = (Ok b, w1)
    /\ users w1 = users w
    /\ session w1 = session w
    /\ (exists evs, trace w1 = trace w ++ evs)
    /\ (b = false ->
        filter (any_is u em ph) (users w) = []
        /\ connects w /\ executes w).
Proof.
  destruct (plan_cases (conn_plan w)) as [Hc | [msg Hc]].
  - destruct (plan_cases (sql_plan w)) as [Hs | [msg Hs]].
    + unfold check_existing_user. run. rewrite (create_connection_up _ Hc).
      rewrite cursor_execute_ok by exact Hs. cbn [run_sql fst snd].
      eexists _, _. split; [reflexivity|].
      cbn [users session trace set_trace set_users set_sql_plan connected set_conn_plan].
      split; [reflexivity|]. split; [reflexivity|]. split.
      * rewrite <- !app_assoc. eexists. reflexivity.
      * intros Hb. split; [|split; assumption].
        destruct (filter (any_is u em ph) (users w)); [reflexivity|discriminate].
    + unfold check_existing_user. run. rewrite (create_connection_up _ Hc).
      erewrite cursor_execute_raises by exact Hs.
      eexists _, _. split; [reflexivity|].
      cbn [users session trace set_trace set_users set_sql_plan connected set_conn_plan].
      split; [reflexivity|]. split; [reflexivity|]. split.
      * rewrite <- !app_assoc. eexists. reflexivity.
      * discriminate.
  - unfold check_existing_user. run. rewrite (create_connection_down _ _ Hc).
    eexists _, _. split; [reflexivity|].
    cbn [users session trace set_trace connected set_conn_plan].
    split; [reflexivity|]. split; [reflexivity|]. split.
    + eexists. reflexivity.
    + discriminate.
Qed.

(** A request whose username, email or phone number is in the table is
    one the existence query finds, for a comparison that holds between a
    string and itself. *)
Lemma taken_is_found (u em ph : string) (t : list Row) :
  (forall s, sql_eq s s = true) ->
  taken u em ph t -> filter (any_is u em ph) t <> [].
Proof.
  intros Hrefl (r & Hin & Hr) Hnil.
  assert (Hf : In r (filter (any_is u em ph) t)).
  { apply filter_In. split; [exact Hin|]. unfold any_is.
    destruct Hr as [<- | [<- | <-]]; rewrite Hrefl;
      rewrite ?orb_true_r; reflexivity. }
  rewrite Hnil in Hf. exact Hf.
Qed.

(** What [register_user] can do to the table: nothing, or append the
    row of the request after a query that found no row. *)
Lemma register_user_users (u fn ln em ph pw : string) (w : World) :
  users (snd (register_user u fn ln em ph pw w)) = users w
  \/ (filter (any_is u em ph) (users w) = []
      /\ exists h, users (snd (register_user u fn ln em ph pw w))
                   = users w ++ [mkRow u fn ln em ph h]).
Proof.
  pattern (register_user u fn ln em ph pw w).
  match goal with |- ?P _ => set (Q := P) end.
  unfold register_user.
  destruct (is_valid_email em); cbn [negb]; [|left; reflexivity].
  destruct (is_valid_phone ph); cbn [negb]; [|left; reflexivity].
  destruct (check_existing_user_spec u em ph w)
    as (b & w1 & Echeck & Husers & _ & _ & Hb).
  unfold bind at 1. rewrite Echeck.
  destruct b; [left; exact Husers|].
  destruct (Hb eq_refl) as (Hnil & _ & _).
  destruct (plan_cases (conn_plan w1)) as [Hc | [msg Hc]].
  - run. rewrite (create_connection_up _ Hc).
    cbn [gensalt_source salts_drawn set_trace connected set_conn_plan].
    destruct (bcrypt_hashpw pw (gensalt_source w1 (salts_drawn w1))) as [h|msg];
      cbn [of_bcrypt]; [|left; exact Husers].
    match goal with |- context [cursor_execute ?c ?q ?W] =>
      destruct (plan_cases (sql_plan W)) as [Hs | [msg Hs]];
      [ rewrite (cursor_execute_ok c q W Hs)
      | rewrite (cursor_execute_raises c q W msg Hs) ] end.
    + right. split; [exact Hnil|]. exists h.
      cbn [run_sql fst snd users set_trace set_users set_session set_salts_drawn
           set_sql_plan connected set_conn_plan].
      rewrite Husers. reflexivity.
    + left. exact Husers.
  - run. rewrite (create_connection_down _ _ Hc). left. exact Husers.
Qed.

Lemma NoDup_snoc {A} (l : list A) (x : A) :
  NoDup l -> ~ In x l -> NoDup (l ++ [x]).
Proof.
  induction l as [|a l IH]; simpl; intros Hnd Hx.
  - constructor; [intros []|constructor].
  - inversion Hnd as [|a' l' Ha Hl]; subst. constructor.
    + rewrite in_app_iff. simpl. intros [H | [H | []]]; [now apply Ha|].
      apply Hx. now left.
    + apply IH; [exact Hl|]. intros H. apply Hx. now right.
Qed.

(** A request that meets a row of the table is turned down after the
    query, whatever the server does. *)
Lemma register_user_found (u fn ln em ph pw : string) (w : World) :
  filter (any_is u em ph) (users w) <> [] ->
  is_valid_email em = true -> is_valid_phone ph = true ->
  exists shown w',
    register_user u fn ln em ph pw w = (Ok tt, w')
    /\ users w' = users w
    /\ trace w' = trace w ++ shown
                  ++ [st_error_ev "Username, email, or phone number already in use!"].
Proof.
  intros Hfound He Hp. unfold register_user. rewrite He, Hp. cbn [negb].
  destruct (check_existing_user_spec u em ph w)
    as (b & w1 & Echeck & Husers & _ & (evs & Htrace) & Hb).
  unfold bind at 1. rewrite Echeck.
  destruct b; [|destruct (Hb eq_refl) as (Hnil & _); contradiction].
  run. exists evs. eexists. split; [reflexivity|].
  cbn [users trace set_trace]. split; [exact Husers|].
  rewrite Htrace, app_assoc. reflexivity.
Qed.

Lemma register_user_malformed (u fn ln em ph pw : string) (w : World) :
  is_valid_email em = false \/ is_valid_phone ph = false ->
  register_user u fn ln em ph pw w
  = (Ok tt,
     set_trace
       (trace w ++ [st_error_ev (if is_valid_email em
                                 then "Invalid phone number format!"
                                 else "Invalid email format!")]) w).
Proof.
  intros H. unfold register_user.
  destruct (is_valid_email em); cbn [negb]; [|reflexivity].
  destruct H as [H | H]; [discriminate|]. rewrite H. reflexivity.
Qed.

(** C3. With a server comparison that holds between a string and itself:
    a registration request whose username, email or phone number is in
    some row of the table inserts no row, returns, and ends on an error
    message; and registration keeps the accounts distinct, no two rows
    sharing a username, an email or a phone number. *)
Theorem register_user_keeps_accounts_distinct
    (u fn ln em ph pw : string) (w : World) :
  (forall s, sql_eq s s = true) ->
  (taken u em ph (users w) ->
   fst (register_user u fn ln em ph pw w) = Ok tt
   /\ users (snd (register_user u fn ln em ph pw w)) = users w
   /\ exists shown msg,
        trace (snd (register_user u fn ln em ph pw w))
        = trace w ++ shown ++ [st_error_ev msg])
  /\ (distinct_accounts (users w) ->
      distinct_accounts (users (snd (register_user u fn ln em ph pw w)))).
Proof.
  intros Hrefl. split.
  - intros Htaken.
    destruct (is_valid_email em) eqn:He; [destruct (is_valid_phone ph) eqn:Hp|].
    + destruct (register_user_found u fn ln em ph pw w
                  (taken_is_found u em ph (users w) Hrefl Htaken) He Hp)
        as (shown & w' & E & Husers & Htrace).
      rewrite E. cbn [fst snd]. split; [reflexivity|]. split; [exact Husers|].
      exists shown. eexists. exact Htrace.
    + rewrite register_user_malformed by (right; exact Hp). cbn [fst snd].
      split; [reflexivity|]. split; [reflexivity|].
      exists []. eexists. reflexivity.
    + rewrite register_user_malformed by (left; exact He). cbn [fst snd].
      split; [reflexivity|]. split; [reflexivity|].
      exists []. eexists. reflexivity.
  - intros (Hu & He & Hp).
    destruct (register_user_users u fn ln em ph pw w) as [E | (Hnil & h & E)];
      rewrite E; [now repeat split|].
    assert (Hfree : ~ taken u em ph (users w)).
    { intros Ht. exact (taken_is_found u em ph (users w) Hrefl Ht Hnil). }
    unfold distinct_accounts. rewrite !map_app. cbn [map col_username col_email col_phone_number].
    repeat split; apply NoDup_snoc; try assumption;
      intros Hin; apply in_map_iff in Hin; destruct Hin as (r & Hr & Hin);
      apply Hfree; exists r; split; auto.
Qed.

(** C4. A registration request with a malformed email or a malformed
    phone number returns after one error message and nothing else: the
    world is the one before the call plus that message, so no connection
    was tried, no statement was sent, and the table is the same. *)
Theorem register_user_rejects_malformed (u fn ln em ph pw : string) (w : World) :
  is_valid_email em = false \/ is_valid_phone ph = false ->
  let w' := snd (register_user u fn ln em ph pw w) in
  register_user u fn ln em ph pw w
  = (Ok tt,
     set_trace
       (trace w ++ [st_error_ev (if is_valid_email em
                                 then "Invalid phone number format!"
                                 else "Invalid email format!")]) w)
  /\ users w' = users w
  /\ conn_plan w' = conn_plan w /\ sql_plan w' = sql_plan w
  /\ filter is_db_event (trace w') = filter is_db_event (trace w).
Proof.
  intros H w'. subst w'. rewrite (register_user_malformed u fn ln em ph pw w H).
  cbn [snd users conn_plan sql_plan trace set_trace].
  repeat split. rewrite filter_app. cbn. apply app_nil_r.
Qed.

(** C9. When the connection cannot be created, or the existence query
    raises a SQL error, [check_existing_user] returns true, whatever the
    table holds; [register_user] then inserts nothing, and for a
    well-formed request it returns after the message that the username,
    email or phone number is in use. *)
Theorem registration_blocked_on_database_failure
    (u fn ln em ph pw : string) (w : World) :
  ~ (connects w /\ executes w) ->
  fst (check_existing_user u em ph w) = Ok true
  /\ users (snd (register_user u fn ln em ph pw w)) = users w
  /\ (is_valid_email em = true -> is_valid_phone ph = true ->
      fst (register_user u fn ln em ph pw w) = Ok tt
      /\ exists shown,
           trace (snd (register_user u fn ln em ph pw w))
           = trace w ++ shown
             ++ [st_error_ev "Username, email, or phone number already in use!"]).
Proof.
  intros Hfail.
  destruct (check_existing_user_spec u em ph w)
    as (b & w1 & Echeck & Husers & _ & (evs & Htrace) & Hb).
  assert (b = true) as ->.
  { destruct b; [reflexivity|]. destruct (Hb eq_refl) as (_ & Hc & Hs).
    exfalso. apply Hfail. now split. }
  split; [now rewrite Echeck|].
  destruct (is_valid_email em) eqn:He; [destruct (is_valid_phone ph) eqn:Hp|].
  - assert (E : register_user u fn ln em ph pw w
                = (Ok tt, set_trace (trace w1 ++ [st_error_ev "Username, email, or phone number already in use!"]) w1)).
    { unfold register_user. rewrite He, Hp. cbn [negb].
      unfold bind at 1. rewrite Echeck. reflexivity. }
    rewrite E. cbn [fst snd users trace set_trace].
    split; [exact Husers|]. intros _ _. split; [reflexivity|].
    exists evs. rewrite Htrace, app_assoc. reflexivity.
  - rewrite register_user_malformed by (right; exact Hp).
    split; [reflexivity | discriminate].
  - rewrite register_user_malformed by (left; exact He).
    split; [reflexivity | discriminate].
Qed.

End Registration.

(** C3 at work: a second registration under alice's username. *)
Lemma register_user_keeps_accounts_distinct_witness :
  taken "alice" "al@example.org" "5551234567" (users (world [alice; bob] new_session [] []))
  /\ users (snd (@register_user sample "alice" "Al" "Ice" "al@example.org"
                   "5551234567" "secret" (world [alice; bob] new_session [] [])))
     = [alice; bob].
Proof.
  assert (Ht : taken "alice" "al@example.org" "5551234567"
                 (users (world [alice; bob] new_session [] []))).
  { exists alice. split; [left; reflexivity | left; reflexivity]. }
  split; [exact Ht|].
  exact (proj1 (proj2 (proj1
           (@register_user_keeps_accounts_distinct sample "alice" "Al" "Ice"
              "al@example.org" "5551234567" "secret"
              (world [alice; bob] new_session [] []) String.eqb_refl) Ht))).
Defined.

(** C4 at work: an email without a domain. *)
Lemma register_user_rejects_malformed_witness :
  is_valid_email "carol.example.org" = false
  /\ @register_user sample "carol" "Carol" "Chan" "carol.example.org"
       "5551234567" "secret" (world [alice; bob] new_session [] [])
     = (Ok tt,
        set_trace [st_error_ev "Invalid email format!"]
          (world [alice; bob] new_session [] [])).
Proof.
  split; [vm_compute; reflexivity|].
  exact (proj1 (@register_user_rejects_malformed sample "carol" "Carol" "Chan"
                  "carol.example.org" "5551234567" "secret"
                  (world [alice; bob] new_session [] [])
                  (or_introl eq_refl))).
Defined.

(** C9 at work: carol is new, the server is down. *)
Lemma registration_blocked_on_database_failure_witness :
  ~ (connects (world [alice] new_session [Some "Can't connect to MySQL server"] [])
     /\ executes (world [alice] new_session
                               [Some "Can't connect to MySQL server"] []))
  /\ fst (@check_existing_user sample "carol" "carol@example.org" "5551234567"
            (world [alice] new_session [Some "Can't connect to MySQL server"] []))
     = Ok true.
Proof.
  assert (H : ~ (connects (world [alice] new_session
                             [Some "Can't connect to MySQL server"] [])
                 /\ executes (world [alice] new_session
                                [Some "Can't connect to MySQL server"] []))).
  { intros [Hc _]. discriminate Hc. }
  split; [exact H|].
  exact (proj1 (@registration_blocked_on_database_failure sample "carol" "Carol"
                  "Chan" "carol@example.org" "5551234567" "secret"
                  (world [alice] new_session
                     [Some "Can't connect to MySQL server"] []) H)).
Defined.

(** ** The dashboard *)

Section RunsRules.
Variable P : event -> Prop.

Lemma runs_ret {A} (a : A) (Q : A -> Prop) : Q a -> runs P (ret a) Q.
Proof.
  intros HQ w. exists a, []. cbn. rewrite app_nil_r. auto.
Qed.

Lemma runs_bind {A B} (m : M A) (k : A -> M B) (Q : A -> Prop) (R : B -> Prop) :
  runs P m Q -> (forall a, Q a -> runs P (k a) R) -> runs P (bind m k) R.
Proof.
  intros Hm Hk w. destruct (Hm w) as (a & s1 & Ha & HQ & Ht & HP).
  unfold bind. destruct (m w) as [r w1]. cbn [fst snd] in *. subst r.
  destruct (Hk a HQ w1) as (b & s2 & Hb & HR & Ht2 & HP2).
  exists b, (s1 ++ s2). split; [exact Hb|]. split; [exact HR|].
  split; [rewrite Ht2, Ht, app_assoc; reflexivity | now apply Forall_app].
Qed.

Lemma runs_weaken {A} (m : M A) (Q R : A -> Prop) :
  runs P m Q -> (forall a, Q a -> R a) -> runs P m R.
Proof.
  intros Hm HQR w. destruct (Hm w) as (a & s1 & Ha & HQ & Ht & HP).
  exists a, s1. auto.
Qed.

Lemma runs_ret_eq {A} (a : A) : runs P (ret a) (eq a).
Proof. now apply runs_ret. Qed.

Lemma runs_emit (e : event) : P e -> runs P (emit e) (fun _ => True).
Proof.
  intros He w. exists tt, [e]. cbn. auto.
Qed.

Lemma runs_gets {A} (f : Session -> A) : runs P (gets f) (fun _ => True).
Proof.
  intros w. exists (f (session w)), []. cbn. rewrite app_nil_r. auto.
Qed.

Lemma runs_modify_session (f : Session -> Session) :
  runs P (modify_session f) (fun _ => True).
Proof.
  intros w. exists tt, []. cbn. rewrite app_nil_r. auto.
Qed.

Lemma runs_when (b : bool) (m : M unit) :
  runs P m (fun _ => True) -> runs P (when b m) (fun _ => True).
Proof.
  intros Hm. destruct b; [exact Hm | now apply runs_ret].
Qed.

Lemma runs_for_each {A} (l : list A) (body : A -> M unit) :
  (forall x, runs P (body x) (fun _ => True)) ->
  runs P (for_each l body) (fun _ => True).
Proof.
  intros Hbody. induction l as [|x l IH]; cbn [for_each].
  - now apply runs_ret.
  - eapply runs_bind; [apply Hbody | intros _ _; exact IH].
Qed.

Lemma shows_emit (e : event) : P e -> shows P e (emit e).
Proof.
  intros He w. exists tt, [e]. cbn. auto.
Qed.

Lemma shows_bind_l {A B} (e : event) (m : M A) (k : A -> M B) :
  shows P e m -> (forall a, runs P (k a) (fun _ => True)) -> shows P e (bind m k).
Proof.
  intros Hm Hk w. destruct (Hm w) as (a & s1 & Ha & Ht & Hin & HP).
  unfold bind. destruct (m w) as [r w1]. cbn [fst snd] in *. subst r.
  destruct (Hk a w1) as (b & s2 & Hb & _ & Ht2 & HP2).
  exists b, (s1 ++ s2). split; [exact Hb|].
  split; [rewrite Ht2, Ht, app_assoc; reflexivity|].
  split; [apply in_or_app; now left | now apply Forall_app].
Qed.

Lemma shows_bind_r {A B} (e : event) (m : M A) (k : A -> M B) (Q : A -> Prop) :
  runs P m Q -> (forall a, Q a -> shows P e (k a)) -> shows P e (bind m k).
Proof.
  intros Hm Hk w. destruct (Hm w) as (a & s1 & Ha & HQ & Ht & HP).
  unfold bind. destruct (m w) as [r w1]. cbn [fst snd] in *. subst r.
  destruct (Hk a HQ w1) as (b & s2 & Hb & Ht2 & Hin & HP2).
  exists b, (s1 ++ s2). split; [exact Hb|].
  split; [rewrite Ht2, Ht, app_assoc; reflexivity|].
  split; [apply in_or_app; now right | now apply Forall_app].
Qed.

End RunsRules.

(** Runs a straight piece of the script through the rules above. *)
Ltac runs_step :=
  first
    [ apply runs_ret_eq
    | apply runs_ret; solve [trivial | congruence]
    | apply runs_gets
    | apply runs_when
    | apply runs_for_each; intros ?
    | apply runs_emit
    | apply runs_modify_session
    | eapply runs_bind; [|intros ? ?] ].

Ltac runs_script :=
  unfold st_write, st_error, st_warning, st_success, st_header, st_plotly_chart,
         st_checkbox, st_button, st_button_on_click, st_text_input, st_selectbox,
         st_selectbox_plot_type, st_file_uploader, logout,
         go_to_login, go_to_register, go_to_main, go_to_edit_profile,
         go_to_admin_panel, go_to_admin_login;
  repeat runs_step.

Section Dashboard.
Context {ext : Externals}.
Variable inp : Inputs.
Variable P : event -> Prop.
Hypothesis P_not_plot : forall e, is_plot e = false -> P e.

Lemma main_banner_runs : runs P (main_banner inp) (fun _ => True).
Proof.
  unfold main_banner. runs_script; apply P_not_plot; reflexivity.
Qed.

Lemma options_runs (df : DataFrame) :
  runs P (options inp df) (eq (plot_type_chosen inp)).
Proof.
  unfold options. runs_script; try (apply P_not_plot; reflexivity).
Qed.

(** The read step always returns, and only writes and reports. *)
Lemma read_file_runs (file : UploadedFile) :
  runs P (read_file file) (fun _ => True).
Proof.
  intros w. unfold read_file. run.
  destruct (String.eqb (lower (splitext_ext (file_name file))) ".csv").
  - unfold detect_encoding. run.
    destruct (pd_read_csv file _) as [df|msg|msg]; cbn [of_pandas];
      eexists _, _; (split; [reflexivity|]); (split; [exact I|]);
      cbn [snd trace set_trace]; rewrite <- ?app_assoc;
      (split; [reflexivity|]);
      repeat constructor; apply P_not_plot; reflexivity.
  - destruct (existsb _ _).
    + destruct (pd_read_excel file) as [df|msg|msg]; cbn [of_pandas];
        eexists _, _; (split; [reflexivity|]); (split; [exact I|]);
        cbn [snd trace set_trace]; rewrite <- ?app_assoc;
        (split; [reflexivity|]);
        repeat constructor; apply P_not_plot; reflexivity.
    + eexists _, _; (split; [reflexivity|]); (split; [exact I|]);
        cbn [snd trace set_trace]; rewrite <- ?app_assoc;
        (split; [reflexivity|]);
        repeat constructor; apply P_not_plot; reflexivity.
Qed.

Lemma upload_step_runs (file : UploadedFile) (df : DataFrame) :
  uploads inp file -> reads_as file df ->
  runs P (upload_step inp) (eq (Some df)).
Proof.
  intros [Hchosen Hallowed] Hread. unfold upload_step, st_file_uploader.
  rewrite Hchosen, Hallowed.
  eapply runs_bind.
  - eapply runs_bind; [apply runs_emit, P_not_plot; reflexivity|].
    intros _ _. apply runs_ret_eq.
  - intros r <-. eapply runs_bind; [apply runs_modify_session|]. intros _ _.
    intros w. destruct (read_file_runs file w) as (a & shown & Ha & _ & Ht & HP).
    exists a, shown. rewrite (Hread w) in Ha. injection Ha as <-. auto.
Qed.

End Dashboard.

Section HeatmapAndPie.
Context {ext : Externals}.
Variable inp : Inputs.

Let no_heatmap : event -> Prop := fun e => plots_heatmap e = false.
Let no_chart : event -> Prop := fun e => plots_chart e = false.

Lemma not_plot_no_heatmap (e : event) : is_plot e = false -> no_heatmap e.
Proof. destruct e; try reflexivity. discriminate. Qed.

Lemma not_plot_no_chart (e : event) : is_plot e = false -> no_chart e.
Proof. destruct e; try reflexivity. discriminate. Qed.

(** A column of the frame has a dtype. *)
Lemma column_dtype_of_column (df : DataFrame) (col : string) :
  In col (map fst (columns df)) -> exists d, column_dtype df col = Ok d.
Proof.
  unfold column_dtype. intros Hin.
  destruct (find (fun c => String.eqb (fst c) col) (columns df)) as [c|] eqn:E.
  - now exists (snd c).
  - exfalso. apply in_map_iff in Hin. destruct Hin as (c & Hc & Hin).
    pose proof (find_none _ _ E c Hin) as Hn. cbn in Hn.
    rewrite Hc, String.eqb_refl in Hn. discriminate.
Qed.

(** The heatmap step of a frame without numeric columns. *)
Lemma heatmap_step_skipped (df : DataFrame) :
  numeric_columns_of df = [] -> shows no_heatmap heatmap_error (heatmap_step df).
Proof.
  intros Hnone. unfold heatmap_step. rewrite Hnone. cbn [List.length Nat.ltb Nat.leb].
  apply shows_emit. reflexivity.
Qed.

Lemma heatmap_step_runs (df : DataFrame) :
  runs no_chart (heatmap_step df) (fun _ => True).
Proof.
  unfold heatmap_step.
  destruct (Nat.ltb 0 (List.length (numeric_columns_of df)));
    apply runs_emit; reflexivity.
Qed.

(** The chart step never plots a heatmap. *)
Lemma chart_step_runs (df : DataFrame) (plot : plot_type) (x y : string) :
  In x (map fst (columns df)) -> In y (map fst (columns df)) ->
  runs no_heatmap (chart_step df plot x y) (fun _ => True).
Proof.
  intros Hx Hy w.
  destruct (column_dtype_of_column df x Hx) as [dx Edx].
  destruct (column_dtype_of_column df y Hy) as [dy Edy].
  unfold chart_step. run. rewrite Edx.
  destruct plot; [| | |destruct dx; rewrite ?Edy; [destruct dy| | | | |]];
    eexists tt, _; (split; [reflexivity|]); (split; [exact I|]);
    cbn [snd trace set_trace]; (split; [reflexivity|]);
    repeat constructor.
Qed.

(** The pie chart of two columns that do not fit. *)
Lemma chart_step_pie_skipped (df : DataFrame) (x y : string) (dx dy : dtype) :
  column_dtype df x = Ok dx -> column_dtype df y = Ok dy ->
  dx <> object \/ is_number dy = false ->
  shows no_chart pie_error (chart_step df Pie_Chart x y).
Proof.
  intros Edx Edy Hbad w. unfold chart_step. run. rewrite Edx.
  assert (Hcase : dx <> object \/ (dx = object /\ is_number dy = false)).
  { destruct dx; try (left; discriminate). destruct Hbad; [now left | now right; split]. }
  destruct Hcase as [Hdx | [-> Hdy]].
  - destruct dx; try congruence;
      eexists tt, _; (split; [reflexivity|]);
      cbn [snd trace set_trace]; (split; [reflexivity|]);
      (split; [now left | repeat constructor]).
  - rewrite Edy. destruct dy; try discriminate;
      eexists tt, _; (split; [reflexivity|]);
      cbn [snd trace set_trace]; (split; [reflexivity|]);
      (split; [now left | repeat constructor]).
Qed.

Lemma selected_column (label : string) (first : string) (others : list string) :
  In (nth (selectbox_index inp label) (first :: others) first) (first :: others).
Proof.
  destruct (nth_in_or_default (selectbox_index inp label) (first :: others) first)
    as [H | ->]; [exact H | now left].
Qed.

Lemma chart_selection_runs (df : DataFrame) (plot : plot_type) :
  runs no_heatmap (chart_selection inp df plot) (fun _ => True).
Proof.
  unfold chart_selection.
  destruct (map fst (columns df)) as [|first others] eqn:Ecols.
  - apply runs_emit. reflexivity.
  - unfold st_selectbox.
    eapply runs_bind;
      [eapply runs_bind; [apply runs_emit; reflexivity | intros _ _; apply runs_ret_eq]|].
    intros x <-.
    eapply runs_bind;
      [eapply runs_bind; [apply runs_emit; reflexivity | intros _ _; apply runs_ret_eq]|].
    intros y <-.
    apply chart_step_runs; rewrite Ecols; apply selected_column.
Qed.

Lemma chart_selection_pie_skipped (df : DataFrame) (dx dy : dtype) :
  column_dtype df (x_axis inp df) = Ok dx ->
  column_dtype df (y_axis inp df) = Ok dy ->
  dx <> object \/ is_number dy = false ->
  shows no_chart pie_error (chart_selection inp df Pie_Chart).
Proof.
  unfold x_axis, y_axis, chart_selection. intros Edx Edy Hbad.
  destruct (map fst (columns df)) as [|first others] eqn:Ecols.
  - exfalso. unfold column_dtype in Edx.
    destruct (find _ (columns df)) as [c|] eqn:E; [|discriminate].
    apply find_some in E. destruct E as [Hin _].
    apply (in_map fst) in Hin. rewrite Ecols in Hin. exact Hin.
  - cbn [hd] in Edx, Edy. unfold st_selectbox.
    eapply shows_bind_r;
      [eapply runs_bind; [apply runs_emit; reflexivity | intros _ _; apply runs_ret_eq]|].
    intros x <-.
    eapply shows_bind_r;
      [eapply runs_bind; [apply runs_emit; reflexivity | intros _ _; apply runs_ret_eq]|].
    intros y <-.
    exact (chart_step_pie_skipped df _ _ dx dy Edx Edy Hbad).
Qed.

(** C7 (amended). For an uploaded file that the read step turns into a
    frame that is not empty, the main page returns and: when the frame
    has no numeric column, it shows the heatmap error and plots no
    heatmap; when the plot type is the pie chart and the dtype of the X
    column is not object or the dtype of the Y column is not numeric, it
    shows the pie chart error and plots no chart. *)
Theorem skipped_plots_are_reported (file : UploadedFile) (df : DataFrame) :
  uploads inp file -> reads_as file df -> empty df = false ->
  (numeric_columns_of df = [] ->
   shows (fun e => plots_heatmap e = false) heatmap_error (main_page inp))
  /\ (plot_type_chosen inp = Pie_Chart ->
      forall dx dy,
        column_dtype df (x_axis inp df) = Ok dx ->
        column_dtype df (y_axis inp df) = Ok dy ->
        dx <> object \/ is_number dy = false ->
        shows (fun e => plots_chart e = false) pie_error (main_page inp)).
Proof.
  intros Hup Hread Hfull. split.
  - intros Hnone. change (shows no_heatmap heatmap_error (main_page inp)).
    unfold main_page, main_rest.
    eapply shows_bind_r; [apply runs_gets|]. intros a _.
    eapply shows_bind_r.
    { apply runs_when. unfold st_warning, go_to_login.
      eapply runs_bind; [apply runs_emit; reflexivity|].
      intros _ _. apply runs_modify_session. }
    intros _ _.
    eapply shows_bind_r; [apply main_banner_runs, not_plot_no_heatmap|]. intros _ _.
    eapply shows_bind_r;
      [exact (upload_step_runs inp no_heatmap not_plot_no_heatmap file df Hup Hread)|].
    intros r <-. rewrite Hfull. cbn [negb]. unfold analysis, st_write.
    eapply shows_bind_r; [apply runs_emit; reflexivity|]. intros _ _.
    eapply shows_bind_r; [apply runs_emit; reflexivity|]. intros _ _.
    apply shows_bind_l; [exact (heatmap_step_skipped df Hnone)|]. intros _.
    eapply runs_bind; [apply options_runs, not_plot_no_heatmap|].
    intros plot _. apply chart_selection_runs.
  - intros Hpie dx dy Edx Edy Hbad.
    change (shows no_chart pie_error (main_page inp)).
    unfold main_page, main_rest.
    eapply shows_bind_r; [apply runs_gets|]. intros a _.
    eapply shows_bind_r.
    { apply runs_when. unfold st_warning, go_to_login.
      eapply runs_bind; [apply runs_emit; reflexivity|].
      intros _ _. apply runs_modify_session. }
    intros _ _.
    eapply shows_bind_r; [apply main_banner_runs, not_plot_no_chart|]. intros _ _.
    eapply shows_bind_r;
      [exact (upload_step_runs inp no_chart not_plot_no_chart file df Hup Hread)|].
    intros r <-. rewrite Hfull. cbn [negb]. unfold analysis, st_write.
    eapply shows_bind_r; [apply runs_emit; reflexivity|]. intros _ _.
    eapply shows_bind_r; [apply runs_emit; reflexivity|]. intros _ _.
    eapply shows_bind_r; [apply heatmap_step_runs|]. intros _ _.
    eapply shows_bind_r; [apply options_runs, not_plot_no_chart|].
    intros plot <-. rewrite Hpie.
    exact (chart_selection_pie_skipped df dx dy Edx Edy Hbad).
Qed.

End HeatmapAndPie.

(** C7 at work: a CSV file with one row of text, and the pie chart
    picked for its two text columns. *)
Lemma skipped_plots_are_reported_witness :
  uploads (picks_pie people_csv) people_csv
  /\ @reads_as sample people_csv (sample_frame people_csv)
  /\ empty (sample_frame people_csv) = false
  /\ numeric_columns_of (sample_frame people_csv) = []
  /\ shows (fun e => plots_heatmap e = false) heatmap_error
       (@main_page sample (picks_pie people_csv))
  /\ shows (fun e => plots_chart e = false) pie_error
       (@main_page sample (picks_pie people_csv)).
Proof.
  assert (Hup : uploads (picks_pie people_csv) people_csv)
    by (split; reflexivity).
  assert (Hread : @reads_as sample people_csv (sample_frame people_csv))
    by (intros w; reflexivity).
  split; [exact Hup|]. split; [exact Hread|].
  split; [reflexivity|]. split; [reflexivity|].
  split.
  - exact (proj1 (@skipped_plots_are_reported sample (picks_pie people_csv)
                    people_csv (sample_frame people_csv) Hup Hread eq_refl)
                 eq_refl).
  - exact (proj2 (@skipped_plots_are_reported sample (picks_pie people_csv)
                    people_csv (sample_frame people_csv) Hup Hread eq_refl)
                 eq_refl object object eq_refl eq_refl (or_intror eq_refl)).
Defined.

(** C7 as stated fails: a CSV file with a header and no row is read into
    a frame without numeric columns, and the page shows the prompt to
    upload a file, not the heatmap error. *)
Lemma header_only_csv_shows_no_error :
  uploads (only_uploads (Some header_only_csv)) header_only_csv
  /\ @reads_as sample header_only_csv (sample_frame header_only_csv)
  /\ numeric_columns_of (sample_frame header_only_csv) = []
  /\ ~ In heatmap_error
         (trace (snd (@main_page sample (only_uploads (Some header_only_csv))
                        (world [] (logged_in "alice") [] []))))
  /\ In (st_write_ev (Text "Upload a file to start the analysis."))
        (trace (snd (@main_page sample (only_uploads (Some header_only_csv))
                       (world [] (logged_in "alice") [] [])))).
Proof.
  split; [split; reflexivity|]. split; [intros w; reflexivity|].
  split; [reflexivity|]. split.
  - vm_compute. intros H.
    repeat (destruct H as [H | H]; [discriminate H|]). exact H.
  - vm_compute. repeat (first [left; reflexivity | right]).
Qed.

(** ** The uploader and the read step *)

Section ReadFile.
Context {ext : Externals}.

(** A file whose extension is none of the three is reported and gives
    no frame. *)
Lemma read_file_unsupported (file : UploadedFile) (w : World) :
  let file_extension := lower (splitext_ext (file_name file)) in
  file_extension <> ".csv" -> file_extension <> ".xls" -> file_extension <> ".xlsx" ->
  read_file file w
  = (Ok None,
     set_trace
       (trace w ++ [st_write_ev (Text ("Uploaded file extension: " ++ file_extension));
                    st_error_ev "Unsupported file type. Please upload a CSV or Excel file."])
       w).
Proof.
  intros e Hcsv Hxls Hxlsx. subst e. unfold read_file. run.
  apply String.eqb_neq in Hcsv, Hxls, Hxlsx. cbn [existsb].
  rewrite Hcsv, Hxls, Hxlsx. cbn [orb]. run.
  cbn [trace set_trace]. rewrite <- app_assoc. destruct w; reflexivity.
Qed.

(** A file with one of the three extensions goes to its pandas reader,
    and gives the frame that reader gives, if any. *)
Lemma read_file_supported (file : UploadedFile) (w : World) :
  let file_extension := lower (splitext_ext (file_name file)) in
  (file_extension = ".csv" ->
   fst (read_file file w)
   = match pd_read_csv file
             (chardet_detect (substring 0 (100 * 100) (file_bytes file))) with
     | Frame df => Ok (Some df)
     | _ => Ok None
     end)
  /\ (file_extension = ".xls" \/ file_extension = ".xlsx" ->
      fst (read_file file w)
      = match pd_read_excel file with
        | Frame df => Ok (Some df)
        | _ => Ok None
        end).
Proof.
  intros e. subst e. split.
  - intros E. unfold read_file, detect_encoding. run. rewrite E. cbn [String.eqb Ascii.eqb Bool.eqb].
    destruct (pd_read_csv file _) as [df|msg|msg]; reflexivity.
  - intros E. unfold read_file. run.
    assert (Hcsv : String.eqb (lower (splitext_ext (file_name file))) ".csv" = false)
      by (destruct E as [-> | ->]; reflexivity).
    assert (Hx : existsb (String.eqb (lower (splitext_ext (file_name file))))
                   [".xls"; ".xlsx"] = true)
      by (destruct E as [-> | ->]; reflexivity).
    rewrite Hcsv, Hx.
    destruct (pd_read_excel file) as [df|msg|msg]; reflexivity.
Qed.

(** The read step returns, whatever pandas does. *)
Lemma read_file_returns (file : UploadedFile) (w : World) :
  exists r, fst (read_file file w) = Ok r.
Proof.
  destruct (read_file_runs (fun _ => True) (fun _ _ => I) file w)
    as (r & _ & Hr & _).
  now exists r.
Qed.

End ReadFile.

(** ** What the upload path takes *)

Section FileNames.

Lemma substring_whole (s : string) : substring 0 (String.length s) s = s.
Proof. induction s as [|c s IH]; cbn; [reflexivity | now rewrite IH]. Qed.

Lemma substring_none (n : nat) (s : string) : substring n 0 s = "".
Proof. revert n. induction s as [|c s IH]; intros [|n]; cbn; auto. Qed.

Lemma last_char_lower (s : string) : last_char (lower s) = lower_char (last_char s).
Proof.
  induction s as [|c s IH]; [reflexivity|].
  destruct s as [|c' s]; [reflexivity|]. exact IH.
Qed.

(** A tail of a string ends as the string does. *)
Lemma last_char_substring (s : string) (k : nat) :
  k < String.length s ->
  last_char (substring k (String.length s - k) s) = last_char s.
Proof.
  revert k. induction s as [|c s IH]; intros k Hk; cbn [String.length] in Hk; [lia|].
  destruct k as [|k].
  - rewrite Nat.sub_0_r, substring_whole. reflexivity.
  - cbn [String.length Nat.sub substring]. rewrite IH by lia.
    destruct s; [cbn in Hk; lia | reflexivity].
Qed.

Lemma endswith_last_char (s suffix : string) :
  endswith s suffix = true -> suffix <> "" -> last_char s = last_char suffix.
Proof.
  unfold endswith. intros H Hne. apply andb_true_iff in H. destruct H as [Hle He].
  apply Nat.leb_le in Hle. apply String.eqb_eq in He.
  assert (Hpos : 0 < String.length suffix)
    by (destruct suffix; [congruence | cbn; lia]).
  pose proof (last_char_substring s (String.length s - String.length suffix)) as L.
  replace (String.length s - (String.length s - String.length suffix))
    with (String.length suffix) in L by lia.
  rewrite He in L. symmetry. apply L. lia.
Qed.

Lemma extension_allowed_csv_xlsx (f : UploadedFile) :
  extension_allowed ["csv"; "xlsx"] f
  = endswith (lower (file_name f)) ".csv" || endswith (lower (file_name f)) ".xlsx".
Proof. unfold extension_allowed. cbn [existsb]. now rewrite orb_false_r. Qed.

(** The uploader of the main page takes no file whose extension, as the
    read step computes it, is [.xls]. *)
Lemma xls_extension_not_allowed (f : UploadedFile) :
  lower (splitext_ext (file_name f)) = ".xls" ->
  extension_allowed ["csv"; "xlsx"] f = false.
Proof.
  intros H.
  assert (L : last_char (lower (file_name f)) = "s"%char).
  { rewrite last_char_lower. unfold splitext_ext in H.
    destruct (rfind "."%char (file_name f)) as [d|]; [|discriminate H].
    cbv zeta in H.
    match type of H with context [if ?b then _ else _] => destruct b end;
      [|discriminate H].
    destruct (Nat.lt_ge_cases d (String.length (file_name f))) as [Hd | Hd].
    - rewrite <- (last_char_substring (file_name f) d) by exact Hd.
      rewrite <- last_char_lower, H. reflexivity.
    - replace (String.length (file_name f) - d) with 0 in H by lia.
      rewrite substring_none in H. discriminate H. }
  rewrite extension_allowed_csv_xlsx. apply orb_false_iff.
  split; match goal with |- ?e = false => destruct e eqn:E end; try reflexivity;
    apply endswith_last_char in E; try discriminate; rewrite L in E; discriminate E.
Qed.

End FileNames.

Section UploadPath.
Context {ext : Externals}.
Variable inp : Inputs.

(** C8, amended.  The uploader takes exactly the files whose name ends,
    in any letter case, in .csv or .xlsx.  A file it does not take - a
    workbook with the extension .xls is one - is not read and gives no
    dataset; a file it takes is handed to the read step.  The read step
    reports a file whose extension is none of .csv, .xls and .xlsx as
    unsupported and gives no dataset, and it gives a dataset exactly
    when the pandas reader of the extension returns one.  So the path
    from upload to dataset gives a dataset only for a file the uploader
    took, never for a .xls. *)
Theorem upload_path_takes_csv_and_xlsx (file : UploadedFile) (w : World) :
  file_chosen inp = Some file ->
  let name := lower (file_name file) in
  let file_extension := lower (splitext_ext (file_name file)) in
  let taken := extension_allowed ["csv"; "xlsx"] file in
  let w1 :=
    set_trace (trace w ++ [st_file_uploader_ev "Upload a CSV or Excel file"]) w in
  (taken = true <-> endswith name ".csv" = true \/ endswith name ".xlsx" = true)
  /\ (file_extension = ".xls" -> taken = false)
  /\ (taken = false -> upload_step inp w = (Ok None, w1))
  /\ (taken = true ->
      upload_step inp w
      = read_file file (set_session (set_uploaded_file (Some file) (session w1)) w1))
  /\ (file_extension <> ".csv" -> file_extension <> ".xls" ->
      file_extension <> ".xlsx" ->
      forall w',
        read_file file w'
        = (Ok None,
           set_trace
             (trace w'
              ++ [st_write_ev (Text ("Uploaded file extension: " ++ file_extension));
                  st_error_ev
                    "Unsupported file type. Please upload a CSV or Excel file."])
             w'))
  /\ (forall w' df,
        fst (read_file file w') = Ok (Some df)
        <-> (file_extension = ".csv"
             /\ pd_read_csv file
                  (chardet_detect (substring 0 (100 * 100) (file_bytes file)))
                = Frame df)
            \/ ((file_extension = ".xls" \/ file_extension = ".xlsx")
                /\ pd_read_excel file = Frame df))
  /\ (forall df,
        fst (upload_step inp w) = Ok (Some df) ->
        taken = true /\ file_extension <> ".xls").
Proof.
  intros Hfile name file_extension taken w1.
  assert (Hrefused : taken = false -> upload_step inp w = (Ok None, w1)).
  { intros Hno. unfold upload_step, st_file_uploader. run.
    rewrite Hfile. fold taken. rewrite Hno. reflexivity. }
  split; [|split; [|split; [|split; [|split; [|split]]]]].
  - subst taken name. rewrite extension_allowed_csv_xlsx. apply orb_true_iff.
  - apply xls_extension_not_allowed.
  - exact Hrefused.
  - intros Hyes. unfold upload_step, st_file_uploader. run.
    rewrite Hfile. fold taken. rewrite Hyes. reflexivity.
  - intros Hcsv Hxls Hxlsx w'. now apply read_file_unsupported.
  - intros w' df.
    destruct (read_file_supported file w') as [Scsv Sxl].
    fold file_extension in Scsv, Sxl.
    destruct (String.eqb_spec file_extension ".csv") as [Ecsv | Ncsv].
    { rewrite (Scsv Ecsv).
      destruct (pd_read_csv file _) as [df'|msg|msg]; split;
        try discriminate;
        try (intros [= ->]; left; now split);
        intros [[_ H] | [[H | H] _]];
        try congruence; rewrite Ecsv in H; discriminate H. }
    destruct (String.eqb_spec file_extension ".xls") as [Exls | Nxls].
    { rewrite (Sxl (or_introl Exls)).
      destruct (pd_read_excel file) as [df'|msg|msg]; split;
        try discriminate;
        try (intros [= ->]; right; split; [now left | reflexivity]);
        intros [[H _] | [_ H]];
        try congruence; rewrite Exls in H; discriminate H. }
    destruct (String.eqb_spec file_extension ".xlsx") as [Exlsx | Nxlsx].
    { rewrite (Sxl (or_intror Exlsx)).
      destruct (pd_read_excel file) as [df'|msg|msg]; split;
        try discriminate;
        try (intros [= ->]; right; split; [now right | reflexivity]);
        intros [[H _] | [_ H]];
        try congruence; rewrite Exlsx in H; discriminate H. }
    rewrite (read_file_unsupported file w' Ncsv Nxls Nxlsx). cbn [fst].
    split; [discriminate|]. intros [[H _] | [[H | H] _]]; contradiction.
  - intros df Hdf. destruct taken eqn:Htaken.
    + split; [reflexivity|]. intros Hxls.
      apply xls_extension_not_allowed in Hxls. fold taken in Hxls. congruence.
    + rewrite (Hrefused eq_refl) in Hdf. discriminate Hdf.
Qed.

End UploadPath.

(** C8, amended, at work: people.csv is taken and handed to the read
    step. *)
Lemma upload_path_takes_csv_and_xlsx_witness :
  file_chosen (only_uploads (Some people_csv)) = Some people_csv
  /\ @upload_step sample (only_uploads (Some people_csv))
       (world [] (logged_in "alice") [] [])
     = @read_file sample people_csv
         (set_session
            (set_uploaded_file (Some people_csv) (logged_in "alice"))
            (set_trace [st_file_uploader_ev "Upload a CSV or Excel file"]
               (world [] (logged_in "alice") [] []))).
Proof.
  split; [reflexivity|].
  exact (proj1 (proj2 (proj2 (proj2
           (@upload_path_takes_csv_and_xlsx sample (only_uploads (Some people_csv))
              people_csv (world [] (logged_in "alice") [] []) eq_refl))))
         eq_refl).
Defined.

(** C8 as it was stated fails on a workbook named ledger.xls: its
    extension is one of the three the claim lists, yet the uploader,
    given the extensions csv and xlsx, does not take it; nothing is
    read, no dataset comes out, and the page asks for a file. *)
Lemma xls_workbook_is_refused :
  lower (splitext_ext (file_name ledger_xls)) = ".xls"
  /\ extension_allowed ["csv"; "xlsx"] ledger_xls = false
  /\ @upload_step sample (only_uploads (Some ledger_xls))
       (world [] (logged_in "alice") [] [])
     = (Ok None,
        set_trace [st_file_uploader_ev "Upload a CSV or Excel file"]
          (world [] (logged_in "alice") [] []))
  /\ last (trace (snd (@page_routing sample (only_uploads (Some ledger_xls))
                         (world [] (logged_in "alice") [] []))))
          st_columns_ev
     = st_write_ev (Text "Upload a file to start the analysis.").
Proof. repeat split; vm_compute; reflexivity. Qed.

(** ** The guards of the pages *)

Section BlindRules.

Lemma blind_ret {A} (a : A) : access_blind (ret a).
Proof. intros t1 t2 w1 w2 H. split; [reflexivity | exact H]. Qed.

Lemma blind_lift {A} (r : result A) : access_blind (lift r).
Proof. intros t1 t2 w1 w2 H. split; [reflexivity | exact H]. Qed.

Lemma blind_rerun {A} : access_blind (@st_experimental_rerun A).
Proof. intros t1 t2 w1 w2 H. split; [reflexivity | exact H]. Qed.

Lemma blind_bind {A B} (m : M A) (k : A -> M B) :
  access_blind m -> (forall a, access_blind (k a)) -> access_blind (bind m k).
Proof.
  intros Hm Hk t1 t2 w1 w2 H. unfold bind.
  destruct (Hm t1 t2 w1 w2 H) as [Hr Hw].
  destruct (m w1) as [r1 w1'], (m w2) as [r2 w2']. cbn [fst snd] in *. subst r2.
  destruct r1 as [a|e]; [now apply Hk | now split].
Qed.

Lemma blind_emit (e : event) : access_blind (emit e).
Proof.
  intros t1 t2 w1 w2 (Hu & Hc & Hs & Hg & Hn & Hsu & Huf & Hcd & Hth & shown & H1 & H2).
  split; [reflexivity|]. unfold emit, same_but_access. cbn.
  repeat (split; [assumption|]).
  exists (shown ++ [e]). rewrite H1, H2, !app_assoc. now split.
Qed.

(** Reading an entry of the session other than the flags and the page. *)
Lemma blind_gets {A} (f : Session -> A) :
  (forall s1 s2,
     session_username s1 = session_username s2 ->
     uploaded_file s1 = uploaded_file s2 ->
     confirm_delete s1 = confirm_delete s2 ->
     theme s1 = theme s2 -> f s1 = f s2) ->
  access_blind (gets f).
Proof.
  intros Hf t1 t2 w1 w2 H. split; [|exact H].
  destruct H as (Hu & Hc & Hs & Hg & Hn & Hsu & Huf & Hcd & Hth & _).
  unfold gets. cbn. f_equal. now apply Hf.
Qed.

(** Writing an entry of the session, the same in both worlds. *)
Lemma blind_modify_session (f : Session -> Session) :
  (forall s1 s2,
     session_username s1 = session_username s2 ->
     uploaded_file s1 = uploaded_file s2 ->
     confirm_delete s1 = confirm_delete s2 ->
     theme s1 = theme s2 ->
     session_username (f s1) = session_username (f s2)
     /\ uploaded_file (f s1) = uploaded_file (f s2)
     /\ confirm_delete (f s1) = confirm_delete (f s2)
     /\ theme (f s1) = theme (f s2)) ->
  access_blind (modify_session f).
Proof.
  intros Hf t1 t2 w1 w2
    (Hu & Hc & Hs & Hg & Hn & Hsu & Huf & Hcd & Hth & shown & H1 & H2).
  split; [reflexivity|]. unfold modify_session, same_but_access. cbn.
  destruct (Hf _ _ Hsu Huf Hcd Hth) as (F1 & F2 & F3 & F4).
  repeat (split; [assumption|]). now exists shown.
Qed.

Lemma blind_set_page (p : Page) : access_blind (modify_session (set_page p)).
Proof. apply blind_modify_session. cbn. auto. Qed.

Lemma blind_set_authenticated (b : bool) :
  access_blind (modify_session (set_authenticated b)).
Proof. apply blind_modify_session. cbn. auto. Qed.

Lemma blind_set_admin_authenticated (b : bool) :
  access_blind (modify_session (set_admin_authenticated b)).
Proof. apply blind_modify_session. cbn. auto. Qed.

Lemma blind_set_session_username (u : option string) :
  access_blind (modify_session (set_session_username u)).
Proof. apply blind_modify_session. cbn. auto. Qed.

Lemma blind_set_uploaded_file (f : option UploadedFile) :
  access_blind (modify_session (set_uploaded_file f)).
Proof. apply blind_modify_session. cbn. auto. Qed.

Lemma blind_set_confirm_delete (b : option bool) :
  access_blind (modify_session (set_confirm_delete b)).
Proof. apply blind_modify_session. cbn. auto. Qed.

Lemma blind_when (b : bool) (m : M unit) :
  access_blind m -> access_blind (when b m).
Proof. intros Hm. destruct b; [exact Hm | apply blind_ret]. Qed.

Lemma blind_for_each {A} (l : list A) (body : A -> M unit) :
  (forall x, access_blind (body x)) -> access_blind (for_each l body).
Proof.
  intros Hbody. induction l as [|x l IH]; cbn [for_each].
  - apply blind_ret.
  - apply blind_bind; [apply Hbody | intros _; exact IH].
Qed.

Lemma blind_try_except_MySQLError {A} (body : M A) (handler : string -> M A) :
  access_blind body -> (forall msg, access_blind (handler msg)) ->
  access_blind (try_except_MySQLError body handler).
Proof.
  intros Hb Hh t1 t2 w1 w2 H. unfold try_except_MySQLError.
  destruct (Hb t1 t2 w1 w2 H) as [Hr Hw].
  destruct (body w1) as [r1 w1'], (body w2) as [r2 w2']. cbn [fst snd] in *. subst r2.
  destruct r1 as [a|[msg|msg|msg|]]; try (now split). now apply Hh.
Qed.

Lemma blind_try_except_Exception {A} (body : M A) (handler : exn -> M A) :
  access_blind body -> (forall e, access_blind (handler e)) ->
  access_blind (try_except_Exception body handler).
Proof.
  intros Hb Hh t1 t2 w1 w2 H. unfold try_except_Exception.
  destruct (Hb t1 t2 w1 w2 H) as [Hr Hw].
  destruct (body w1) as [r1 w1'], (body w2) as [r2 w2']. cbn [fst snd] in *. subst r2.
  destruct r1 as [a|[msg|msg|msg|]]; try (now split); now apply Hh.
Qed.

Lemma blind_try_finally {A} (body : M A) (final : M unit) :
  access_blind body -> access_blind final -> access_blind (try_finally body final).
Proof.
  intros Hb Hf t1 t2 w1 w2 H. unfold try_finally.
  destruct (Hb t1 t2 w1 w2 H) as [Hr Hw].
  destruct (body w1) as [r1 w1'], (body w2) as [r2 w2']. cbn [fst snd] in *. subst r2.
  destruct (Hf t1 t2 w1' w2' Hw) as [Hr' Hw'].
  destruct (final w1') as [q1 v1], (final w2') as [q2 v2]. cbn [fst snd] in *. subst q2.
  destruct q1; now split.
Qed.

Lemma blind_create_connection : access_blind create_connection.
Proof.
  intros t1 t2 w1 w2
    (Hu & Hc & Hs & Hg & Hn & Hsu & Huf & Hcd & Hth & shown & H1 & H2).
  unfold create_connection. rewrite <- Hc.
  destruct (conn_plan w1) as [|[msg|] rest] eqn:E; run;
    (split; [reflexivity|]); unfold same_but_access; cbn;
    repeat (split; [congruence|]);
    eexists; rewrite H1, H2, <- !app_assoc; split; reflexivity.
Qed.

Lemma blind_bcrypt_gensalt : access_blind bcrypt_gensalt.
Proof.
  intros t1 t2 w1 w2
    (Hu & Hc & Hs & Hg & Hn & Hsu & Huf & Hcd & Hth & shown & H1 & H2).
  unfold bcrypt_gensalt. cbn [fst snd].
  split; [congruence|]. unfold same_but_access. cbn.
  repeat (split; [congruence|]). now exists shown.
Qed.

Lemma blind_cursor_execute `{Externals} (c : Connection) (q : sql) :
  access_blind (cursor_execute c q).
Proof.
  intros t1 t2 w1 w2
    (Hu & Hc & Hs & Hg & Hn & Hsu & Huf & Hcd & Hth & shown & H1 & H2).
  unfold cursor_execute. rewrite <- Hs, <- Hu.
  destruct (sql_plan w1) as [|[msg|] rest] eqn:E;
    try destruct (run_sql q (users w1)) as [t rows]; run;
    (split; [reflexivity|]); unfold same_but_access; cbn;
    repeat (split; [congruence|]);
    eexists; rewrite ?H1, ?H2, <- ?app_assoc; split; reflexivity.
Qed.

End BlindRules.

Ltac blind_step :=
  first
    [ simple apply @blind_ret
    | simple apply @blind_lift
    | simple apply @blind_rerun
    | simple apply blind_emit
    | simple apply blind_set_page
    | simple apply blind_set_authenticated
    | simple apply blind_set_admin_authenticated
    | simple apply blind_set_session_username
    | simple apply blind_set_uploaded_file
    | simple apply blind_set_confirm_delete
    | simple apply @blind_gets; intros; assumption
    | simple apply blind_create_connection
    | simple apply blind_bcrypt_gensalt
    | simple apply @blind_cursor_execute
    | simple apply blind_when
    | simple apply @blind_for_each; intros ?
    | simple apply @blind_try_finally
    | simple apply @blind_try_except_MySQLError; [|intros ?]
    | simple apply @blind_try_except_Exception; [|intros ?]
    | simple apply @blind_bind; [|intros ?]
    | progress cbv beta zeta
    | match goal with
      | |- access_blind (if ?b then _ else _) => destruct b
      | |- access_blind (match ?x with _ => _ end) => destruct x
      end ].

(** Unfolds the widgets and small helpers, then applies the rules, with
    [known] tried first for the pieces already shown blind. *)
Ltac blind_script known :=
  unfold st_write, st_error, st_warning, st_success, st_header, st_plotly_chart,
         st_checkbox, st_button, st_button_on_click, st_text_input, st_selectbox,
         st_selectbox_plot_type, st_file_uploader, logout,
         go_to_login, go_to_register, go_to_main, go_to_edit_profile,
         go_to_admin_panel, go_to_admin_login, hash_password, verify_password,
         connection_commit, connection_close, detect_encoding;
  repeat first [known | blind_step].

Section Guards.
Context {ext : Externals}.
Variable inp : Inputs.

Lemma blind_update_user (u fn ln em ph : string) (pw : option string) :
  access_blind (update_user u fn ln em ph pw).
Proof. unfold update_user. blind_script fail. Qed.

Lemma blind_delete_user (u : string) : access_blind (delete_user u).
Proof. unfold delete_user. blind_script fail. Qed.

Lemma blind_get_all_users : access_blind get_all_users.
Proof. unfold get_all_users. blind_script fail. Qed.

Lemma blind_read_file (file : UploadedFile) : access_blind (read_file file).
Proof. unfold read_file. blind_script fail. Qed.

Lemma blind_analysis (df : DataFrame) : access_blind (analysis inp df).
Proof.
  unfold analysis, heatmap_step, options, chart_selection, chart_step.
  blind_script fail.
Qed.

Lemma blind_main_rest : access_blind (main_rest inp).
Proof.
  unfold main_rest, main_banner, upload_step.
  blind_script ltac:(first [simple apply blind_read_file | simple apply blind_analysis]).
Qed.

Lemma blind_edit_profile_rest : access_blind (edit_profile_rest inp).
Proof.
  unfold edit_profile_rest.
  blind_script ltac:(simple apply blind_update_user).
Qed.

Lemma blind_admin_panel_rest : access_blind (admin_panel_rest inp).
Proof.
  unfold admin_panel_rest.
  blind_script ltac:(first [ simple apply blind_get_all_users
                           | simple apply blind_update_user
                           | simple apply blind_delete_user ]).
Qed.

Lemma blind_top_level (body : M unit) :
  access_blind body -> access_blind (top_level body).
Proof. intros Hb. unfold top_level. blind_script ltac:(exact Hb). Qed.

Lemma blind_page_rest (p : Page) :
  p = main \/ p = edit_profile \/ p = admin_panel ->
  access_blind (top_level (page_rest inp p)).
Proof.
  intros [-> | [-> | ->]]; apply blind_top_level; cbn [page_rest].
  - apply blind_main_rest.
  - apply blind_edit_profile_rest.
  - apply blind_admin_panel_rest.
Qed.

(** A failing guard warns, sets the page, and goes on. *)
Lemma page_routing_turned_back (w : World) :
  guard_fails (session w) ->
  page_routing inp w = top_level (page_rest inp (page (session w))) (turned_back w).
Proof.
  unfold guard_fails, page_routing, top_level, try_except_Exception, turned_back.
  intros [[[Hp | Hp] Ha] | [Hp Ha]];
    unfold bind at 1; unfold gets at 1; rewrite Hp; cbn [page_rest guard_target guard_warning];
    [unfold main_page | unfold edit_profile_page | unfold admin_panel_page];
    unfold bind at 1; unfold gets at 1; rewrite Ha; reflexivity.
Qed.

(** A guard that holds lets the page go on in the same world. *)
Lemma page_routing_granted (w : World) :
  guard_fails (session w) ->
  page_routing inp (granted w)
  = top_level (page_rest inp (page (session w))) (granted w).
Proof.
  unfold guard_fails, page_routing, top_level, try_except_Exception.
  intros [[[Hp | Hp] Ha] | [Hp Ha]];
    unfold bind at 1; unfold gets at 1; cbn [granted session set_session page
      set_authenticated set_admin_authenticated];
    rewrite Hp; cbn [page_rest];
    [unfold main_page | unfold edit_profile_page | unfold admin_panel_page];
    reflexivity.
Qed.

Lemma turned_back_same_but_access (w : World) :
  same_but_access
    (trace w ++ [st_warning_ev (guard_warning (page (session w)))]) (trace w)
    (turned_back w) (granted w).
Proof.
  unfold same_but_access, turned_back, granted. cbn.
  repeat (split; [reflexivity|]). exists []. now rewrite !app_nil_r.
Qed.

(** C6. When the page is main or edit_profile and the session is not
    authenticated, or the page is admin_panel and the session is not
    admin-authenticated, the run shows the warning and sets the page to
    login (admin_login for the admin panel), and then runs the whole
    remainder of the page from that world: with the same result, the
    same table afterwards and, after the warning, the same events as the
    run of a session that holds the flag. *)
Theorem guard_turns_back_but_page_renders (w : World) :
  guard_fails (session w) ->
  page_routing inp w
  = top_level (page_rest inp (page (session w))) (turned_back w)
  /\ page_routing inp (granted w)
     = top_level (page_rest inp (page (session w))) (granted w)
  /\ fst (page_routing inp w) = fst (page_routing inp (granted w))
  /\ users (snd (page_routing inp w)) = users (snd (page_routing inp (granted w)))
  /\ exists rest_shown,
       trace (snd (page_routing inp w))
       = trace w ++ [st_warning_ev (guard_warning (page (session w)))] ++ rest_shown
       /\ trace (snd (page_routing inp (granted w))) = trace w ++ rest_shown.
Proof.
  intros Hguard.
  pose proof (page_routing_turned_back w Hguard) as E1.
  pose proof (page_routing_granted w Hguard) as E2.
  split; [exact E1|]. split; [exact E2|].
  assert (Hp : page (session w) = main \/ page (session w) = edit_profile
               \/ page (session w) = admin_panel).
  { destruct Hguard as [[[Hp | Hp] _] | [Hp _]]; auto. }
  destruct (blind_page_rest (page (session w)) Hp _ _ _ _
              (turned_back_same_but_access w))
    as (Hfst & Hu & _ & _ & _ & _ & _ & _ & _ & _ & shown & H1 & H2).
  rewrite E1, E2. split; [exact Hfst|]. split; [exact Hu|].
  exists shown. rewrite H1, H2, <- app_assoc. split; reflexivity.
Qed.

End Guards.

(** C6 at work: the admin panel, opened in a session that is not
    admin-authenticated, warns, sets the page, and still lists the
    users with the widgets to edit and delete them. *)
Lemma guard_turns_back_but_page_renders_witness :
  guard_fails (session (world [alice]
                 (mkSession false None false admin_panel None None None) [] []))
  /\ page (session (snd (@page_routing sample (only_uploads None)
                           (world [alice]
                              (mkSession false None false admin_panel None None None)
                              [] []))))
     = admin_login
  /\ trace (snd (@page_routing sample (only_uploads None)
                   (world [alice]
                      (mkSession false None false admin_panel None None None) [] [])))
     = [st_warning_ev "You need to be logged in as an admin to access this page.";
        st_header_ev "Admin Panel"; db_connect_ev; db_execute_ev SelectUsers;
        db_close_ev; st_write_ev (Text "### User List");
        st_dataframe_ev (UserTable [alice]);
        st_selectbox_ev "Select a user to edit";
        st_text_input_ev "First Name"; st_text_input_ev "Last Name";
        st_text_input_ev "Email"; st_text_input_ev "Phone";
        st_text_input_ev "New Password (leave blank to keep current)";
        st_text_input_ev "Confirm New Password";
        st_button_ev "Update User"; st_button_ev "Delete User";
        st_button_ev "Logout"].
Proof.
  assert (H : guard_fails (session (world [alice]
                 (mkSession false None false admin_panel None None None) [] [])))
    by (right; split; reflexivity).
  split; [exact H|].
  rewrite (proj1 (@guard_turns_back_but_page_renders sample (only_uploads None)
                    (world [alice]
                       (mkSession false None false admin_panel None None None) [] [])
                    H)).
  split; vm_compute; reflexivity.
Defined.

(** A text file that reaches the read step is reported and gives no
    frame. *)
Example read_file_notes_txt :
  @read_file sample notes_txt (world [] (logged_in "alice") [] [])
  = (Ok None,
     set_trace
       [st_write_ev (Text "Uploaded file extension: .txt");
        st_error_ev "Unsupported file type. Please upload a CSV or Excel file."]
       (world [] (logged_in "alice") [] [])).
Proof. apply (@read_file_unsupported sample notes_txt); discriminate. Qed.

(** A workbook in the old format that reaches the read step goes to the
    openpyxl reader, and a reader that refuses it is reported. *)
Example read_file_ledger_xls :
  @read_file sample ledger_xls (world [] (logged_in "alice") [] [])
  = (Ok None,
     set_trace
       [st_write_ev (Text "Uploaded file extension: .xls");
        st_error_ev "Error reading file: File is not a zip file"]
       (world [] (logged_in "alice") [] [])).
Proof. reflexivity. Qed.

(** * Further properties *)

(** ** The account store *)

Section AccountStore.
Context {ext : Externals}.

(** [authenticate_user] leaves the table and the session as they
    were. *)
Lemma authenticate_user_frame (u p : string) (w : World) :
  users (snd (authenticate_user u p w)) = users w
  /\ session (snd (authenticate_user u p w)) = session w.
Proof.
  destruct (plan_cases (conn_plan w)) as [Hc | [msg Hc]].
  - destruct (plan_cases (sql_plan w)) as [Hs | [msg Hs]].
    + unfold authenticate_user. run. rewrite (create_connection_up _ Hc).
      rewrite cursor_execute_ok by exact Hs. cbn [run_sql fst snd]. run.
      destruct (fetchone _) as [user|]; run;
        [destruct (bcrypt_checkpw p (col_password user)) as [[|]|msg]|];
        split; reflexivity.
    + unfold authenticate_user. run. rewrite (create_connection_up _ Hc).
      erewrite cursor_execute_raises by exact Hs. split; reflexivity.
  - unfold authenticate_user. run. rewrite (create_connection_down _ _ Hc).
    split; reflexivity.
Qed.

(** Whatever the server does, a true answer means the row fetched
    accepts the password. *)
Lemma authenticate_user_true (u p : string) (w : World) :
  fst (authenticate_user u p w) = Ok true -> row_accepts u p (users w).
Proof.
  intros H.
  destruct (plan_cases (conn_plan w)) as [Hc | [msg Hc]].
  - destruct (plan_cases (sql_plan w)) as [Hs | [msg Hs]].
    + rewrite (authenticate_user_up u p w Hc Hs) in H.
      unfold row_accepts, fetchone. rewrite hd_error_filter.
      destruct (find (username_is u) (users w)) as [user|]; [|discriminate].
      exists user. split; [reflexivity|].
      destruct (bcrypt_checkpw p (col_password user)) as [[|]|msg];
        [reflexivity | discriminate | discriminate].
    + rewrite authenticate_user_sql_error in H; [discriminate | exact Hc |].
      unfold executes. congruence.
  - rewrite authenticate_user_down in H; [discriminate|]. unfold connects. congruence.
Qed.

Lemma is_admin_cases (u p : string) (w : World) :
  snd (is_admin u p w) = w
  /\ (fst (is_admin u p w) = Ok true
      <-> u = ADMIN_USERNAME /\ bcrypt_checkpw p ADMIN_PASSWORD_HASH = Value true)
  /\ (fst (is_admin u p w) = Ok false
      <-> u <> ADMIN_USERNAME \/ bcrypt_checkpw p ADMIN_PASSWORD_HASH = Value false).
Proof.
  unfold is_admin, verify_password, lift, ret.
  destruct (String.eqb_spec u ADMIN_USERNAME) as [E | E]; cbn [fst snd].
  - split; [reflexivity|].
    destruct (bcrypt_checkpw p ADMIN_PASSWORD_HASH) as [[|]|msg]; cbn [of_bcrypt].
    + split; [tauto|]. split; [discriminate|]. intros [H | H]; congruence.
    + split; [split; [discriminate | intros [_ H]; discriminate]|]. tauto.
    + split; [split; [discriminate | intros [_ H]; discriminate]|].
      split; [discriminate|]. intros [H | H]; congruence.
  - split; [reflexivity|].
    split; [split; [discriminate | intros [H _]; contradiction]|]. tauto.
Qed.

(** X1. [is_admin] touches nothing, and says true exactly for the
    configured username with a password bcrypt accepts against the
    configured hash; for another username it says false without asking
    bcrypt. *)
Theorem is_admin_spec (u p : string) (w : World) :
  snd (is_admin u p w) = w
  /\ (fst (is_admin u p w) = Ok true
      <-> u = ADMIN_USERNAME /\ bcrypt_checkpw p ADMIN_PASSWORD_HASH = Value true)
  /\ (fst (is_admin u p w) = Ok false
      <-> u <> ADMIN_USERNAME \/ bcrypt_checkpw p ADMIN_PASSWORD_HASH = Value false).
Proof. apply is_admin_cases. Qed.

(** X2. [get_all_users] always returns and never changes the table or
    the session: the whole table when the connection is created and the
    SELECT runs, the empty list when either fails - the answer an empty
    table gives. *)
Theorem get_all_users_spec (w : World) :
  users (snd (get_all_users w)) = users w
  /\ session (snd (get_all_users w)) = session w
  /\ (connects w /\ executes w -> fst (get_all_users w) = Ok (users w))
  /\ (~ (connects w /\ executes w) -> fst (get_all_users w) = Ok []).
Proof.
  destruct (plan_cases (conn_plan w)) as [Hc | [msg Hc]].
  - destruct (plan_cases (sql_plan w)) as [Hs | [msg Hs]].
    + unfold get_all_users. run. rewrite (create_connection_up _ Hc).
      rewrite cursor_execute_ok by exact Hs. cbn [run_sql fst snd].
      repeat split; try reflexivity. intros H. exfalso. apply H. now split.
    + unfold get_all_users. run. rewrite (create_connection_up _ Hc).
      erewrite cursor_execute_raises by exact Hs.
      repeat split; try reflexivity. intros [_ H]. unfold executes in H. congruence.
  - unfold get_all_users. run. rewrite (create_connection_down _ _ Hc).
    repeat split; try reflexivity. intros [H _]. unfold connects in H. congruence.
Qed.

(** X3. When the connection is created and the query runs,
    [check_existing_user] says true exactly when some row of the table
    answers to the username, the email or the phone number. *)
Theorem check_existing_user_exact (u em ph : string) (w : World) :
  connects w -> executes w ->
  fst (check_existing_user u em ph w) = Ok (existsb (any_is u em ph) (users w)).
Proof.
  intros Hc Hs. unfold check_existing_user. run. rewrite (create_connection_up _ Hc).
  rewrite cursor_execute_ok by exact Hs. cbn [run_sql fst snd]. run. cbn [users connected set_conn_plan set_trace].
  f_equal. induction (users w) as [|r t IH]; [reflexivity|].
  cbn [filter existsb]. destruct (any_is u em ph r); [reflexivity | exact IH].
Qed.

End AccountStore.

Lemma check_existing_user_exact_witness :
  connects (world [alice; bob] new_session [] [])
  /\ executes (world [alice; bob] new_session [] [])
  /\ fst (@check_existing_user sample "carol" "bob@example.org" "5551234567"
            (world [alice; bob] new_session [] [])) = Ok true.
Proof.
  split; [reflexivity|]. split; [reflexivity|].
  exact (@check_existing_user_exact sample "carol" "bob@example.org" "5551234567"
           (world [alice; bob] new_session [] []) eq_refl eq_refl).
Defined.

Section RegisterAndLogin.
Context {ext : Externals}.

Lemma find_snoc {A} (f : A -> bool) (l : list A) (x : A) :
  (forall y, In y l -> f y = false) -> f x = true -> find f (l ++ [x]) = Some x.
Proof.
  intros Hno Hx. induction l as [|a l IH]; cbn [app find].
  - now rewrite Hx.
  - rewrite (Hno a (or_introl eq_refl)). apply IH. intros y Hy. apply Hno. now right.
Qed.

(** The row a request inserts. *)
Lemma register_user_up (u fn ln em ph pw h : string) (w : World) :
  is_valid_email em = true -> is_valid_phone ph = true ->
  connects w -> executes w -> then_connects w -> then_executes w ->
  filter (any_is u em ph) (users w) = [] ->
  bcrypt_hashpw pw (gensalt_source w (salts_drawn w)) = Value h ->
  register_user u fn ln em ph pw w
  = (Ok tt,
     set_session (set_page login (session w))
       (set_trace
          (trace w ++ [db_connect_ev;
                       db_execute_ev (SelectUsersWhereAny u em ph);
                       db_close_ev;
                       db_connect_ev;
                       db_execute_ev (InsertUser (mkRow u fn ln em ph h));
                       db_commit_ev;
                       st_success_ev "Registration successful!";
                       db_close_ev])
          (set_users (users w ++ [mkRow u fn ln em ph h])
             (set_salts_drawn (S (salts_drawn w))
                (set_sql_plan (tl (tl (sql_plan w)))
                   (set_conn_plan (tl (tl (conn_plan w))) w)))))).
Proof.
  intros He Hp Hc Hs Hc2 Hs2 Hnone Hh.
  unfold register_user. rewrite He, Hp. cbn [negb].
  unfold check_existing_user. run. rewrite (create_connection_up _ Hc).
  rewrite cursor_execute_ok by exact Hs. cbn [run_sql fst snd]. run.
  cbn [users connected set_conn_plan set_trace]. rewrite Hnone. cbn [List.length Nat.ltb Nat.leb].
  rewrite create_connection_up by exact Hc2. run.
  cbn [gensalt_source salts_drawn set_trace set_users set_sql_plan connected set_conn_plan].
  rewrite Hh. cbn [of_bcrypt]. run.
  rewrite cursor_execute_ok by exact Hs2. cbn [run_sql fst snd]. run.
  destruct w as [t ss tr cp sp g n]. cbn. rewrite <- !app_assoc. reflexivity.
Qed.

(** A request that meets a row changes nothing, whatever the server
    does. *)
Lemma register_user_taken (u fn ln em ph pw : string) (w : World) :
  filter (any_is u em ph) (users w) <> [] ->
  users (snd (register_user u fn ln em ph pw w)) = users w.
Proof.
  intros Hfound.
  destruct (register_user_users u fn ln em ph pw w) as [E | (Hnil & _)];
    [exact E | contradiction].
Qed.

(** X4. A well-formed request that meets no row, on a server that
    answers, with a password bcrypt hashes to [h]: [register_user]
    appends exactly the row of the request with [h] for its password,
    shows the success message, sets the page to login, and closes both
    connections it opened. *)
Theorem register_user_inserts (u fn ln em ph pw h : string) (w : World) :
  is_valid_email em = true -> is_valid_phone ph = true ->
  connects w -> executes w -> then_connects w -> then_executes w ->
  filter (any_is u em ph) (users w) = [] ->
  bcrypt_hashpw pw (gensalt_source w (salts_drawn w)) = Value h ->
  let w' := snd (register_user u fn ln em ph pw w) in
  fst (register_user u fn ln em ph pw w) = Ok tt
  /\ users w' = users w ++ [mkRow u fn ln em ph h]
  /\ page (session w') = login
  /\ trace w' = trace w ++ [db_connect_ev;
                            db_execute_ev (SelectUsersWhereAny u em ph);
                            db_close_ev;
                            db_connect_ev;
                            db_execute_ev (InsertUser (mkRow u fn ln em ph h));
                            db_commit_ev;
                            st_success_ev "Registration successful!";
                            db_close_ev].
Proof.
  intros He Hp Hc Hs Hc2 Hs2 Hnone Hh w'. subst w'.
  rewrite (register_user_up u fn ln em ph pw h w He Hp Hc Hs Hc2 Hs2 Hnone Hh).
  repeat split.
Qed.

(** X5. Registering and then logging in with the same username and
    password succeeds, when bcrypt accepts the password against the hash
    it made, the server compares the username equal to itself, and the
    server answers throughout. *)
Theorem register_then_authenticate (u fn ln em ph pw h : string) (w : World) :
  is_valid_email em = true -> is_valid_phone ph = true ->
  connects w -> executes w -> then_connects w -> then_executes w ->
  filter (any_is u em ph) (users w) = [] ->
  bcrypt_hashpw pw (gensalt_source w (salts_drawn w)) = Value h ->
  bcrypt_checkpw pw h = Value true ->
  sql_eq u u = true ->
  connects (snd (register_user u fn ln em ph pw w)) ->
  executes (snd (register_user u fn ln em ph pw w)) ->
  fst (authenticate_user u pw (snd (register_user u fn ln em ph pw w))) = Ok true.
Proof.
  intros He Hp Hc Hs Hc2 Hs2 Hnone Hh Hcheck Hrefl Hc3 Hs3.
  rewrite (authenticate_user_up u pw _ Hc3 Hs3).
  rewrite (register_user_up u fn ln em ph pw h w He Hp Hc Hs Hc2 Hs2 Hnone Hh).
  cbn [snd users set_session set_trace set_users].
  assert (Hfind : find (username_is u) (users w ++ [mkRow u fn ln em ph h])
                  = Some (mkRow u fn ln em ph h)).
  { assert (Hno : forall r, In r (users w) -> username_is u r = false).
    { intros r Hin. destruct (username_is u r) eqn:E; [|reflexivity].
      exfalso. assert (Hf : In r (filter (any_is u em ph) (users w))).
      { apply filter_In. split; [exact Hin|]. unfold any_is.
        unfold username_is in E. now rewrite E. }
      rewrite Hnone in Hf. exact Hf. }
    apply find_snoc; [exact Hno|]. unfold username_is. cbn [col_username].
    exact Hrefl. }
  rewrite Hfind. cbn [col_password]. rewrite Hcheck. reflexivity.
Qed.

(** X6. After a registration that inserted its row, a second request
    under the same username inserts nothing, whatever its other fields
    and whatever the server does. *)
Theorem register_twice (u fn ln em ph pw h fn2 ln2 em2 ph2 pw2 : string) (w : World) :
  is_valid_email em = true -> is_valid_phone ph = true ->
  connects w -> executes w -> then_connects w -> then_executes w ->
  filter (any_is u em ph) (users w) = [] ->
  bcrypt_hashpw pw (gensalt_source w (salts_drawn w)) = Value h ->
  sql_eq u u = true ->
  let w1 := snd (register_user u fn ln em ph pw w) in
  users (snd (register_user u fn2 ln2 em2 ph2 pw2 w1))
  = users w ++ [mkRow u fn ln em ph h].
Proof.
  intros He Hp Hc Hs Hc2 Hs2 Hnone Hh Hrefl w1.
  assert (E1 : users w1 = users w ++ [mkRow u fn ln em ph h]).
  { subst w1.
    now rewrite (register_user_up u fn ln em ph pw h w He Hp Hc Hs Hc2 Hs2 Hnone Hh). }
  rewrite <- E1. apply register_user_taken. rewrite E1. intros Hnil.
  assert (Hin : In (mkRow u fn ln em ph h)
                   (filter (any_is u em2 ph2) (users w ++ [mkRow u fn ln em ph h]))).
  { apply filter_In. split; [apply in_or_app; right; now left|].
    unfold any_is. cbn [col_username]. now rewrite Hrefl. }
  rewrite Hnil in Hin. exact Hin.
Qed.

End RegisterAndLogin.

(** X4 at work: carol registers. *)
Lemma register_user_inserts_witness :
  is_valid_email "carol@example.org" = true
  /\ users (snd (@register_user sample "carol" "Carol" "Chan" "carol@example.org"
                   "5551234567" "secret" (world [alice; bob] new_session [] [])))
     = [alice; bob;
        mkRow "carol" "Carol" "Chan" "carol@example.org" "5551234567" "$2b$s9$secret"].
Proof.
  split; [vm_compute; reflexivity|].
  exact (proj1 (proj2 (@register_user_inserts sample "carol" "Carol" "Chan"
           "carol@example.org" "5551234567" "secret" "$2b$s9$secret"
           (world [alice; bob] new_session [] [])
           eq_refl eq_refl eq_refl eq_refl eq_refl eq_refl eq_refl eq_refl))).
Defined.

(** X5 at work: carol registers and logs in. *)
Lemma register_then_authenticate_witness :
  is_valid_email "carol@example.org" = true
  /\ fst (@authenticate_user sample "carol" "secret"
            (snd (@register_user sample "carol" "Carol" "Chan" "carol@example.org"
                    "5551234567" "secret" (world [alice; bob] new_session [] []))))
     = Ok true.
Proof.
  split; [vm_compute; reflexivity|].
  exact (@register_then_authenticate sample "carol" "Carol" "Chan"
           "carol@example.org" "5551234567" "secret" "$2b$s9$secret"
           (world [alice; bob] new_session [] [])
           eq_refl eq_refl eq_refl eq_refl eq_refl eq_refl eq_refl eq_refl
           eq_refl eq_refl eq_refl eq_refl).
Defined.

(** X6 at work: a second carol, with another email and phone number. *)
Lemma register_twice_witness :
  is_valid_email "carol@example.org" = true
  /\ users (snd (@register_user sample "carol" "Caroline" "Chu" "cc@example.org"
                   "5557654321" "other"
                   (snd (@register_user sample "carol" "Carol" "Chan"
                           "carol@example.org" "5551234567" "secret"
                           (world [alice; bob] new_session [] [])))))
     = [alice; bob;
        mkRow "carol" "Carol" "Chan" "carol@example.org" "5551234567" "$2b$s9$secret"].
Proof.
  split; [vm_compute; reflexivity|].
  exact (@register_twice sample "carol" "Carol" "Chan" "carol@example.org"
           "5551234567" "secret" "$2b$s9$secret" "Caroline" "Chu" "cc@example.org"
           "5557654321" "other" (world [alice; bob] new_session [] [])
           eq_refl eq_refl eq_refl eq_refl eq_refl eq_refl eq_refl eq_refl eq_refl).
Defined.

Section UpdateAndDelete.
Context {ext : Externals}.

Lemma NoDup_map_eq {A B} (f : A -> B) (l : list A) (x y : A) :
  NoDup (map f l) -> In x l -> In y l -> f x = f y -> x = y.
Proof.
  induction l as [|a l IH]; cbn [map]; intros Hnd Hx Hy E; [destruct Hx|].
  inversion Hnd as [|b l' Ha Hl]; subst.
  destruct Hx as [-> | Hx], Hy as [-> | Hy]; auto.
  - exfalso. apply Ha. rewrite E. now apply in_map.
  - exfalso. apply Ha. rewrite <- E. now apply in_map.
Qed.

Lemma NoDup_map_filter {A B} (f : A -> B) (g : A -> bool) (l : list A) :
  NoDup (map f l) -> NoDup (map f (filter g l)).
Proof.
  induction l as [|a l IH]; cbn [map filter]; intros Hnd; [constructor|].
  inversion Hnd as [|b l' Ha Hl]; subst.
  destruct (g a); [|now apply IH]. cbn [map]. constructor; [|now apply IH].
  intros Hin. apply Ha. apply in_map_iff in Hin. destruct Hin as (x & Hx & Hin).
  apply filter_In in Hin. rewrite <- Hx. apply in_map. tauto.
Qed.

(** What [update_user] can do to the table. *)
Lemma update_user_users (u fn ln em ph : string) (pw : option string) (w : World) :
  users (snd (update_user u fn ln em ph pw w)) = users w
  \/ users (snd (update_user u fn ln em ph pw w))
     = map (with_profile u fn ln em ph) (users w)
  \/ exists h, users (snd (update_user u fn ln em ph pw w))
               = map (with_profile_and_hash u fn ln em ph h) (users w).
Proof.
  destruct (plan_cases (conn_plan w)) as [Hc | [msg Hc]].
  - destruct (truthy pw) eqn:Hpw.
    + destruct pw as [[|c s]|]; try discriminate.
      destruct (bcrypt_hashpw (String c s) (gensalt_source w (salts_drawn w)))
        as [h|msg] eqn:Hh.
      * destruct (plan_cases (sql_plan w)) as [Hs | [msg Hs]].
        -- right. right. exists h.
           rewrite (update_user_rehashes_up u fn ln em ph (String c s) h w);
             [reflexivity | discriminate | exact Hc | exact Hs | exact Hh].
        -- left. unfold update_user. run. rewrite (create_connection_up _ Hc).
           cbn [gensalt_source salts_drawn set_trace connected set_conn_plan].
           rewrite Hh. cbn [of_bcrypt]. run.
           erewrite cursor_execute_raises by exact Hs. reflexivity.
      * left. unfold update_user. run. rewrite (create_connection_up _ Hc).
        cbn [gensalt_source salts_drawn set_trace connected set_conn_plan].
        rewrite Hh. reflexivity.
    + destruct (plan_cases (sql_plan w)) as [Hs | [msg Hs]].
      * right. left.
        now rewrite (update_user_keeps_hash_up u fn ln em ph pw w Hpw Hc Hs).
      * left. destruct pw as [[|c s]|]; try discriminate;
          unfold update_user; run; rewrite (create_connection_up _ Hc);
          (erewrite cursor_execute_raises by exact Hs); reflexivity.
  - left. unfold update_user. run. rewrite (create_connection_down _ _ Hc).
    reflexivity.
Qed.

(** X7. [update_user] never adds, removes or renames an account: in
    every outcome the usernames of the table, in order, are the ones
    before the call. *)
Theorem update_user_keeps_usernames
    (u fn ln em ph : string) (pw : option string) (w : World) :
  map col_username (users (snd (update_user u fn ln em ph pw w)))
  = map col_username (users w).
Proof.
  destruct (update_user_users u fn ln em ph pw w) as [E | [E | [h E]]]; rewrite E.
  - reflexivity.
  - rewrite map_map. apply map_ext. intros r. unfold with_profile.
    destruct (username_is u r); reflexivity.
  - rewrite map_map. apply map_ext. intros r. unfold with_profile_and_hash.
    destruct (username_is u r); reflexivity.
Qed.

(** X8. [update_user] does not check the new email against the other
    accounts: when the update runs - with a new password or without -
    for a username that has a row, and another account already holds
    the email, two rows share that email afterwards. *)
Theorem update_user_can_share_email
    (u fn ln em ph : string) (pw : option string) (w : World) (mine other : Row) :
  connects w -> executes w -> hashes pw w ->
  In mine (users w) -> username_is u mine = true ->
  In other (users w) -> username_is u other = false -> col_email other = em ->
  ~ NoDup (map col_email (users (snd (update_user u fn ln em ph pw w)))).
Proof.
  intros Hc Hs Hh Hmine Hu Hother Hnu He Hnd.
  destruct (truthy pw) eqn:Hpw.
  - destruct pw as [[|c s]|]; try discriminate Hpw.
    destruct Hh as [h Hh].
    rewrite (update_user_rehashes_up u fn ln em ph (String c s) h w) in Hnd
      by (first [discriminate | assumption]).
    cbn [snd users set_trace set_users] in Hnd.
    assert (E : with_profile_and_hash u fn ln em ph h mine
                = with_profile_and_hash u fn ln em ph h other).
    { apply (NoDup_map_eq col_email _ _ _ Hnd); [now apply in_map | now apply in_map|].
      unfold with_profile_and_hash. rewrite Hu, Hnu. cbn [col_email]. now rewrite He. }
    unfold with_profile_and_hash in E. rewrite Hu, Hnu in E. subst other.
    unfold username_is in Hnu, Hu. cbn [col_username] in Hnu. congruence.
  - rewrite (update_user_keeps_hash_up u fn ln em ph pw w Hpw Hc Hs) in Hnd.
    cbn [snd users set_trace set_users] in Hnd.
    assert (E : with_profile u fn ln em ph mine = with_profile u fn ln em ph other).
    { apply (NoDup_map_eq col_email _ _ _ Hnd); [now apply in_map | now apply in_map|].
      unfold with_profile. rewrite Hu, Hnu. cbn [col_email]. now rewrite He. }
    unfold with_profile in E. rewrite Hu, Hnu in E. subst other.
    unfold username_is in Hnu, Hu. cbn [col_username] in Hnu. congruence.
Qed.

Lemma find_with_profile_and_hash (u fn ln em ph h : string) (t : list Row) (mine : Row) :
  find (username_is u) t = Some mine ->
  find (username_is u) (map (with_profile_and_hash u fn ln em ph h) t)
  = Some (mkRow (col_username mine) fn ln em ph h).
Proof.
  induction t as [|r t IH]; cbn [map find]; [discriminate|].
  destruct (username_is u r) eqn:E.
  - intros [= ->]. unfold with_profile_and_hash. rewrite E.
    unfold username_is in *. cbn [col_username]. now rewrite E.
  - intros H. unfold with_profile_and_hash at 1. rewrite E, E. now apply IH.
Qed.

(** X9. After an update with a new password that ran, logging in with
    the new password succeeds when bcrypt accepts it against the hash it
    made, and a password bcrypt rejects against that hash - the old one,
    say - is refused. *)
Theorem update_then_authenticate
    (u fn ln em ph p h q : string) (w : World) (mine : Row) :
  connects w -> executes w -> p <> "" ->
  bcrypt_hashpw p (gensalt_source w (salts_drawn w)) = Value h ->
  find (username_is u) (users w) = Some mine ->
  let w' := snd (update_user u fn ln em ph (Some p) w) in
  connects w' -> executes w' ->
  (bcrypt_checkpw p h = Value true -> fst (authenticate_user u p w') = Ok true)
  /\ (bcrypt_checkpw q h = Value false -> fst (authenticate_user u q w') = Ok false).
Proof.
  intros Hc Hs Hp Hh Hfind w' Hc' Hs'.
  assert (Hf : find (username_is u) (users w')
               = Some (mkRow (col_username mine) fn ln em ph h)).
  { subst w'. rewrite (update_user_rehashes_up u fn ln em ph p h w Hp Hc Hs Hh).
    cbn [snd users set_trace set_users].
    now apply find_with_profile_and_hash. }
  split; intros Hcheck.
  - rewrite (authenticate_user_up u p w' Hc' Hs'), Hf. cbn [col_password].
    now rewrite Hcheck.
  - rewrite (authenticate_user_up u q w' Hc' Hs'), Hf. cbn [col_password].
    now rewrite Hcheck.
Qed.

(** What [delete_user] can do to the table. *)
Lemma delete_user_users (u : string) (w : World) :
  users (snd (delete_user u w)) = users w
  \/ users (snd (delete_user u w))
     = filter (fun r => negb (username_is u r)) (users w).
Proof.
  destruct (plan_cases (conn_plan w)) as [Hc | [msg Hc]].
  - destruct (plan_cases (sql_plan w)) as [Hs | [msg Hs]].
    + right. exact (proj2 (delete_user_up u w Hc Hs)).
    + left. unfold delete_user. run. rewrite (create_connection_up _ Hc).
      erewrite cursor_execute_raises by exact Hs. reflexivity.
  - left. unfold delete_user. run. rewrite (create_connection_down _ _ Hc).
    reflexivity.
Qed.

Lemma filter_idem {A} (f : A -> bool) (l : list A) :
  filter f (filter f l) = filter f l.
Proof.
  induction l as [|a l IH]; cbn [filter]; [reflexivity|].
  destruct (f a) eqn:E; cbn [filter]; rewrite ?E, IH; reflexivity.
Qed.

(** X10. [delete_user] always returns, touches no row of another
    username, and keeps the accounts distinct, whatever the server
    does. *)
Theorem delete_user_frame (u : string) (w : World) :
  fst (delete_user u w) = Ok tt
  /\ filter (fun r => negb (username_is u r)) (users (snd (delete_user u w)))
     = filter (fun r => negb (username_is u r)) (users w)
  /\ (distinct_accounts (users w) ->
      distinct_accounts (users (snd (delete_user u w)))).
Proof.
  split.
  - destruct (plan_cases (conn_plan w)) as [Hc | [msg Hc]].
    + destruct (plan_cases (sql_plan w)) as [Hs | [msg Hs]].
      * exact (proj1 (delete_user_up u w Hc Hs)).
      * unfold delete_user. run. rewrite (create_connection_up _ Hc).
        erewrite cursor_execute_raises by exact Hs. reflexivity.
    + unfold delete_user. run. rewrite (create_connection_down _ _ Hc).
      reflexivity.
  - destruct (delete_user_users u w) as [E | E]; rewrite E.
    + split; [reflexivity | auto].
    + split; [apply filter_idem|]. intros (H1 & H2 & H3).
      repeat split; now apply NoDup_map_filter.
Qed.

(** X11. Deleting a username that has no row, on a server that answers,
    leaves the table as it was and shows the same success message as a
    deletion that removed a row. *)
Theorem delete_user_absent (u : string) (w : World) :
  connects w -> executes w ->
  (forall r, In r (users w) -> username_is u r = false) ->
  users (snd (delete_user u w)) = users w
  /\ trace (snd (delete_user u w))
     = trace w ++ [db_connect_ev; db_execute_ev (DeleteUser u); db_commit_ev;
                   st_success_ev "User deleted successfully!"; db_close_ev].
Proof.
  intros Hc Hs Hnone. split.
  - rewrite (proj2 (delete_user_up u w Hc Hs)).
    induction (users w) as [|r t IH]; [reflexivity|]. cbn [filter].
    rewrite (Hnone r (or_introl eq_refl)). cbn [negb]. f_equal. apply IH.
    intros r' Hr'. apply Hnone. now right.
  - unfold delete_user. run. rewrite (create_connection_up _ Hc).
    rewrite cursor_execute_ok by exact Hs. run.
    cbn [snd trace set_trace set_users set_sql_plan connected set_conn_plan].
    rewrite <- !app_assoc. reflexivity.
Qed.

(** X12. A stored password that is no bcrypt hash makes the login raise:
    when the row is fetched and bcrypt raises a ValueError on its stored
    hash, [authenticate_user] does not return false, it raises that
    error, after closing its connection. *)
Theorem authenticate_user_bad_hash (u p msg : string) (w : World) (user : Row) :
  connects w -> executes w ->
  find (username_is u) (users w) = Some user ->
  bcrypt_checkpw p (col_password user) = ValueError msg ->
  fst (authenticate_user u p w) = Raise (PyException msg)
  /\ trace (snd (authenticate_user u p w))
     = trace w ++ [db_connect_ev;
                   db_execute_ev (SelectUsersWhereUsername (Some u));
                   db_close_ev].
Proof.
  intros Hc Hs Hfind Hbad. split.
  - rewrite (authenticate_user_up u p w Hc Hs), Hfind, Hbad. reflexivity.
  - unfold authenticate_user. run. rewrite (create_connection_up _ Hc).
    rewrite cursor_execute_ok by exact Hs. cbn [run_sql fst snd]. run.
    unfold fetchone. rewrite hd_error_filter.
    cbn [users connected set_conn_plan set_trace]. rewrite Hfind. run.
    rewrite Hbad. cbn [of_bcrypt]. run.
    cbn [snd trace set_trace set_users set_sql_plan connected set_conn_plan].
    rewrite <- !app_assoc. reflexivity.
Qed.

End UpdateAndDelete.

(** X8 at work: alice takes bob's email while she changes her
    password. *)
Lemma update_user_can_share_email_witness :
  connects (world [alice; bob] new_session [] [])
  /\ @hashes sample (Some "rabbit") (world [alice; bob] new_session [] [])
  /\ ~ NoDup (map col_email
               (users (snd (@update_user sample "alice" "Alice" "Liddell"
                              "bob@example.org" "+4412345678" (Some "rabbit")
                              (world [alice; bob] new_session [] []))))).
Proof.
  assert (H : @hashes sample (Some "rabbit") (world [alice; bob] new_session [] []))
    by (eexists; reflexivity).
  split; [reflexivity|]. split; [exact H|].
  exact (@update_user_can_share_email sample "alice" "Alice" "Liddell"
           "bob@example.org" "+4412345678" (Some "rabbit")
           (world [alice; bob] new_session [] []) alice bob
           eq_refl eq_refl H (or_introl eq_refl) eq_refl
           (or_intror (or_introl eq_refl)) eq_refl eq_refl).
Defined.

(** X9 at work: alice changes her password from wonder to rabbit. *)
Lemma update_then_authenticate_witness :
  fst (@authenticate_user sample "alice" "rabbit"
         (snd (@update_user sample "alice" "Alice" "Liddell" "alice@example.org"
                 "+4412345678" (Some "rabbit")
                 (world [alice; bob] new_session [] [])))) = Ok true
  /\ fst (@authenticate_user sample "alice" "wonder"
            (snd (@update_user sample "alice" "Alice" "Liddell" "alice@example.org"
                    "+4412345678" (Some "rabbit")
                    (world [alice; bob] new_session [] [])))) = Ok false.
Proof.
  assert (Hp : "rabbit" <> "") by discriminate.
  pose proof (@update_then_authenticate sample "alice" "Alice" "Liddell"
                "alice@example.org" "+4412345678" "rabbit" "$2b$s9$rabbit" "wonder"
                (world [alice; bob] new_session [] []) alice
                eq_refl eq_refl Hp eq_refl eq_refl eq_refl eq_refl) as [H1 H2].
  split; [exact (H1 eq_refl) | exact (H2 eq_refl)].
Defined.

(** X11 at work: nobody is called zed. *)
Lemma delete_user_absent_witness :
  connects (world [alice; bob] new_session [] [])
  /\ users (snd (@delete_user sample "zed" (world [alice; bob] new_session [] [])))
     = [alice; bob].
Proof.
  split; [reflexivity|].
  refine (proj1 (@delete_user_absent sample "zed"
                   (world [alice; bob] new_session [] []) eq_refl eq_refl _)).
  intros r [<- | [<- | []]]; reflexivity.
Defined.

(** X12 at work: mallory's row holds her password in the clear. *)
Lemma authenticate_user_bad_hash_witness :
  connects (world [alice; mallory] new_session [] [])
  /\ fst (@authenticate_user strict "mallory" "letmein"
            (world [alice; mallory] new_session [] []))
     = Raise (PyException "Invalid salt").
Proof.
  split; [reflexivity|].
  exact (proj1 (@authenticate_user_bad_hash strict "mallory" "letmein" "Invalid salt"
                  (world [alice; mallory] new_session [] []) mallory
                  eq_refl eq_refl eq_refl eq_refl)).
Defined.

(** ** The validators *)

Module ReShapes.
Import Re.

Lemma append_assoc (a b c : string) : ((a ++ b) ++ c = a ++ (b ++ c))%string.
Proof. induction a as [|x a IH]; cbn; [reflexivity | now rewrite IH]. Qed.

Lemma append_nil_r (a : string) : (a ++ "")%string = a.
Proof. induction a as [|x a IH]; cbn; [reflexivity | now rewrite IH]. Qed.

Lemma length_append (a b : string) :
  String.length (a ++ b) = String.length a + String.length b.
Proof. induction a as [|x a IH]; cbn; [reflexivity | now rewrite IH]. Qed.

Lemma all_chars_append (p : ascii -> bool) (a b : string) :
  all_chars p (a ++ b) = all_chars p a && all_chars p b.
Proof.
  unfold all_chars. induction a as [|x a IH]; cbn; [reflexivity|].
  rewrite IH. apply andb_assoc.
Qed.

Lemma lang_cat_inv (r s : re) (w : string) :
  lang (Cat r s) w -> exists u v, w = (u ++ v)%string /\ lang r u /\ lang s v.
Proof. intros H. inversion H; subst. eauto. Qed.

Lemma lang_class (p : ascii -> bool) (w : string) :
  lang (Class p) w <-> exists c, w = String c "" /\ p c = true.
Proof.
  split.
  - intros H. inversion H; subst. eauto.
  - intros (c & -> & Hc). now constructor.
Qed.

Lemma lang_opt (r : re) (w : string) : lang (Opt r) w <-> w = "" \/ lang r w.
Proof.
  unfold Opt. split.
  - intros H. inversion H as [| | | ? ? ? H1 | ? ? ? H1 | |]; subst;
      [now right | inversion H1; now left].
  - intros [-> | H]; [apply LAltR; constructor | now apply LAltL].
Qed.

Lemma lang_star_class (p : ascii -> bool) (w : string) :
  lang (Star (Class p)) w <-> all_chars p w = true.
Proof.
  split.
  - intros H. remember (Star (Class p)) as r eqn:Er.
    induction H; try discriminate; [reflexivity|].
    injection Er as ->. inversion H; subst.
    cbn. unfold all_chars in IHlang2. cbn in IHlang2.
    rewrite IHlang2 by reflexivity. now rewrite H3.
  - induction w as [|c w IH]; intros H; [constructor|].
    unfold all_chars in H. cbn in H. apply andb_true_iff in H. destruct H as [Hc Hw].
    change (String c w) with (String c "" ++ w)%string.
    constructor; [now constructor | now apply IH].
Qed.

Lemma lang_repeat_class (n : nat) (p : ascii -> bool) :
  forall w, lang (Repeat n (Class p)) w
            <-> String.length w = n /\ all_chars p w = true.
Proof.
  induction n as [|n IH]; intros w; cbn [Repeat].
  - split.
    + intros H. inversion H; subst. now split.
    + intros [Hl _]. destruct w; [constructor | discriminate].
  - split.
    + intros H. apply lang_cat_inv in H. destruct H as (u & v & -> & Hu & Hv).
      apply lang_class in Hu. destruct Hu as (c & -> & Hc).
      apply IH in Hv. destruct Hv as [Hl Hp]. cbn. split; [now rewrite Hl|].
      unfold all_chars in *. cbn. now rewrite Hc.
    + intros [Hl Hp]. destruct w as [|c w]; [discriminate|].
      unfold all_chars in Hp. cbn in Hp. apply andb_true_iff in Hp.
      destruct Hp as [Hc Hw]. injection Hl as Hl.
      change (String c w) with (String c "" ++ w)%string.
      constructor; [now constructor | apply IH; now split].
Qed.

Lemma lang_plus_class (p : ascii -> bool) (w : string) :
  lang (Plus (Class p)) w <-> w <> "" /\ all_chars p w = true.
Proof.
  unfold Plus. split.
  - intros H. apply lang_cat_inv in H. destruct H as (u & v & -> & Hu & Hv).
    apply lang_class in Hu. destruct Hu as (c & -> & Hc).
    apply lang_star_class in Hv. split; [discriminate|].
    unfold all_chars in *. cbn. now rewrite Hc.
  - intros [Hne Hp]. destruct w as [|c w]; [contradiction|].
    unfold all_chars in Hp. cbn in Hp. apply andb_true_iff in Hp.
    destruct Hp as [Hc Hw].
    change (String c w) with (String c "" ++ w)%string.
    constructor; [now constructor | now apply lang_star_class].
Qed.

Lemma lang_atleast_class (n : nat) (p : ascii -> bool) :
  forall w, lang (AtLeast n (Class p)) w
            <-> n <= String.length w /\ all_chars p w = true.
Proof.
  unfold AtLeast. intros w. split.
  - intros H. apply lang_cat_inv in H. destruct H as (u & v & -> & Hu & Hv).
    apply lang_repeat_class in Hu. destruct Hu as [Hl Hp].
    apply lang_star_class in Hv.
    rewrite length_append, all_chars_append, Hp, Hv. split; [lia | reflexivity].
  - revert w. induction n as [|n IH]; intros w [Hl Hp].
    + change w with ("" ++ w)%string. constructor; [constructor|].
      now apply lang_star_class.
    + destruct w as [|c w]; [cbn in Hl; lia|].
      unfold all_chars in Hp. cbn in Hp. apply andb_true_iff in Hp.
      destruct Hp as [Hc Hw]. cbn in Hl.
      assert (H : lang (Cat (Repeat n (Class p)) (Star (Class p))) w)
        by (apply IH; split; [lia | exact Hw]).
      apply lang_cat_inv in H. destruct H as (u & v & -> & Hu & Hv).
      change (String c (u ++ v)) with (String c u ++ v)%string.
      constructor; [|exact Hv]. cbn [Repeat].
      change (String c u) with (String c "" ++ u)%string.
      constructor; [now constructor | exact Hu].
Qed.

Lemma lang_char (a : ascii) (w : string) :
  lang (Class (Ascii.eqb a)) w <-> w = String a "".
Proof.
  rewrite lang_class. split.
  - intros (c & -> & Hc). apply Ascii.eqb_eq in Hc. now subst.
  - intros ->. exists a. split; [reflexivity | apply Ascii.eqb_refl].
Qed.

Lemma lang_dollar (w : string) :
  lang (Opt (Class (Ascii.eqb newline))) w <-> newline_or_nothing w.
Proof. rewrite lang_opt, lang_char. reflexivity. Qed.

End ReShapes.

(** X13. [is_valid_phone] accepts exactly: an optional plus sign, a
    digit from 1 to 9, nine more digits, and an optional newline at the
    end (the [$] of Python's [re]). *)
Theorem is_valid_phone_shape (s : string) :
  is_valid_phone s = true <-> phone_shape s.
Proof.
  unfold is_valid_phone, Re.match_anchored, phone_regex, phone_shape.
  rewrite ReFacts.fullmatch_lang. split.
  - intros H.
    apply ReShapes.lang_cat_inv in H. destruct H as (body & nl & -> & H & Hnl).
    apply ReShapes.lang_cat_inv in H. destruct H as (plus & rest & -> & Hplus & H).
    apply ReShapes.lang_cat_inv in H. destruct H as (d1 & ds & -> & Hd & Hds).
    apply ReShapes.lang_class in Hd. destruct Hd as (d & -> & Hd).
    apply ReShapes.lang_repeat_class in Hds. destruct Hds as [Hl Hp].
    apply ReShapes.lang_dollar in Hnl.
    apply ReShapes.lang_opt in Hplus. rewrite ReShapes.lang_char in Hplus.
    exists plus, d, ds, nl. rewrite ReShapes.append_assoc. cbn.
    repeat split; auto.
  - intros (plus & d & ds & nl & -> & Hplus & Hd & Hl & Hp & Hnl).
    change (plus ++ String d ds ++ nl)%string
      with (plus ++ (String d "" ++ ds) ++ nl)%string.
    rewrite <- ReShapes.append_assoc.
    constructor; [|now apply ReShapes.lang_dollar].
    constructor.
    + apply ReShapes.lang_opt. rewrite ReShapes.lang_char. exact Hplus.
    + constructor; [apply ReShapes.lang_class; eauto|].
      apply ReShapes.lang_repeat_class. now split.
Qed.

(** X14. [is_valid_email] accepts exactly: a local part that is not
    empty, of letters, digits and [._%+-]; an at sign; a host that is
    not empty, of letters, digits, dots and hyphens; a dot; two or more
    letters; and an optional newline at the end. *)
Theorem is_valid_email_shape (s : string) :
  is_valid_email s = true <-> email_shape s.
Proof.
  unfold is_valid_email, Re.match_anchored, email_regex, email_shape.
  cbv zeta. rewrite ReFacts.fullmatch_lang.
  change (fun c => Re.lower c || Re.upper c || Re.digit c || Re.one_of "._%+-" c)
    with email_local_char.
  change (fun c => Re.lower c || Re.upper c || Re.digit c || Re.one_of ".-" c)
    with email_host_char.
  change (fun c => Re.lower c || Re.upper c) with letter.
  split.
  - intros H.
    apply ReShapes.lang_cat_inv in H. destruct H as (body & nl & -> & H & Hnl).
    apply ReShapes.lang_cat_inv in H. destruct H as (local & r1 & -> & Hlocal & H).
    apply ReShapes.lang_cat_inv in H. destruct H as (at_ & r2 & -> & Hat & H).
    apply ReShapes.lang_cat_inv in H. destruct H as (host & r3 & -> & Hhost & H).
    apply ReShapes.lang_cat_inv in H. destruct H as (dot & tld & -> & Hdot & Htld).
    apply ReShapes.lang_char in Hat, Hdot. subst at_ dot.
    apply ReShapes.lang_plus_class in Hlocal, Hhost.
    apply ReShapes.lang_atleast_class in Htld.
    apply ReShapes.lang_dollar in Hnl.
    exists local, host, tld, nl.
    rewrite !ReShapes.append_assoc. cbn. tauto.
  - intros (local & host & tld & nl & -> & Hl1 & Hl2 & Hh1 & Hh2 & Ht1 & Ht2 & Hnl).
    replace (local ++ "@" ++ host ++ "." ++ tld ++ nl)%string
      with ((local ++ "@" ++ host ++ "." ++ tld) ++ nl)%string
      by (rewrite !ReShapes.append_assoc; reflexivity).
    constructor; [|now apply ReShapes.lang_dollar].
    constructor; [now apply ReShapes.lang_plus_class|].
    constructor; [now apply ReShapes.lang_char|].
    constructor; [now apply ReShapes.lang_plus_class|].
    constructor; [now apply ReShapes.lang_char|].
    now apply ReShapes.lang_atleast_class.
Qed.

(** ** The pages *)

Section PageEdges.
Context {ext : Externals}.
Variable inp : Inputs.

Lemma read_file_cases (file : UploadedFile) (w : World) :
  exists r shown,
    read_file file w = (Ok r, set_trace (trace w ++ shown) w)
    /\ (r = None <-> exists msg, In (st_error_ev msg) shown)
    /\ Forall (fun e => is_db_event e = false) shown.
Proof.
  unfold read_file. run.
  destruct (String.eqb (lower (splitext_ext (file_name file))) ".csv").
  - unfold detect_encoding. run.
    destruct (pd_read_csv file _) as [df|msg|msg]; cbn [of_pandas];
      eexists _, _; (split; [cbn [trace set_trace]; rewrite <- ?app_assoc;
                             destruct w; reflexivity|]).
    + split; [|repeat constructor].
      split; [discriminate|]. intros (m & [H | []]). discriminate.
    + split; [|repeat constructor].
      split; [|reflexivity]. intros _. eexists. right. now left.
    + split; [|repeat constructor].
      split; [|reflexivity]. intros _. eexists. right. now left.
  - destruct (existsb _ _).
    + destruct (pd_read_excel file) as [df|msg|msg]; cbn [of_pandas];
        eexists _, _; (split; [cbn [trace set_trace]; rewrite <- ?app_assoc;
                               destruct w; reflexivity|]).
      * split; [|repeat constructor].
        split; [discriminate|]. intros (m & [H | []]). discriminate.
      * split; [|repeat constructor].
        split; [|reflexivity]. intros _. eexists. right. now left.
      * split; [|repeat constructor].
        split; [|reflexivity]. intros _. eexists. right. now left.
    + eexists _, _; (split; [cbn [trace set_trace]; rewrite <- ?app_assoc;
                             destruct w; reflexivity|]).
      split; [|repeat constructor].
      split; [|reflexivity]. intros _. eexists. right. now left.
Qed.

(** X15. The read step only adds to the trace, and it gives no frame
    exactly when it has shown an error: every failure (an extension it
    does not know, a parser error, any other exception of pandas) is
    reported with [st.error] and gives [None]; a frame comes with no
    error message. *)
Theorem read_file_reports_failures (file : UploadedFile) (w : World) :
  exists r shown,
    read_file file w = (Ok r, set_trace (trace w ++ shown) w)
    /\ (r = None <-> exists msg, In (st_error_ev msg) shown).
Proof.
  destruct (read_file_cases file w) as (r & shown & E & H & _).
  now exists r, shown.
Qed.

(** X16. The profile page of a session that holds no username changes
    no row, whatever was typed and clicked: its query finds nothing, and
    the form with the save button is not drawn. *)
Theorem edit_profile_without_username (w : World) :
  session_username (session w) = None ->
  fst (edit_profile_rest inp w) = Ok tt
  /\ users (snd (edit_profile_rest inp w)) = users w
  /\ exists shown,
       trace (snd (edit_profile_rest inp w)) = trace w ++ shown
       /\ ~ In (st_button_ev "Save Changes") shown
       /\ forall q, In (db_execute_ev q) shown -> q = SelectUsersWhereUsername None.
Proof.
  intros Hnone.
  pattern (edit_profile_rest inp w). match goal with |- ?P _ => set (Q := P) end.
  unfold edit_profile_rest, st_button_on_click. run. cbn [session set_trace].
  rewrite Hnone.
  destruct (plan_cases (conn_plan w)) as [Hc | [msg Hc]].
  - match goal with |- context [create_connection ?W] =>
      rewrite (create_connection_up W) by exact Hc end.
    destruct (plan_cases (sql_plan w)) as [Hs | [msg Hs]].
    + rewrite cursor_execute_ok by exact Hs. cbn [run_sql fst snd]. run.
      cbn [fetchone hd_error]. run. subst Q. cbv beta.
      split; [reflexivity|]. split; [reflexivity|].
      eexists. cbn [snd trace set_trace set_users set_sql_plan connected set_conn_plan].
      rewrite <- !app_assoc. split; [reflexivity|]. split.
      * intros H. repeat (destruct H as [H | H]; [discriminate H|]). exact H.
      * intros q H. repeat (destruct H as [H | H]; [try discriminate H|]);
          [now injection H as <- | destruct H].
    + erewrite cursor_execute_raises by exact Hs. run. subst Q. cbv beta.
      split; [reflexivity|]. split; [reflexivity|].
      eexists. cbn [snd trace set_trace set_users set_sql_plan connected set_conn_plan].
      rewrite <- !app_assoc. split; [reflexivity|]. split.
      * intros H. repeat (destruct H as [H | H]; [discriminate H|]). exact H.
      * intros q H. repeat (destruct H as [H | H]; [discriminate H|]). destruct H.
  - match goal with |- context [create_connection ?W] =>
      rewrite (create_connection_down W msg) by exact Hc end.
    run. subst Q. cbv beta. split; [reflexivity|]. split; [reflexivity|].
    eexists. cbn [snd trace set_trace connected set_conn_plan].
    rewrite <- !app_assoc. split; [reflexivity|]. split.
    + intros H. repeat (destruct H as [H | H]; [discriminate H|]). exact H.
    + intros q H. repeat (destruct H as [H | H]; [discriminate H|]). destruct H.
Qed.

(** X17. When [get_all_users] gives no row - an empty table, a
    connection that fails, a query that raises - the admin panel draws
    its header and nothing else: no form, and no logout button. *)
Theorem admin_panel_without_users (w : World) :
  users w = [] \/ ~ (connects w /\ executes w) ->
  fst (admin_panel_rest inp w) = Ok tt
  /\ users (snd (admin_panel_rest inp w)) = users w
  /\ exists shown,
       trace (snd (admin_panel_rest inp w)) = trace w ++ shown
       /\ forall label, ~ In (st_button_ev label) shown.
Proof.
  intros H.
  pattern (admin_panel_rest inp w). match goal with |- ?P _ => set (Q := P) end.
  unfold admin_panel_rest, get_all_users. run.
  destruct (plan_cases (conn_plan w)) as [Hc | [msg Hc]].
  - match goal with |- context [create_connection ?W] =>
      rewrite (create_connection_up W) by exact Hc end.
    destruct (plan_cases (sql_plan w)) as [Hs | [msg Hs]].
    + destruct H as [Hempty | Hfail]; [|exfalso; apply Hfail; now split].
      rewrite cursor_execute_ok by exact Hs. cbn [run_sql fst snd]. run.
      cbn [users set_trace connected set_conn_plan]. rewrite Hempty. run.
      subst Q. cbv beta.
      split; [reflexivity|]. split; [cbn; now rewrite Hempty|].
      eexists. cbn [snd trace set_trace set_users set_sql_plan connected set_conn_plan].
      rewrite <- !app_assoc. split; [reflexivity|].
      intros label Hin. repeat (destruct Hin as [Hin | Hin]; [discriminate Hin|]).
      exact Hin.
    + erewrite cursor_execute_raises by exact Hs. run. subst Q. cbv beta.
      split; [reflexivity|]. split; [reflexivity|].
      eexists. cbn [snd trace set_trace set_users set_sql_plan connected set_conn_plan].
      rewrite <- !app_assoc. split; [reflexivity|].
      intros label Hin. repeat (destruct Hin as [Hin | Hin]; [discriminate Hin|]).
      exact Hin.
  - match goal with |- context [create_connection ?W] =>
      rewrite (create_connection_down W msg) by exact Hc end.
    run. subst Q. cbv beta. split; [reflexivity|]. split; [reflexivity|].
    eexists. cbn [snd trace set_trace connected set_conn_plan].
    rewrite <- !app_assoc. split; [reflexivity|].
    intros label Hin. repeat (destruct Hin as [Hin | Hin]; [discriminate Hin|]).
    exact Hin.
Qed.

End PageEdges.

(** X16 at work: a fresh session holds no username. *)
Lemma edit_profile_without_username_witness :
  session_username (session (world [alice] new_session [] [])) = None
  /\ users (snd (@edit_profile_rest sample (only_uploads None)
                   (world [alice] new_session [] [])))
     = [alice].
Proof.
  split; [reflexivity|].
  exact (proj1 (proj2 (@edit_profile_without_username sample (only_uploads None)
                         (world [alice] new_session [] []) eq_refl))).
Defined.

(** X17 at work: the server is down. *)
Lemma admin_panel_without_users_witness :
  ~ (connects (world [alice] new_session [Some "down"] [])
     /\ executes (world [alice] new_session [Some "down"] []))
  /\ fst (@admin_panel_rest sample (only_uploads None)
            (world [alice] new_session [Some "down"] []))
     = Ok tt.
Proof.
  assert (H : ~ (connects (world [alice] new_session [Some "down"] [])
                 /\ executes (world [alice] new_session [Some "down"] []))).
  { intros [Hc _]. discriminate Hc. }
  split; [exact H|].
  exact (proj1 (@admin_panel_without_users sample (only_uploads None)
                  (world [alice] new_session [Some "down"] []) (or_intror H))).
Defined.

Section LoginPages.
Context {ext : Externals}.
Variable inp : Inputs.

Lemma truthy_Some (s : string) : truthy (Some s) = true <-> s <> "".
Proof. destruct s; cbn; split; congruence. Qed.

(** X18. The login page never changes the table, and it marks a session
    authenticated only when the login button was clicked with a
    username and a password that are not empty and that the row fetched
    for the username accepts; the session then carries that username. *)
Theorem login_page_authenticates (w : World) :
  let u := typed inp "login_username" "" in
  let p := typed inp "login_password" "" in
  let w' := snd (login_page inp w) in
  users w' = users w
  /\ (authenticated (session w') = true ->
      authenticated (session w) = true
      \/ (button_clicked inp "login_button" = true
          /\ u <> "" /\ p <> "" /\ row_accepts u p (users w)))
  /\ (authenticated (session w) = false -> authenticated (session w') = true ->
      session_username (session w') = Some u).
Proof.
  intros u p w'. subst w'.
  pattern (login_page inp w). match goal with |- ?P _ => set (Q := P) end.
  unfold login_page, st_text_input, st_button, st_button_on_click. run.
  fold (typed inp "login_username" "") (typed inp "login_password" ""). fold u p.
  destruct (button_clicked inp "login_button") eqn:Hclick.
  - destruct (truthy (Some u)) eqn:Hu; [destruct (truthy (Some p)) eqn:Hp|];
      cbn [andb negb].
    + match goal with |- context [authenticate_user u p ?W] =>
        pose proof (authenticate_user_frame u p W) as [Fu Fs];
        pose proof (authenticate_user_true u p W) as Ft;
        destruct (authenticate_user u p W) as [[[|]|e] W'] eqn:E
      end; cbn [fst snd] in *; run;
        destruct (button_clicked inp "admin_login_redirect"); run;
        subst Q; cbv beta; cbn; rewrite ?Fu, ?Fs; cbn;
        (split; [reflexivity|]); split;
        first [ tauto
              | intros H1 H2; congruence
              | intros _; right; apply truthy_Some in Hu, Hp;
                repeat (split; [assumption || reflexivity|]); exact (Ft eq_refl) ].
    + run. destruct (button_clicked inp "admin_login_redirect"); run;
        subst Q; cbv beta; cbn; (split; [reflexivity|]); split; try tauto;
        intros H1 H2; congruence.
    + run. destruct (button_clicked inp "admin_login_redirect"); run;
        subst Q; cbv beta; cbn; (split; [reflexivity|]); split; try tauto;
        intros H1 H2; congruence.
  - run. destruct (button_clicked inp "admin_login_redirect"); run;
      subst Q; cbv beta; cbn; (split; [reflexivity|]); split; try tauto;
      intros H1 H2; congruence.
Qed.

(** X19. The admin login page never talks to the database, and it marks
    a session admin-authenticated only when the button was clicked with
    the configured admin username and a password, not empty, that bcrypt
    accepts against the configured hash. *)
Theorem admin_login_page_grants (w : World) :
  let u := typed inp "admin_username" "" in
  let p := typed inp "admin_password" "" in
  let w' := snd (admin_login_page inp w) in
  users w' = users w
  /\ conn_plan w' = conn_plan w
  /\ filter is_db_event (trace w') = filter is_db_event (trace w)
  /\ (admin_authenticated (session w') = true ->
      admin_authenticated (session w) = true
      \/ (button_clicked inp "admin_login_button" = true
          /\ u = ADMIN_USERNAME /\ p <> ""
          /\ bcrypt_checkpw p ADMIN_PASSWORD_HASH = Value true)).
Proof.
  intros u p w'. subst w'.
  pattern (admin_login_page inp w). match goal with |- ?P _ => set (Q := P) end.
  unfold admin_login_page, st_text_input, st_button, st_button_on_click. run.
  fold (typed inp "admin_username" "") (typed inp "admin_password" ""). fold u p.
  destruct (button_clicked inp "admin_login_button") eqn:Hclick.
  - destruct (truthy (Some u)) eqn:Hu; [destruct (truthy (Some p)) eqn:Hp|];
      cbn [andb negb].
    + match goal with |- context [is_admin u p ?W] =>
        pose proof (is_admin_cases u p W) as (Fw & Ft & _);
        destruct (is_admin u p W) as [[[|]|e] W'] eqn:E
      end; cbn [fst snd] in *; subst W'; run;
        subst Q; cbv beta; cbn; rewrite ?filter_app; cbn; rewrite ?app_nil_r;
        repeat (split; [reflexivity|]);
        first [ tauto
              | intros _; right; apply truthy_Some in Hp;
                destruct (proj1 Ft eq_refl) as [Ha Hb]; auto ].
    + run. subst Q; cbv beta; cbn; rewrite ?filter_app; cbn; rewrite ?app_nil_r;
        repeat (split; [reflexivity|]); tauto.
    + run. subst Q; cbv beta; cbn; rewrite ?filter_app; cbn; rewrite ?app_nil_r;
        repeat (split; [reflexivity|]); tauto.
  - run. subst Q; cbv beta; cbn; rewrite ?filter_app; cbn; rewrite ?app_nil_r;
      repeat (split; [reflexivity|]); tauto.
Qed.

(** X20. A login against a row whose stored password is no bcrypt hash
    does not end the run: the ValueError leaves [authenticate_user],
    skips the rest of the login page, and is shown by the handler around
    the pages as "An error occurred"; the run returns and the session is
    as it was. *)
Theorem login_with_bad_hash_is_reported (w : World) (user : Row) (msg : string) :
  let u := typed inp "login_username" "" in
  let p := typed inp "login_password" "" in
  page (session w) = login ->
  button_clicked inp "login_button" = true -> u <> "" -> p <> "" ->
  connects w -> executes w ->
  find (username_is u) (users w) = Some user ->
  bcrypt_checkpw p (col_password user) = ValueError msg ->
  fst (page_routing inp w) = Ok tt
  /\ session (snd (page_routing inp w)) = session w
  /\ trace (snd (page_routing inp w))
     = trace w ++ [st_header_ev "Login"; st_text_input_ev "Username";
                   st_text_input_ev "Password"; st_button_ev "Login";
                   db_connect_ev;
                   db_execute_ev (SelectUsersWhereUsername (Some u));
                   db_close_ev;
                   st_error_ev ("An error occurred: " ++ msg);
                   traceback_print_exc_ev].
Proof.
  intros u p Hpage Hclick Hu Hp Hc Hs Hfind Hbad.
  pattern (page_routing inp w). match goal with |- ?P _ => set (Q := P) end.
  unfold page_routing, top_level. run. rewrite Hpage.
  unfold login_page, st_text_input, st_button, st_button_on_click. run.
  fold (typed inp "login_username" "") (typed inp "login_password" ""). fold u p.
  rewrite Hclick. apply truthy_Some in Hu, Hp. rewrite Hu, Hp. cbn [andb negb].
  unfold authenticate_user. run.
  match goal with |- context [create_connection ?W] =>
    rewrite (create_connection_up W) by exact Hc end.
  rewrite cursor_execute_ok by exact Hs. cbn [run_sql fst snd]. run.
  unfold fetchone. rewrite hd_error_filter.
  cbn [users connected set_conn_plan set_trace]. rewrite Hfind. run.
  rewrite Hbad. cbn [of_bcrypt]. run. cbn [str]. subst Q. cbv beta.
  split; [reflexivity|]. split; [reflexivity|].
  cbn [snd trace set_trace set_users set_sql_plan connected set_conn_plan].
  rewrite <- !app_assoc. reflexivity.
Qed.

End LoginPages.

(** X20 at work: mallory logs in against her clear-text row. *)
Lemma login_with_bad_hash_is_reported_witness :
  find (@username_is strict "mallory") [alice; mallory] = Some mallory
  /\ fst (@page_routing strict (logs_in "mallory" "letmein")
            (world [alice; mallory] at_login [] []))
     = Ok tt.
Proof.
  split; [reflexivity|].
  refine (proj1 (@login_with_bad_hash_is_reported strict (logs_in "mallory" "letmein")
                   (world [alice; mallory] at_login [] []) mallory "Invalid salt"
                   eq_refl eq_refl _ _ eq_refl eq_refl eq_refl eq_refl));
    discriminate.
Defined.

(** ** The dashboard page and the database *)

Section UiRules.

Lemma ui_ret {A} (a : A) : ui_only (ret a).
Proof.
  intros w. exists a, []. cbn. rewrite app_nil_r. repeat split; constructor.
Qed.

Lemma ui_lift_ok {A} (a : A) : ui_only (lift (Ok a)).
Proof. exact (ui_ret a). Qed.

Lemma ui_bind {A B} (m : M A) (k : A -> M B) :
  ui_only m -> (forall a, ui_only (k a)) -> ui_only (bind m k).
Proof.
  intros Hm Hk w. destruct (Hm w) as (a & s1 & Ha & Ht & HP & Hu & Hc & Hs & Hn).
  unfold bind. destruct (m w) as [r w1]. cbn [fst snd] in *. subst r.
  destruct (Hk a w1) as (b & s2 & Hb & Ht2 & HP2 & Hu2 & Hc2 & Hs2 & Hn2).
  exists b, (s1 ++ s2). split; [exact Hb|].
  split; [rewrite Ht2, Ht, app_assoc; reflexivity|].
  split; [now apply Forall_app|]. repeat split; congruence.
Qed.

Lemma ui_emit (e : event) : is_db_event e = false -> ui_only (emit e).
Proof.
  intros He w. exists tt, [e]. cbn. repeat split. now constructor.
Qed.

Lemma ui_gets {A} (f : Session -> A) : ui_only (gets f).
Proof.
  intros w. exists (f (session w)), []. cbn. rewrite app_nil_r.
  repeat split; constructor.
Qed.

Lemma ui_modify_session (f : Session -> Session) : ui_only (modify_session f).
Proof.
  intros w. exists tt, []. cbn. rewrite app_nil_r. repeat split; constructor.
Qed.

Lemma ui_when (b : bool) (m : M unit) : ui_only m -> ui_only (when b m).
Proof. intros Hm. destruct b; [exact Hm | apply ui_ret]. Qed.

Lemma ui_for_each {A} (l : list A) (body : A -> M unit) :
  (forall x, ui_only (body x)) -> ui_only (for_each l body).
Proof.
  intros Hbody. induction l as [|x l IH]; cbn [for_each].
  - apply ui_ret.
  - apply ui_bind; [apply Hbody | intros _; exact IH].
Qed.

End UiRules.

Ltac ui_step :=
  first
    [ simple apply @ui_ret
    | simple apply @ui_lift_ok
    | simple apply @ui_gets
    | simple apply ui_modify_session
    | simple apply ui_emit; reflexivity
    | simple apply ui_when
    | simple apply @ui_for_each; intros ?
    | simple apply @ui_bind; [|intros ?]
    | progress cbv beta zeta
    | match goal with
      | |- ui_only (if ?b then _ else _) => destruct b
      | |- ui_only (match ?x with _ => _ end) => destruct x
      end ].

Ltac ui_script known :=
  unfold st_write, st_error, st_warning, st_success, st_header, st_plotly_chart,
         st_checkbox, st_button, st_button_on_click, st_text_input, st_selectbox,
         st_selectbox_plot_type, st_file_uploader, logout,
         go_to_login, go_to_register, go_to_main, go_to_edit_profile,
         go_to_admin_panel, go_to_admin_login;
  repeat first [known | ui_step].

Section DashboardAndDatabase.
Context {ext : Externals}.
Variable inp : Inputs.

Lemma ui_read_file (file : UploadedFile) : ui_only (read_file file).
Proof.
  intros w. destruct (read_file_cases file w) as (r & shown & E & _ & HP).
  exists r, shown. rewrite E. cbn. repeat split. exact HP.
Qed.

Lemma ui_chart_step (df : DataFrame) (plot : plot_type) (x y : string) :
  In x (map fst (columns df)) -> In y (map fst (columns df)) ->
  ui_only (chart_step df plot x y).
Proof.
  intros Hx Hy.
  destruct (column_dtype_of_column df x Hx) as [dx Edx].
  destruct (column_dtype_of_column df y Hy) as [dy Edy].
  unfold chart_step. rewrite Edx, Edy. ui_script fail.
Qed.

Lemma ui_selectbox {A B} (label : string) (first : A) (others : list A)
    (k : A -> M B) :
  ui_only (k (nth (selectbox_index inp label) (first :: others) first)) ->
  ui_only (bind (st_selectbox inp label first others) k).
Proof.
  intros Hk w. unfold st_selectbox. run.
  destruct (Hk (set_trace (trace w ++ [st_selectbox_ev label]) w))
    as (b & s2 & Hb & Ht & HP & Hu & Hc & Hs & Hn).
  exists b, (st_selectbox_ev label :: s2). split; [exact Hb|].
  split; [rewrite Ht; cbn [trace set_trace]; now rewrite <- app_assoc|].
  split; [constructor; [reflexivity | exact HP]|].
  repeat split; assumption.
Qed.

Lemma ui_chart_selection (df : DataFrame) (plot : plot_type) :
  ui_only (chart_selection inp df plot).
Proof.
  unfold chart_selection.
  destruct (map fst (columns df)) as [|first others] eqn:Ecols;
    [ui_script fail|].
  apply ui_selectbox. apply ui_selectbox.
  apply ui_chart_step; rewrite Ecols; apply selected_column.
Qed.

Lemma ui_analysis (df : DataFrame) : ui_only (analysis inp df).
Proof.
  unfold analysis, heatmap_step, options.
  ui_script ltac:(simple apply ui_chart_selection).
Qed.

(** X21. The dashboard page always returns and never touches the
    database, whatever is uploaded, ticked or selected: it tries no
    connection, sends no statement, draws no salt, and leaves the table
    of users as it was. *)
Theorem main_page_ui_only : ui_only (main_page inp).
Proof.
  unfold main_page, main_rest, main_banner, upload_step.
  ui_script ltac:(first [simple apply ui_read_file | simple apply ui_analysis]).
Qed.

End DashboardAndDatabase.

(** ** Connections are closed *)

Section NetRules.

Lemma count_events_app (f : event -> bool) (a b : list event) :
  count_events f (a ++ b) = count_events f a + count_events f b.
Proof. unfold count_events. now rewrite filter_app, length_app. Qed.

(** A computation that leaves the trace alone. *)
Lemma net_silent {A} (m : M A) :
  (forall w, trace (snd (m w)) = trace w) -> net 0 m.
Proof.
  intros H w. exists []. rewrite H, app_nil_r. now split.
Qed.

Lemma net_ret {A} (a : A) : net 0 (ret a).
Proof. now apply net_silent. Qed.

Lemma net_lift {A} (r : result A) : net 0 (lift r).
Proof. now apply net_silent. Qed.

Lemma net_rerun {A} : net 0 (@st_experimental_rerun A).
Proof. now apply net_silent. Qed.

Lemma net_gets {A} (f : Session -> A) : net 0 (gets f).
Proof. now apply net_silent. Qed.

Lemma net_modify_session (f : Session -> Session) : net 0 (modify_session f).
Proof. now apply net_silent. Qed.

Lemma net_bcrypt_gensalt : net 0 bcrypt_gensalt.
Proof. now apply net_silent. Qed.

Lemma net_emit (e : event) :
  is_connect e = false -> is_close e = false -> net 0 (emit e).
Proof.
  intros H1 H2 w. exists [e]. split; [reflexivity|].
  unfold count_events. cbn. now rewrite H1, H2.
Qed.

Lemma net_cursor_execute `{Externals} (c : Connection) (q : sql) :
  net 0 (cursor_execute c q).
Proof.
  intros w. unfold cursor_execute.
  destruct (sql_plan w) as [|[msg|] rest];
    try destruct (run_sql q (users w)) as [t rows]; run.
  - exists [db_execute_ev q]. now split.
  - exists []. cbn. rewrite app_nil_r. now split.
  - exists [db_execute_ev q]. now split.
Qed.

(** Sequencing, when what follows is balanced. *)
Lemma net_bind {A B} (j : nat) (m : M A) (k : A -> M B) :
  net j m -> (forall a, net 0 (k a)) -> net j (bind m k).
Proof.
  intros Hm Hk w. destruct (Hm w) as (s1 & Ht & Hn).
  unfold bind. destruct (m w) as [[a|e] w1]; cbn [fst snd] in *.
  - destruct (Hk a w1) as (s2 & Ht2 & Hn2). exists (s1 ++ s2).
    split; [rewrite Ht2, Ht, app_assoc; reflexivity|].
    rewrite !count_events_app. lia.
  - exists s1. now split.
Qed.

Lemma net_when (b : bool) (m : M unit) : net 0 m -> net 0 (when b m).
Proof. intros Hm. destruct b; [exact Hm | apply net_ret]. Qed.

Lemma net_for_each {A} (l : list A) (body : A -> M unit) :
  (forall x, net 0 (body x)) -> net 0 (for_each l body).
Proof.
  intros Hbody. induction l as [|x l IH]; cbn [for_each].
  - apply net_ret.
  - apply net_bind; [apply Hbody | intros _; exact IH].
Qed.

Lemma net_try_except_MySQLError {A} (body : M A) (handler : string -> M A) :
  net 0 body -> (forall msg, net 0 (handler msg)) ->
  net 0 (try_except_MySQLError body handler).
Proof.
  intros Hb Hh w. destruct (Hb w) as (s1 & Ht & Hn).
  unfold try_except_MySQLError.
  destruct (body w) as [[a|[msg|msg|msg|]] w1]; cbn [fst snd] in *;
    try (exists s1; now split).
  destruct (Hh msg w1) as (s2 & Ht2 & Hn2). exists (s1 ++ s2).
  split; [rewrite Ht2, Ht, app_assoc; reflexivity|].
  rewrite !count_events_app. lia.
Qed.

Lemma net_try_except_Exception {A} (body : M A) (handler : exn -> M A) :
  net 0 body -> (forall e, net 0 (handler e)) ->
  net 0 (try_except_Exception body handler).
Proof.
  intros Hb Hh w. destruct (Hb w) as (s1 & Ht & Hn).
  unfold try_except_Exception.
  destruct (body w) as [[a|e] w1] eqn:E; cbn [fst snd] in *;
    [exists s1; now split|].
  destruct e as [msg|msg|msg|]; [| | |exists s1; now split];
    match goal with |- context [handler ?e w1] =>
      destruct (Hh e w1) as (s2 & Ht2 & Hn2) end;
    exists (s1 ++ s2);
    (split; [rewrite Ht2, Ht, app_assoc; reflexivity|]);
    rewrite !count_events_app; lia.
Qed.

(** [try: body / finally: connection.close()] closes one connection
    more than it opens, whether the body returns or raises. *)
Lemma net_finally_close {A} (body : M A) (c : Connection) :
  net 0 body -> net 1 (try_finally body (connection_close c)).
Proof.
  intros Hb w. destruct (Hb w) as (s1 & Ht & Hn).
  unfold try_finally, connection_close. run.
  destruct (body w) as [r w1]. cbn [fst snd] in *.
  exists (s1 ++ [db_close_ev]). cbn [snd trace set_trace].
  split; [rewrite Ht, app_assoc; reflexivity|].
  rewrite !count_events_app. unfold count_events at 2 4. cbn. lia.
Qed.

(** A connection attempt, followed by something balanced when it fails
    and something that closes the connection when it succeeds. *)
Lemma net_connect {A} (k : option Connection -> M A) :
  net 0 (k None) -> (forall c, net 1 (k (Some c))) ->
  net 0 (bind create_connection k).
Proof.
  intros Hnone Hsome w. unfold bind, create_connection.
  destruct (conn_plan w) as [|[msg|] rest]; run.
  - destruct (Hsome pymysql_connection (set_trace (trace w ++ [db_connect_ev]) w))
      as (s2 & Ht & Hn).
    exists (db_connect_ev :: s2).
    split; [rewrite Ht; cbn [trace set_trace]; now rewrite <- app_assoc|].
    unfold count_events in *. cbn. lia.
  - match goal with |- context [k None ?W] =>
      destruct (Hnone W) as (s2 & Ht & Hn) end.
    eexists (_ :: s2).
    split; [rewrite Ht; cbn [trace set_trace]; rewrite <- app_assoc; reflexivity|].
    unfold count_events in *. cbn. lia.
  - match goal with |- context [k (Some pymysql_connection) ?W] =>
      destruct (Hsome pymysql_connection W) as (s2 & Ht & Hn) end.
    exists (db_connect_ev :: s2).
    split; [rewrite Ht; cbn [trace set_trace]; now rewrite <- app_assoc|].
    unfold count_events in *. cbn. lia.
Qed.

End NetRules.

Ltac net_step :=
  first
    [ simple apply @net_ret
    | simple apply @net_lift
    | simple apply @net_rerun
    | simple apply @net_gets
    | simple apply net_modify_session
    | simple apply net_bcrypt_gensalt
    | simple apply @net_cursor_execute
    | simple apply net_emit; reflexivity
    | simple apply net_when
    | simple apply @net_for_each; intros ?
    | simple apply @net_finally_close
    | simple apply @net_try_except_MySQLError; [|intros ?]
    | simple apply @net_try_except_Exception; [|intros ?]
    | simple apply @net_connect; [|intros ?]
    | simple apply @net_bind; [|intros ?]
    | progress cbv beta iota zeta
    | match goal with
      | |- net _ (if ?b then _ else _) => destruct b
      | |- net _ (match ?x with _ => _ end) => destruct x
      end ].

Ltac net_script known :=
  unfold st_write, st_error, st_warning, st_success, st_header, st_plotly_chart,
         st_checkbox, st_button, st_button_on_click, st_text_input, st_selectbox,
         st_selectbox_plot_type, st_file_uploader, logout,
         go_to_login, go_to_register, go_to_main, go_to_edit_profile,
         go_to_admin_panel, go_to_admin_login, hash_password, verify_password,
         connection_commit, detect_encoding;
  repeat first [known | net_step].

Section ConnectionsClosed.
Context {ext : Externals}.
Variable inp : Inputs.

Lemma net_check_existing_user (u em ph : string) :
  net 0 (check_existing_user u em ph).
Proof. unfold check_existing_user. net_script fail. Qed.

Lemma net_register_user (u fn ln em ph pw : string) :
  net 0 (register_user u fn ln em ph pw).
Proof.
  unfold register_user.
  net_script ltac:(simple apply net_check_existing_user).
Qed.

Lemma net_authenticate_user (u p : string) : net 0 (authenticate_user u p).
Proof. unfold authenticate_user. net_script fail. Qed.

Lemma net_is_admin (u p : string) : net 0 (is_admin u p).
Proof. unfold is_admin. net_script fail. Qed.

Lemma net_get_all_users : net 0 get_all_users.
Proof. unfold get_all_users. net_script fail. Qed.

Lemma net_update_user (u fn ln em ph : string) (pw : option string) :
  net 0 (update_user u fn ln em ph pw).
Proof. unfold update_user. net_script fail. Qed.

Lemma net_delete_user (u : string) : net 0 (delete_user u).
Proof. unfold delete_user. net_script fail. Qed.

Lemma net_register_page : net 0 (register_page inp).
Proof.
  unfold register_page.
  net_script ltac:(first [ simple apply net_check_existing_user
                         | simple apply net_register_user ]).
Qed.

Lemma net_login_page : net 0 (login_page inp).
Proof.
  unfold login_page. net_script ltac:(simple apply net_authenticate_user).
Qed.

Lemma net_admin_login_page : net 0 (admin_login_page inp).
Proof.
  unfold admin_login_page. net_script ltac:(simple apply net_is_admin).
Qed.

Lemma net_read_file (file : UploadedFile) : net 0 (read_file file).
Proof. unfold read_file. net_script fail. Qed.

Lemma net_main_page : net 0 (main_page inp).
Proof.
  unfold main_page, main_rest, main_banner, upload_step, analysis, heatmap_step,
         options, chart_selection, chart_step.
  net_script ltac:(simple apply net_read_file).
Qed.

Lemma net_edit_profile_page : net 0 (edit_profile_page inp).
Proof.
  unfold edit_profile_page, edit_profile_rest.
  net_script ltac:(simple apply net_update_user).
Qed.

Lemma net_admin_panel_page : net 0 (admin_panel_page inp).
Proof.
  unfold admin_panel_page, admin_panel_rest.
  net_script ltac:(first [ simple apply net_get_all_users
                         | simple apply net_update_user
                         | simple apply net_delete_user ]).
Qed.

(** X22. No run leaks a connection: on every page, for every input and
    every behaviour of the server and of bcrypt, what a run adds to the
    trace holds as many closes as connections opened - also when a
    statement raises, when bcrypt raises inside a [try], and when the
    admin panel stops the run to rerun it. *)
Theorem page_routing_closes_connections : net 0 (page_routing inp).
Proof.
  unfold page_routing, top_level.
  net_script ltac:(first [ simple apply net_register_page
                         | simple apply net_login_page
                         | simple apply net_admin_login_page
                         | simple apply net_main_page
                         | simple apply net_edit_profile_page
                         | simple apply net_admin_panel_page ]).
Qed.

End ConnectionsClosed.

Section RegisterPage.
Context {ext : Externals}.
Variable inp : Inputs.

Lemma ui_text_input {B} (label key value : string) (k : string -> M B) :
  ui_only (k (typed inp key value)) ->
  ui_only (bind (st_text_input inp label key value) k).
Proof.
  intros Hk w. unfold st_text_input. run. fold (typed inp key value).
  destruct (Hk (set_trace (trace w ++ [st_text_input_ev label]) w))
    as (b & s2 & Hb & Ht & HP & Hu & Hc & Hs & Hn).
  exists b, (st_text_input_ev label :: s2). split; [exact Hb|].
  split; [rewrite Ht; cbn [trace set_trace]; now rewrite <- app_assoc|].
  split; [constructor; [reflexivity | exact HP]|].
  repeat split; assumption.
Qed.

Lemma ui_button {B} (label key : string) (k : bool -> M B) :
  ui_only (k (button_clicked inp key)) ->
  ui_only (bind (st_button inp label key) k).
Proof.
  intros Hk w. unfold st_button. run.
  destruct (Hk (set_trace (trace w ++ [st_button_ev label]) w))
    as (b & s2 & Hb & Ht & HP & Hu & Hc & Hs & Hn).
  exists b, (st_button_ev label :: s2). split; [exact Hb|].
  split; [rewrite Ht; cbn [trace set_trace]; now rewrite <- app_assoc|].
  split; [constructor; [reflexivity | exact HP]|].
  repeat split; assumption.
Qed.

(** X23. The registration page checks the form before it goes to the
    database: when the button was not clicked, or a field is empty, or
    the two passwords differ, or the email or the phone number is
    malformed, the run returns with no connection tried, no statement
    sent, no salt drawn and the table as it was. *)
Theorem register_page_checks_form_first :
  let field := fun key => typed inp key "" in
  button_clicked inp "register_button" = false
  \/ In "" (map field ["new_username"; "new_name"; "new_last_name"; "new_email";
                       "new_phone"; "new_password"; "confirm_password"])
  \/ field "new_password" <> field "confirm_password"
  \/ is_valid_email (field "new_email") = false
  \/ is_valid_phone (field "new_phone") = false ->
  ui_only (register_page inp).
Proof.
  intros field H. unfold register_page.
  apply ui_bind; [ui_script fail|]. intros _.
  do 7 apply ui_text_input. apply ui_button.
  fold (field "new_username") (field "new_name") (field "new_last_name")
       (field "new_email") (field "new_phone") (field "new_password")
       (field "confirm_password").
  apply ui_bind; [|intros _; ui_script fail].
  destruct (button_clicked inp "register_button"); [|apply ui_ret].
  cbn [when].
  destruct (forallb _ _) eqn:Hall; cbn [negb]; [|ui_script fail].
  destruct (String.eqb_spec (field "new_password") (field "confirm_password"))
    as [Hpw | Hpw]; cbn [negb]; [|ui_script fail].
  destruct (is_valid_email (field "new_email")) eqn:He; cbn [negb]; [|ui_script fail].
  destruct (is_valid_phone (field "new_phone")) eqn:Hp; cbn [negb]; [|ui_script fail].
  exfalso. destruct H as [H | [H | [H | [H | H]]]]; try congruence.
  rewrite forallb_forall in Hall. cbn [map] in H.
  repeat (destruct H as [H | H];
          [rewrite H in Hall;
           match type of Hall with
           | forall x, In x ?l -> _ =>
               assert (Hin : In "" l) by (cbn; tauto)
           end;
           specialize (Hall "" Hin); discriminate|]).
  exact H.
Qed.

End RegisterPage.

(** X23 at work: the form is filled and the button clicked, and the
    email has no at sign. *)
Lemma register_page_checks_form_first_witness :
  button_clicked (fills_register_form "carol.example.org" "5551234567")
    "register_button" = true
  /\ ~ In "" (map (fun key =>
                     typed (fills_register_form "carol.example.org" "5551234567")
                       key "")
                ["new_username"; "new_name"; "new_last_name"; "new_email";
                 "new_phone"; "new_password"; "confirm_password"])
  /\ is_valid_email
       (typed (fills_register_form "carol.example.org" "5551234567") "new_email" "")
     = false
  /\ ui_only (@register_page sample
                (fills_register_form "carol.example.org" "5551234567")).
Proof.
  split; [reflexivity|]. split.
  - intros H. cbn in H. repeat (destruct H as [H | H]; [discriminate H|]). exact H.
  - split; [reflexivity|].
    exact (@register_page_checks_form_first sample
             (fills_register_form "carol.example.org" "5551234567")
             (or_intror (or_intror (or_intror (or_introl eq_refl))))).
Defined.

(** ** What stops a run *)

Section RerunRules.

Lemma nr_ret {A} (a : A) : never_reruns (ret a).
Proof. intros w. discriminate. Qed.

Lemma nr_gets {A} (f : Session -> A) : never_reruns (gets f).
Proof. intros w. discriminate. Qed.

Lemma nr_modify_session (f : Session -> Session) : never_reruns (modify_session f).
Proof. intros w. discriminate. Qed.

Lemma nr_emit (e : event) : never_reruns (emit e).
Proof. intros w. discriminate. Qed.

Lemma nr_bcrypt_gensalt : never_reruns bcrypt_gensalt.
Proof. intros w. discriminate. Qed.

Lemma nr_lift_bcrypt {A} (r : bcrypt_result A) : never_reruns (lift (of_bcrypt r)).
Proof. intros w. destruct r; discriminate. Qed.

Lemma nr_lift_pandas (r : read_result) : never_reruns (lift (of_pandas r)).
Proof. intros w. destruct r; discriminate. Qed.

Lemma nr_lift_dtype (df : DataFrame) (col : string) :
  never_reruns (lift (column_dtype df col)).
Proof. intros w. unfold column_dtype, lift. destruct (find _ _); discriminate. Qed.

Lemma nr_lift_index {A} : never_reruns (@lift A (Raise (PyException "IndexError"))).
Proof. intros w. discriminate. Qed.

Lemma nr_create_connection : never_reruns create_connection.
Proof.
  intros w. unfold create_connection. destruct (conn_plan w) as [|[msg|] rest];
    discriminate.
Qed.

Lemma nr_cursor_execute `{Externals} (c : Connection) (q : sql) :
  never_reruns (cursor_execute c q).
Proof.
  intros w. unfold cursor_execute.
  destruct (sql_plan w) as [|[msg|] rest];
    try destruct (run_sql q (users w)); discriminate.
Qed.

Lemma nr_bind {A B} (m : M A) (k : A -> M B) :
  never_reruns m -> (forall a, never_reruns (k a)) -> never_reruns (bind m k).
Proof.
  intros Hm Hk w. unfold bind. pose proof (Hm w) as H.
  destruct (m w) as [[a|e] w1]; cbn [fst] in *; [apply Hk | congruence].
Qed.

Lemma nr_when (b : bool) (m : M unit) : never_reruns m -> never_reruns (when b m).
Proof. intros Hm. destruct b; [exact Hm | apply nr_ret]. Qed.

Lemma nr_for_each {A} (l : list A) (body : A -> M unit) :
  (forall x, never_reruns (body x)) -> never_reruns (for_each l body).
Proof.
  intros Hbody. induction l as [|x l IH]; cbn [for_each].
  - apply nr_ret.
  - apply nr_bind; [apply Hbody | intros _; exact IH].
Qed.

Lemma nr_try_except_MySQLError {A} (body : M A) (handler : string -> M A) :
  never_reruns body -> (forall msg, never_reruns (handler msg)) ->
  never_reruns (try_except_MySQLError body handler).
Proof.
  intros Hb Hh w. unfold try_except_MySQLError. pose proof (Hb w) as H.
  destruct (body w) as [[a|[msg|msg|msg|]] w1]; cbn [fst] in *;
    try discriminate; [apply Hh | congruence].
Qed.

Lemma nr_try_except_Exception {A} (body : M A) (handler : exn -> M A) :
  never_reruns body -> (forall e, never_reruns (handler e)) ->
  never_reruns (try_except_Exception body handler).
Proof.
  intros Hb Hh w. unfold try_except_Exception. pose proof (Hb w) as H.
  destruct (body w) as [[a|[msg|msg|msg|]] w1]; cbn [fst] in *;
    try discriminate; try apply Hh. congruence.
Qed.

Lemma nr_try_finally_close {A} (body : M A) (c : Connection) :
  never_reruns body -> never_reruns (try_finally body (connection_close c)).
Proof.
  intros Hb w. unfold try_finally, connection_close. run. pose proof (Hb w) as H.
  destruct (body w) as [r w1]. exact H.
Qed.

Lemma nr_button {B} (inp : Inputs) (label key : string) (k : bool -> M B) :
  never_reruns (k (button_clicked inp key)) ->
  never_reruns (bind (st_button inp label key) k).
Proof. intros Hk w. unfold st_button. run. apply Hk. Qed.

(** Around the pages, a body that does not rerun returns. *)
Lemma top_level_returns (body : M unit) (w : World) :
  fst (body w) <> Raise RerunException -> fst (top_level body w) = Ok tt.
Proof.
  intros H. unfold top_level, try_except_Exception. run.
  destruct (body w) as [[[]|[msg|msg|msg|]] w1]; cbn [fst] in *;
    try reflexivity. congruence.
Qed.

Lemma top_level_cases (body : M unit) (w : World) :
  fst (top_level body w) = Ok tt \/ fst (top_level body w) = Raise RerunException.
Proof.
  unfold top_level, try_except_Exception. run.
  destruct (body w) as [[[]|[msg|msg|msg|]] w1]; cbn [fst]; auto.
Qed.

End RerunRules.

Ltac nr_step :=
  first
    [ simple apply @nr_ret
    | simple apply @nr_gets
    | simple apply nr_modify_session
    | simple apply nr_emit
    | simple apply nr_bcrypt_gensalt
    | simple apply @nr_lift_bcrypt
    | simple apply nr_lift_pandas
    | simple apply nr_lift_dtype
    | simple apply @nr_lift_index
    | simple apply nr_create_connection
    | simple apply @nr_cursor_execute
    | simple apply nr_when
    | simple apply @nr_for_each; intros ?
    | simple apply @nr_try_finally_close
    | simple apply @nr_try_except_MySQLError; [|intros ?]
    | simple apply @nr_try_except_Exception; [|intros ?]
    | simple apply @nr_button
    | simple apply @nr_bind; [|intros ?]
    | progress cbv beta iota zeta
    | match goal with
      | |- never_reruns (if ?b then _ else _) => destruct b
      | |- never_reruns (match ?x with _ => _ end) => destruct x
      end ].

Ltac nr_script known :=
  unfold st_write, st_error, st_warning, st_success, st_header, st_plotly_chart,
         st_checkbox, st_button_on_click, st_text_input, st_selectbox,
         st_selectbox_plot_type, st_file_uploader, logout,
         go_to_login, go_to_register, go_to_main, go_to_edit_profile,
         go_to_admin_panel, go_to_admin_login, hash_password, verify_password,
         connection_commit, detect_encoding;
  repeat first [known | nr_step].

Section WhatStopsARun.
Context {ext : Externals}.
Variable inp : Inputs.

Lemma nr_check_existing_user (u em ph : string) :
  never_reruns (check_existing_user u em ph).
Proof. unfold check_existing_user. nr_script fail. Qed.

Lemma nr_register_user (u fn ln em ph pw : string) :
  never_reruns (register_user u fn ln em ph pw).
Proof.
  unfold register_user. nr_script ltac:(simple apply nr_check_existing_user).
Qed.

Lemma nr_authenticate_user (u p : string) : never_reruns (authenticate_user u p).
Proof. unfold authenticate_user. nr_script fail. Qed.

Lemma nr_is_admin (u p : string) : never_reruns (is_admin u p).
Proof. unfold is_admin. nr_script fail. Qed.

Lemma nr_get_all_users : never_reruns get_all_users.
Proof. unfold get_all_users. nr_script fail. Qed.

Lemma nr_update_user (u fn ln em ph : string) (pw : option string) :
  never_reruns (update_user u fn ln em ph pw).
Proof. unfold update_user. nr_script fail. Qed.

Lemma nr_delete_user (u : string) : never_reruns (delete_user u).
Proof. unfold delete_user. nr_script fail. Qed.

Lemma nr_read_file (file : UploadedFile) : never_reruns (read_file file).
Proof. unfold read_file. nr_script fail. Qed.

Lemma nr_register_page : never_reruns (register_page inp).
Proof.
  unfold register_page.
  nr_script ltac:(first [ simple apply nr_check_existing_user
                        | simple apply nr_register_user ]).
Qed.

Lemma nr_login_page : never_reruns (login_page inp).
Proof. unfold login_page. nr_script ltac:(simple apply nr_authenticate_user). Qed.

Lemma nr_admin_login_page : never_reruns (admin_login_page inp).
Proof. unfold admin_login_page. nr_script ltac:(simple apply nr_is_admin). Qed.

Lemma nr_main_page : never_reruns (main_page inp).
Proof.
  unfold main_page, main_rest, main_banner, upload_step, analysis, heatmap_step,
         options, chart_selection, chart_step.
  nr_script ltac:(simple apply nr_read_file).
Qed.

Lemma nr_edit_profile_page : never_reruns (edit_profile_page inp).
Proof.
  unfold edit_profile_page, edit_profile_rest.
  nr_script ltac:(simple apply nr_update_user).
Qed.

Lemma nr_admin_panel_page :
  button_clicked inp "Yes, delete user" = false ->
  never_reruns (admin_panel_page inp).
Proof.
  intros Hno. unfold admin_panel_page, admin_panel_rest.
  nr_script ltac:(first [ simple apply nr_get_all_users
                        | simple apply nr_update_user
                        | simple apply nr_delete_user
                        | rewrite Hno; exact (nr_ret tt) ]).
Qed.

(** X24. A run returns, whatever is raised inside a page, with one
    exception: the rerun the admin panel asks for, and that only on the
    admin panel with the button "Yes, delete user" clicked. *)
Theorem only_a_confirmed_deletion_stops_a_run (w : World) :
  fst (page_routing inp w) = Ok tt
  \/ (fst (page_routing inp w) = Raise RerunException
      /\ page (session w) = admin_panel
      /\ button_clicked inp "Yes, delete user" = true).
Proof.
  unfold page_routing.
  match goal with |- context [top_level ?b] => set (body := b) end.
  assert (Hbody : (page (session w) = admin_panel
                   /\ button_clicked inp "Yes, delete user" = true)
                  \/ fst (body w) <> Raise RerunException).
  { subst body. unfold bind at 1. unfold gets at 1.
    destruct (page (session w)) eqn:Hp.
    - right. apply nr_register_page.
    - right. apply nr_login_page.
    - right. apply nr_admin_login_page.
    - right. apply nr_main_page.
    - right. apply nr_edit_profile_page.
    - destruct (button_clicked inp "Yes, delete user") eqn:Hc; [now left|].
      right. now apply nr_admin_panel_page. }
  destruct Hbody as [[Hp Hc] | Hnr].
  - destruct (top_level_cases body w) as [H | H]; [now left | right; auto].
  - left. now apply top_level_returns.
Qed.

End WhatStopsARun.
